(** * jenkins_top_jobs_pyjenkins: collection, aggregation and ranking

    A shallow embedding of [jenkins_top_jobs_pyjenkins.py].

    Conventions of the embedding:
    - Python [int] is [Z]; a finite Python [float] is the rational [Q] it
      denotes, and every float operation rounds its exact result to the
      nearest binary64 number, ties to even (module [Float]); the exponent
      range is left unbounded, so that overflow to infinity and subnormal
      numbers are not represented;
    - a JSON field read with [dict.get] is an [option]: [None] is a missing
      key, and also a JSON null where the script reads the field through
      [or] or [str] ([fullname], [name], [url], [duration], [result]);
    - an instant ([datetime], UTC) is its number of microseconds since the
      epoch;
    - a raised exception is the [Raise] case of [res]; [try]/[except] is a
      match on it;
    - the python-jenkins client is a record of the answers of its four
      queries;
    - a pandas DataFrame of rows is a [list Row]. *)

From Stdlib Require Import ZArith QArith Qround Qabs Qpower.
From Stdlib Require Import List String Ascii Bool.
From Stdlib Require Import Lia Lqa.
From Stdlib Require Import Permutation Sorted.
From Stdlib Require Import DecimalString.
Import ListNotations.

Local Open Scope string_scope.
Local Open Scope Z_scope.

(** ** Exceptions *)

Inductive Exception : Type :=
| NotFoundException
| JenkinsException
| KeyError
| ValueError
| OverflowError
| OSError.

Inductive res (A : Type) : Type :=
| Ok (a : A)
| Raise (e : Exception).

Arguments Ok {A} a.
Arguments Raise {A} e.

Definition res_bind {A B : Type} (c : res A) (k : A -> res B) : res B :=
  match c with
  | Ok a => k a
  | Raise e => Raise e
  end.

Notation "x <- c ;; k" := (res_bind c (fun x => k))
  (at level 61, c at next level, right associativity).

(** ** Binary floating point *)

Module Float.

(** Rounding of a rational to the nearest integer, ties to even. *)
Definition round_half_even (x : Q) : Z :=
  let f := Qfloor x in
  match Qcompare (x - inject_Z f) (1 # 2) with
  | Lt => f
  | Gt => f + 1
  | Eq => if Z.even f then f else f + 1
  end.

Definition pow2 (e : Z) : Q := Qpower 2 e.

(** The magnitude of a non-zero rational: the [m] with
    [2^(m-1) <= |x| < 2^m], found from the sizes of numerator and
    denominator. *)
Definition mag (x : Q) : Z :=
  let l := Z.log2 (Z.abs (Qnum x)) - Z.log2 (Zpos (Qden x)) in
  if Qlt_le_dec (Qabs x) (pow2 l) then l else l + 1.

(** The binary64 number nearest to [x]: [x] is scaled so that its
    significand has 53 bits, and the significand is rounded to an integer,
    ties to even. *)
Definition rnd (x : Q) : Q :=
  if Qeq_bool x 0 then 0%Q
  else
    let e := mag x - 53 in
    (inject_Z (round_half_even (x / pow2 e)) * pow2 e)%Q.

(** [float(z)] of an integer. *)
Definition of_int (z : Z) : Q := rnd (inject_Z z).

(** [x + y], [x * y] and [x / y] on floats. *)
Definition add (x y : Q) : Q := rnd (x + y).
Definition mul (x y : Q) : Q := rnd (x * y).
Definition div (x y : Q) : Q := rnd (x / y).

(** [a / b] on integers: the quotient, rounded once. *)
Definition true_div (a b : Z) : Q := rnd (inject_Z a / inject_Z b).

End Float.

(** ** Python built-ins used by the script *)

Module Py.

(** [a or b] on optional strings: the empty string and [None] are falsy. *)
Definition truthy_str (s : option string) : bool :=
  match s with
  | Some s' => negb (String.eqb s' "")
  | None => false
  end.

Definition or_str (a b : option string) : option string :=
  if truthy_str a then a else b.

(** [x or 0] on an optional integer. *)
Definition or_zero (x : option Z) : Z :=
  match x with
  | Some z => z
  | None => 0
  end.

(** [a or b] where [b] is a string. *)
Definition or_else (a : option string) (b : string) : string :=
  match a with
  | Some s => if String.eqb s "" then b else s
  | None => b
  end.

(** [d.get(key, default)]. *)
Definition get_or {A : Type} (x : option A) (default : A) : A :=
  match x with
  | Some v => v
  | None => default
  end.

(** [str(x)] of an optional string: [str(None)] is the text [None]. *)
Definition str (x : option string) : string :=
  match x with
  | Some s => s
  | None => "None"
  end.

(** [str(n)] of an integer, as an f-string renders it. *)
Definition str_int (n : Z) : string :=
  NilZero.string_of_int (Z.to_int n).

(** [int(x)] of a float: truncation toward zero. *)
Definition int (x : Q) : Z :=
  Z.quot (Qnum x) (Zpos (Qden x)).

(** [divmod(a, b)]: floor division and its remainder. *)
Definition divmod (a b : Z) : Z * Z := (a / b, a mod b).

(** [l[:n]]: the first [n] items, or all but the last [-n] when [n < 0].
    [DataFrame.head(n)] takes rows the same way. *)
Definition slice_to {A : Type} (n : Z) (l : list A) : list A :=
  if 0 <=? n then firstn (Z.to_nat n) l
  else firstn (List.length l - Z.to_nat (- n)) l.

(** [s.rstrip(c)] for a one-character [c]. *)
Fixpoint rstrip (c : ascii) (s : string) : string :=
  match s with
  | EmptyString => EmptyString
  | String a s' =>
      match rstrip c s' with
      | EmptyString => if Ascii.eqb a c then EmptyString else String a EmptyString
      | r => String a r
      end
  end.

(** [s.replace(c, by)] for a one-character [c]. *)
Fixpoint replace (c : ascii) (by_ : string) (s : string) : string :=
  match s with
  | EmptyString => EmptyString
  | String a s' =>
      if Ascii.eqb a c then by_ ++ replace c by_ s'
      else String a (replace c by_ s')
  end.

(** [round(x, 2)] of a float: the value of [x] is rounded to a whole
    number of hundredths, ties to even, and the float nearest to that
    decimal is returned. *)
Definition round2 (x : Q) : Q :=
  Float.rnd (inject_Z (Float.round_half_even (x * 100)) / 100).

(** [sum(xs)] of floats, from 0: the items are added from left to right,
    each addition rounding (CPython up to 3.11; later versions carry a
    compensation term along). *)
Definition sum (xs : list Q) : Q :=
  fold_left Float.add xs 0%Q.

(** [max(xs, default=d)]: the first maximal item. *)
Definition max_default (xs : list Q) (d : Q) : Q :=
  match xs with
  | [] => d
  | x :: rest =>
      fold_left (fun m y => if Qlt_le_dec m y then y else m) rest x
  end.

End Py.

(** ** Instants *)

(** [datetime.min] and [datetime.max] in UTC, in microseconds since the
    epoch: 0001-01-01T00:00:00 and 9999-12-31T23:59:59.999999. *)
Definition DATETIME_MIN_US : Z := -62135596800000000.
Definition DATETIME_MAX_US : Z := 253402300799999999.

Definition in_datetime_range (us : Z) : bool :=
  (DATETIME_MIN_US <=? us) && (us <=? DATETIME_MAX_US).

(** [datetime.fromtimestamp(t, tz=timezone.utc)] of a float [t]: the whole
    seconds and the fraction of [t] are taken apart, the fraction is scaled
    to microseconds in floating point and rounded to an integer, ties to
    even; a year outside 1..9999 raises. *)
Definition fromtimestamp (t : Q) : res Z :=
  let intpart := Py.int t in
  let floatpart := (t - inject_Z intpart)%Q in
  let us := Float.round_half_even (Float.mul floatpart 1000000) in
  let total := intpart * 1000000 + us in
  if in_datetime_range total then Ok total else Raise ValueError.

(** [datetime.fromtimestamp(ts_ms / 1000, tz=timezone.utc)]: the instant of
    a millisecond timestamp, through the float quotient [ts_ms / 1000]. *)
Definition fromtimestamp_ms (ts_ms : Z) : res Z :=
  fromtimestamp (Float.true_div ts_ms 1000).

Definition US_PER_DAY : Z := 86400000000.

(** [datetime.now(timezone.utc) - timedelta(days=days)]: raises when the
    result leaves the range of [datetime]. *)
Definition minus_days (now days : Z) : res Z :=
  let us := now - days * US_PER_DAY in
  if in_datetime_range us then Ok us else Raise OverflowError.

(** ** within_window *)

Definition within_window (ts_ms : Z) (since_dt : option Z) : res bool :=
  match since_dt with
  | None => Ok true
  | Some since =>
      ts <- fromtimestamp_ms ts_ms ;;
      Ok (since <=? ts)
  end.

(** ** fmt_seconds *)

Definition fmt_seconds (sec : Q) : string :=
  if Qeq_bool sec 0 || Qle_bool sec 0 then "0s"
  else
    let '(m, s) := Py.divmod (Py.int sec) 60 in
    let '(h, m) := Py.divmod m 60 in
    if negb (h =? 0) then
      Py.str_int h ++ "h " ++ Py.str_int m ++ "m " ++ Py.str_int s ++ "s"
    else if negb (m =? 0) then
      Py.str_int m ++ "m " ++ Py.str_int s ++ "s"
    else
      Py.str_int s ++ "s".


(** ** Data model *)

(** An entry of [get_all_jobs()]. *)
Record Job : Type := {
  fullname : option string;
  name : option string
}.

(** An entry of the [builds] list of a job. *)
Record BuildRef : Type := {
  number : option Z
}.

(** The answer of [get_job_info]. *)
Record JobInfo : Type := {
  info_builds : option (list BuildRef);
  info_url : option string
}.

(** The answer of [get_build_info]: times in milliseconds. *)
Record BuildInfo : Type := {
  timestamp : option Z;
  duration : option Z;
  result : option string
}.

(** The python-jenkins client of one controller. *)
Record Jenkins : Type := {
  get_whoami : res unit;
  get_all_jobs : res (list Job);
  get_job_info : string -> res JobInfo;
  get_build_info : string -> Z -> res BuildInfo
}.

(** One row of the report. *)
Record Row : Type := {
  controller : string;
  job_name : string;
  job_url : string;
  builds : Z;
  failures : Z;
  failure_rate : Q;
  total_runtime_seconds : Q;
  avg_runtime_seconds : Q;
  longest_runtime_seconds : Q
}.

(** ** collect_controller_jobs *)

(** [(b.get("duration") or 0) / 1000.0] *)
Definition runtime_seconds (b : BuildInfo) : Q :=
  Float.div (Float.of_int (Py.or_zero (duration b))) 1000.

(** [str(b.get("result")) not in ("SUCCESS", "ABORTED", "None")] *)
Definition is_failure (b : BuildInfo) : bool :=
  negb (existsb (String.eqb (Py.str (result b))) ["SUCCESS"; "ABORTED"; "None"]).

(** The body of the [try] of the loop over [builds_meta]: the build's
    details and whether it is in the window. *)
Definition try_build (jc : Jenkins) (name : string) (since_dt : option Z)
    (b : BuildRef) : res (BuildInfo * bool) :=
  n <- match number b with
       | Some n => Ok n
       | None => Raise KeyError
       end ;;
  binfo <- get_build_info jc name n ;;
  inw <- within_window (Py.get_or (timestamp binfo) 0) since_dt ;;
  Ok (binfo, inw).

(** The loop over [builds_meta], appending to [builds]. *)
Fixpoint fetch_builds (jc : Jenkins) (name : string) (since_dt : option Z)
    (builds_meta : list BuildRef) (builds : list BuildInfo) : list BuildInfo :=
  match builds_meta with
  | [] => builds
  | b :: rest =>
      match try_build jc name since_dt b with
      | Ok (binfo, true) =>
          fetch_builds jc name since_dt rest (builds ++ [binfo])%list
      | Ok (_, false) => fetch_builds jc name since_dt rest builds
      | Raise _ => fetch_builds jc name since_dt rest builds
      end
  end.

(** The statistics of a job from its in-window builds. *)
Definition make_row (controller_url name : string) (info : JobInfo)
    (builds : list BuildInfo) : Row :=
  let count := Z.of_nat (List.length builds) in
  let total_runtime := Py.sum (map runtime_seconds builds) in
  let avg_runtime :=
    if count =? 0 then 0%Q else Float.div total_runtime (Float.of_int count) in
  let longest := Py.max_default (map runtime_seconds builds) 0%Q in
  let failures := Z.of_nat (List.length (filter is_failure builds)) in
  let job_url :=
    Py.or_else (info_url info)
      (Py.rstrip "/" controller_url ++ "/job/" ++ Py.replace "/" "/job/" name) in
  {| controller := controller_url;
     job_name := name;
     job_url := job_url;
     builds := count;
     failures := failures;
     failure_rate := Py.round2 (Float.mul (Float.true_div failures count) 100);
     total_runtime_seconds := Py.round2 total_runtime;
     avg_runtime_seconds := Py.round2 avg_runtime;
     longest_runtime_seconds := Py.round2 longest |}.

(** The in-window builds of a job whose metadata was fetched. *)
Definition job_builds (jc : Jenkins) (name : string) (max_builds : Z)
    (since_dt : option Z) (info : JobInfo) : list BuildInfo :=
  let builds_meta := Py.slice_to max_builds (Py.get_or (info_builds info) []) in
  fetch_builds jc name since_dt builds_meta [].

(** One iteration of the loop over the jobs: the row it appends, or [None]
    where it reaches a [continue]. *)
Definition job_row (jc : Jenkins) (controller_url : string) (max_builds : Z)
    (since_dt : option Z) (job : Job) : option Row :=
  match Py.or_str (fullname job) (name job) with
  | None => None
  | Some name =>
      if String.eqb name "" then None
      else
        match get_job_info jc name with
        | Raise _ => None
        | Ok info =>
            match job_builds jc name max_builds since_dt info with
            | [] => None
            | builds => Some (make_row controller_url name info builds)
            end
        end
  end.

(** The loop over the jobs, appending to [rows].  The pause every fiftieth
    job changes no value and is left out. *)
Fixpoint scan_jobs (jc : Jenkins) (controller_url : string) (max_builds : Z)
    (since_dt : option Z) (jobs : list Job) (rows : list Row) : list Row :=
  match jobs with
  | [] => rows
  | job :: rest =>
      match job_row jc controller_url max_builds since_dt job with
      | Some r =>
          scan_jobs jc controller_url max_builds since_dt rest (rows ++ [r])%list
      | None => scan_jobs jc controller_url max_builds since_dt rest rows
      end
  end.

Definition collect_controller_jobs (jc : Jenkins) (controller_url : string)
    (max_builds : Z) (since_dt : option Z) : res (list Row) :=
  jobs <- get_all_jobs jc ;;
  Ok (scan_jobs jc controller_url max_builds since_dt jobs []).

(** What an iteration of the loop over the jobs appends. *)
Definition job_rows (jc : Jenkins) (controller_url : string) (max_builds : Z)
    (since_dt : option Z) (job : Job) : list Row :=
  match job_row jc controller_url max_builds since_dt job with
  | Some r => [r]
  | None => []
  end.

(** ** collect_stats *)

(** The lines printed while collecting. *)
Inductive Event : Type :=
| ScanningController (base : string)
| UnableToAuth (base : string) (e : Exception)
| JobsWithBuildsInWindow (n : Z)
| FailedCollecting (base : string) (e : Exception).

(** [since_dt]: absent unless [days > 0]. *)
Definition window_start (now days : Z) : res (option Z) :=
  if negb (days =? 0) && (0 <? days) then
    since <- minus_days now days ;;
    Ok (Some since)
  else Ok None.

Section Collect.

(** [jenkins.Jenkins(base, username=user, password=token)] *)
Variable connect : string -> string -> string -> Jenkins.
Variables user token : string.
Variable max_builds : Z.

(** The loop over the controllers, extending [all_rows]. *)
Fixpoint scan_controllers (since_dt : option Z) (controllers : list string)
    (log : list Event) (all_rows : list Row) : list Event * list Row :=
  match controllers with
  | [] => (log, all_rows)
  | base :: rest =>
      let base := Py.rstrip "/" base in
      let log := (log ++ [ScanningController base])%list in
      let jc := connect base user token in
      match get_whoami jc with
      | Raise e =>
          scan_controllers since_dt rest (log ++ [UnableToAuth base e])%list all_rows
      | Ok _ =>
          match collect_controller_jobs jc base max_builds since_dt with
          | Ok rows =>
              scan_controllers since_dt rest
                (log ++ [JobsWithBuildsInWindow (Z.of_nat (List.length rows))])%list
                (all_rows ++ rows)%list
          | Raise e =>
              scan_controllers since_dt rest
                (log ++ [FailedCollecting base e])%list all_rows
          end
      end
  end.

(** [now] is the reading of the clock, in microseconds since the epoch. *)
Definition collect_stats (now : Z) (controllers : list string) (days : Z)
    : res (list Event * list Row) :=
  since_dt <- window_start now days ;;
  Ok (scan_controllers since_dt controllers [] []).

End Collect.

(** ** Ranking (the end of main) *)

(** The choices of [--sort]. *)
Inductive SortKey : Type :=
| by_builds
| by_total_runtime_seconds
| by_avg_runtime_seconds
| by_longest_runtime_seconds.

(** The column of a row that [by=args.sort] names. *)
Definition sort_column (by_ : SortKey) (r : Row) : Q :=
  match by_ with
  | by_builds => inject_Z (builds r)
  | by_total_runtime_seconds => total_runtime_seconds r
  | by_avg_runtime_seconds => avg_runtime_seconds r
  | by_longest_runtime_seconds => longest_runtime_seconds r
  end.

(** A row of the console preview. *)
Record PreviewRow : Type := {
  preview_controller : string;
  preview_job_name : string;
  preview_builds : Z;
  preview_failure_rate : Q;
  avg_runtime_human : string;
  longest_runtime_human : string
}.

Definition preview_row (r : Row) : PreviewRow :=
  {| preview_controller := controller r;
     preview_job_name := job_name r;
     preview_builds := builds r;
     preview_failure_rate := failure_rate r;
     avg_runtime_human := fmt_seconds (avg_runtime_seconds r);
     longest_runtime_human := fmt_seconds (longest_runtime_seconds r) |}.

Module Pandas.

(** [df.head(n)] *)
Definition head (n : Z) (df : list Row) : list Row := Py.slice_to n df.

(** [a] may stand before [b] in a frame sorted on [by_] with
    [ascending=False]. *)
Definition descending (by_ : SortKey) (a b : Row) : Prop :=
  (sort_column by_ b <= sort_column by_ a)%Q.

(** What [df.sort_values(by=..., ascending=False)] promises when [kind] is
    left to its default ([quicksort], which pandas documents as not stable):
    the same rows, in descending order of the column. *)
Definition sorts_descending (sort_values : SortKey -> list Row -> list Row)
    : Prop :=
  forall by_ df,
    Permutation df (sort_values by_ df) /\
    Sorted (descending by_) (sort_values by_ df).

(** A sort that keeps this promise: an insertion sort. *)
Fixpoint insert_row (by_ : SortKey) (x : Row) (l : list Row) : list Row :=
  match l with
  | [] => [x]
  | y :: l' =>
      if Qlt_le_dec (sort_column by_ x) (sort_column by_ y)
      then y :: insert_row by_ x l'
      else x :: l
  end.

Definition sort_values_stable (by_ : SortKey) (df : list Row) : list Row :=
  fold_right (insert_row by_) [] df.

End Pandas.

Section Report.

(** [df.sort_values(by=by_, ascending=False)] *)
Variable sort_values : SortKey -> list Row -> list Row.

(** From [if not rows] on: nothing when there are no rows, else the sorted
    frame that is exported and the preview that is printed. *)
Definition report (by_ : SortKey) (top : Z) (rows : list Row)
    : option (list Row * list PreviewRow) :=
  match rows with
  | [] => None
  | _ =>
      let df_sorted := sort_values by_ rows in
      let top_df := Pandas.head top df_sorted in
      Some (df_sorted, map preview_row top_df)
  end.

End Report.

(** ** A scenario: controller A with one job, controller B refusing logins *)

Module Scenario.

Definition build (ts d : Z) (r : string) : BuildInfo :=
  {| timestamp := Some ts; duration := Some d; result := Some r |}.

Definition jenkins_a : Jenkins :=
  {| get_whoami := Ok tt;
     get_all_jobs := Ok [ {| fullname := Some "build"; name := Some "build" |} ];
     get_job_info := fun n =>
       if String.eqb n "build" then
         Ok {| info_builds := Some [ {| number := Some 3 |};
                                      {| number := Some 2 |};
                                      {| number := Some 1 |} ];
               info_url := None |}
       else Raise NotFoundException;
     get_build_info := fun n k =>
       if negb (String.eqb n "build") then Raise NotFoundException
       else if k =? 1 then Ok (build 1700000000000 60000 "SUCCESS")
       else if k =? 2 then Ok (build 1700000100000 120000 "FAILURE")
       else if k =? 3 then Ok (build 1700000200000 180000 "ABORTED")
       else Raise NotFoundException |}.

Definition jenkins_b : Jenkins :=
  {| get_whoami := Raise JenkinsException;
     get_all_jobs := Raise JenkinsException;
     get_job_info := fun _ => Raise JenkinsException;
     get_build_info := fun _ _ => Raise JenkinsException |}.

Definition connect (base user token : string) : Jenkins :=
  if String.eqb base "https://a.example.com" then jenkins_a else jenkins_b.

(** 2023-11-20T00:00:00Z *)
Definition now : Z := 1700438400000000.

Definition rows_a : list Row :=
  match collect_controller_jobs jenkins_a "https://a.example.com" 200 None with
  | Ok rows => rows
  | Raise _ => []
  end.

(** Two jobs with one build each. *)
Definition row_of (job : string) : Row :=
  make_row "https://a.example.com" job
    {| info_builds := None; info_url := None |}
    [build 1700000000000 60000 "SUCCESS"].

Definition tied_rows : list Row := [row_of "first"; row_of "second"].

End Scenario.

(** ** The wording of the specification *)

(** The results that do not count as failures: SUCCESS, ABORTED, and an
    unknown one, that is no result at all (a missing or null field) or
    the text that [str] gives for it. *)
Definition excluded_result (r : option string) : Prop :=
  r = Some "SUCCESS" \/ r = Some "ABORTED" \/ r = None \/ r = Some "None".

(** The hours, minutes and seconds of a whole number of seconds, leading
    zero-valued units left out. *)
Definition hms (h m s : Z) : string :=
  if h =? 0 then
    if m =? 0 then Py.str_int s ++ "s"
    else Py.str_int m ++ "m " ++ Py.str_int s ++ "s"
  else Py.str_int h ++ "h " ++ Py.str_int m ++ "m " ++ Py.str_int s ++ "s".

(** [100 * f / c] rounded to two decimals, ties to even. *)
Definition percent_rounded (f c : Z) : Q :=
  (inject_Z (Float.round_half_even (100 * inject_Z f / inject_Z c * 100)) / 100)%Q.

(** The failure rate is the percentage of failures rounded to two
    decimals, as a float. *)
Definition rate_is_rounded_percentage (r : Row) : Prop :=
  (failure_rate r == Float.rnd (percent_rounded (failures r) (builds r)))%Q.

(** The average agrees with the total over the count to within a unit of
    the last rounded digit and the relative error of a float; the failure
    rate is the float of a whole number [k] of hundredths with [k / 100]
    within half a hundredth of the percentage of failures, up to the error
    of the float quotient and product, and exactly so below 10^11 builds;
    and it lies between 0 and 100. *)
Definition rates_consistent (r : Row) : Prop :=
  0 < builds r /\
  (Qabs (avg_runtime_seconds r - total_runtime_seconds r / inject_Z (builds r))
   <= (1 # 100) + (Qabs (total_runtime_seconds r) + 1) * (1 # 1000000000000000))%Q /\
  (exists k : Z,
     failure_rate r = Float.rnd (inject_Z k / 100) /\
     (Qabs (inject_Z k / 100
            - 100 * inject_Z (failures r) / inject_Z (builds r))
      <= (1 # 200) + (1 # 10000000000000))%Q /\
     (builds r <= 100000000000 ->
      (Qabs (inject_Z k / 100
             - 100 * inject_Z (failures r) / inject_Z (builds r))
       <= 1 # 200)%Q)) /\
  (0 <= failure_rate r <= 100)%Q.

(** The rows that the loop over the controllers collects. *)
Definition collected_rows (connect : string -> string -> string -> Jenkins)
    (user token : string) (max_builds : Z) (since_dt : option Z)
    (controllers : list string) : list Row :=
  snd (scan_controllers connect user token max_builds since_dt controllers [] []).

(** ** The rest of main *)

(** Text: a Python [str] is the string of its UTF-8 bytes. *)
Module PyStr.

(** [s.split(c)] for a one-character separator. *)
Fixpoint split (c : ascii) (s : string) : list string :=
  match s with
  | EmptyString => [EmptyString]
  | String a s' =>
      if Ascii.eqb a c then EmptyString :: split c s'
      else
        match split c s' with
        | h :: t => String a h :: t
        | [] => [String a EmptyString]
        end
  end.

(** The characters that [str.isspace] accepts, by the length of their
    encoding: U+0009..000D, U+001C..0020; U+0085, U+00A0; U+1680,
    U+2000..200A, U+2028, U+2029, U+202F, U+205F, U+3000. *)
Definition space1 (a : ascii) : bool :=
  let n := N_of_ascii a in
  ((9 <=? n) && (n <=? 13) || (28 <=? n) && (n <=? 32))%N.

Definition space2 (a b : ascii) : bool :=
  let '(m, n) := (N_of_ascii a, N_of_ascii b) in
  ((m =? 194) && ((n =? 133) || (n =? 160)))%N.

Definition space3 (a b c : ascii) : bool :=
  let '(m, n, o) := (N_of_ascii a, N_of_ascii b, N_of_ascii c) in
  ((m =? 225) && (n =? 154) && (o =? 128)
   || (m =? 226) && (n =? 128)
      && ((128 <=? o) && (o <=? 138) || (o =? 168) || (o =? 169) || (o =? 175))
   || (m =? 226) && (n =? 129) && (o =? 159)
   || (m =? 227) && (n =? 128) && (o =? 128))%N.

(** Dropping the leading characters that are spaces, for three tests of
    the one-, two- and three-byte encodings. *)
Fixpoint drop_spaces (s1 : ascii -> bool) (s2 : ascii -> ascii -> bool)
    (s3 : ascii -> ascii -> ascii -> bool) (l : list ascii) : list ascii :=
  match l with
  | [] => []
  | a :: l1 =>
      if s1 a then drop_spaces s1 s2 s3 l1
      else
        match l1 with
        | [] => l
        | b :: l2 =>
            if s2 a b then drop_spaces s1 s2 s3 l2
            else
              match l2 with
              | [] => l
              | c :: l3 => if s3 a b c then drop_spaces s1 s2 s3 l3 else l
              end
        end
  end.

(** [s.lstrip()] on the bytes of [s]. *)
Definition lstrip (l : list ascii) : list ascii :=
  drop_spaces space1 space2 space3 l.

(** [s.rstrip()] on the bytes of [s] in reverse order. *)
Definition rstrip_rev (l : list ascii) : list ascii :=
  drop_spaces space1 (fun a b => space2 b a) (fun a b c => space3 c b a) l.

(** [s.strip()] *)
Definition strip (s : string) : string :=
  string_of_list_ascii
    (rev (rstrip_rev (rev (lstrip (list_ascii_of_string s))))).

(** The truth value of a string. *)
Definition truthy (s : string) : bool := negb (String.eqb s "").

End PyStr.

(** [[c.strip() for c in args.controllers.split(",") if c.strip()]] *)
Definition parse_controllers (controllers : string) : list string :=
  map PyStr.strip
    (filter (fun c => PyStr.truthy (PyStr.strip c)) (PyStr.split "," controllers)).

(** The parsed command line. *)
Record Args : Type := {
  arg_controllers : string;
  arg_user : string;
  arg_token : string;
  arg_verify_tls : bool;
  arg_days : Z;
  arg_max_builds : Z;
  arg_top : Z;
  arg_sort : SortKey;
  arg_out : string;
  arg_json : string
}.

(** A file that main writes, with the frame it holds: the CSV file of
    [to_csv], the JSON file of [open] and [json.dump]. *)
Inductive Written : Type :=
| WroteCSV (path : string) (df : list Row)
| WroteJSON (path : string) (df : list Row).

(** How a run of main ends. *)
Inductive Outcome : Type :=
| NoControllersProvided
| CredentialsRequired
| NoJobData (log : list Event)
| Reported (log : list Event) (df_sorted : list Row)
    (top_preview : list PreviewRow) (files : list Written).

Section Main.

Variable sort_values : SortKey -> list Row -> list Row.
Variable connect : string -> string -> string -> Jenkins.

(** What writing a file does: it returns, or raises when the path cannot
    be written.  Neither call stands in a [try]. *)
Variable write : Written -> res unit.

(** main after [parse_args]; [now] is the reading of the clock.  When main
    raises, what it printed before is not kept. *)
Definition main (now : Z) (args : Args) : res Outcome :=
  match parse_controllers (arg_controllers args) with
  | [] => Ok NoControllersProvided
  | controllers =>
      if negb (PyStr.truthy (arg_user args)) || negb (PyStr.truthy (arg_token args))
      then Ok CredentialsRequired
      else
        collected <- collect_stats connect (arg_user args) (arg_token args)
                       (arg_max_builds args) now controllers (arg_days args) ;;
        let '(log, rows) := collected in
        match report sort_values (arg_sort args) (arg_top args) rows with
        | None => Ok (NoJobData log)
        | Some (df_sorted, top_preview) =>
            let csv := WroteCSV (arg_out args) df_sorted in
            _ <- write csv ;;
            if PyStr.truthy (arg_json args) then
              let json := WroteJSON (arg_json args) df_sorted in
              _ <- write json ;;
              Ok (Reported log df_sorted top_preview [csv; json])
            else Ok (Reported log df_sorted top_preview [csv])
        end
  end.

End Main.

(** ** Auxiliary notions *)

(** What an iteration of the loop over [builds_meta] appends. *)
Definition kept_build (jc : Jenkins) (name : string) (since_dt : option Z)
    (b : BuildRef) : list BuildInfo :=
  match try_build jc name since_dt b with
  | Ok (binfo, true) => [binfo]
  | _ => []
  end.

(** The last character of a string is [c]. *)
Fixpoint ends_with (c : ascii) (s : string) : bool :=
  match s with
  | EmptyString => false
  | String a EmptyString => Ascii.eqb a c
  | String _ s' => ends_with c s'
  end.

(** A string of [n] times the character [c]. *)
Fixpoint repeat_char (c : ascii) (n : nat) : string :=
  match n with
  | O => EmptyString
  | S n' => String c (repeat_char c n')
  end.

(** The character [c] occurs in a string. *)
Fixpoint contains (c : ascii) (s : string) : bool :=
  match s with
  | EmptyString => false
  | String a s' => Ascii.eqb a c || contains c s'
  end.

(** The sum of the job counts that the log reports. *)
Fixpoint reported_jobs (log : list Event) : Z :=
  match log with
  | [] => 0
  | JobsWithBuildsInWindow n :: rest => n + reported_jobs rest
  | _ :: rest => reported_jobs rest
  end.

(** The lines and rows of one controller. *)
Definition scan_controller (connect : string -> string -> string -> Jenkins)
    (user token : string) (max_builds : Z) (since_dt : option Z)
    (base : string) : list Event * list Row :=
  scan_controllers connect user token max_builds since_dt [base] [] [].


(** ** A second scenario: a controller with jobs that fail in turn *)

Module Fleet.

Definition jobs : list Job :=
  [ {| fullname := None; name := None |};
    {| fullname := Some "gone"; name := Some "gone" |};
    {| fullname := Some "team/app"; name := Some "app" |};
    {| fullname := Some ""; name := Some "old" |} ].

(** [team/app] has two builds of November 2023 and one reference without
    details; [old] has one build of 2020; [gone] cannot be fetched. *)
Definition jenkins_c : Jenkins :=
  {| get_whoami := Ok tt;
     get_all_jobs := Ok jobs;
     get_job_info := fun n =>
       if String.eqb n "team/app" then
         Ok {| info_builds := Some [ {| number := Some 12 |};
                                      {| number := Some 11 |};
                                      {| number := Some 10 |} ];
               info_url := Some "https://c.example.com/job/team/job/app/" |}
       else if String.eqb n "old" then
         Ok {| info_builds := Some [ {| number := Some 1 |} ];
               info_url := None |}
       else Raise NotFoundException;
     get_build_info := fun n k =>
       if String.eqb n "team/app" then
         if k =? 12 then Ok (Scenario.build 1700000200000 90000 "UNSTABLE")
         else if k =? 10 then Ok (Scenario.build 1700000000000 30000 "SUCCESS")
         else Raise NotFoundException
       else if String.eqb n "old" then
         if k =? 1 then Ok (Scenario.build 1590000000000 1000 "SUCCESS")
         else Raise NotFoundException
       else Raise NotFoundException |}.

(** A controller that accepts the login and cannot list its jobs. *)
Definition jenkins_d : Jenkins :=
  {| get_whoami := Ok tt;
     get_all_jobs := Raise JenkinsException;
     get_job_info := fun _ => Raise JenkinsException;
     get_build_info := fun _ _ => Raise JenkinsException |}.

Definition connect (base user token : string) : Jenkins :=
  if String.eqb base "https://c.example.com" then jenkins_c
  else if String.eqb base "https://d.example.com" then jenkins_d
  else Scenario.connect base user token.

End Fleet.

(** ** A third scenario: a job with 160 builds, the oldest 23 failed *)

Module Nightly.

Definition refs : list BuildRef :=
  map (fun k => {| number := Some (Z.of_nat k) |}) (seq 1 160).

Definition jenkins_n : Jenkins :=
  {| get_whoami := Ok tt;
     get_all_jobs := Ok [ {| fullname := Some "nightly"; name := Some "nightly" |} ];
     get_job_info := fun _ =>
       Ok {| info_builds := Some refs; info_url := None |};
     get_build_info := fun _ k =>
       Ok (Scenario.build 1700000000000 1000
             (if k <=? 23 then "FAILURE" else "SUCCESS")) |}.

Definition rows : list Row :=
  match collect_controller_jobs jenkins_n "https://n.example.com" 200 None with
  | Ok rows => rows
  | Raise _ => []
  end.

End Nightly.

(** ** Disks: one that takes every file, one that takes none, and one that
    takes no JSON file *)

Module Disk.

Definition writable (w : Written) : res unit := Ok tt.

Definition read_only (w : Written) : res unit := Raise OSError.

Definition csv_only (w : Written) : res unit :=
  match w with
  | WroteCSV _ _ => Ok tt
  | WroteJSON _ _ => Raise OSError
  end.

End Disk.

(** The line that ends the scan of the controller [base]: a failed login
    or a failed collection under its URL without trailing slashes, or a
    count of jobs. *)
Definition closes_scan (base : string) (e : Event) : Prop :=
  match e with
  | ScanningController _ => False
  | UnableToAuth b _ => b = Py.rstrip "/" base
  | FailedCollecting b _ => b = Py.rstrip "/" base
  | JobsWithBuildsInWindow n => 0 <= n
  end.

(** The two lines of a controller: the announcement of its scan and the
    line [e] that ends it. *)
Definition scan_lines (p : string * Event) : list Event :=
  [ScanningController (Py.rstrip "/" (fst p)); snd p].

(** No space stands at the head of the bytes [l], for the three tests. *)
Definition no_leading_space (s1 : ascii -> bool) (s2 : ascii -> ascii -> bool)
    (s3 : ascii -> ascii -> ascii -> bool) (l : list ascii) : Prop :=
  match l with
  | [] => True
  | a :: l1 =>
      s1 a = false /\
      match l1 with
      | [] => True
      | b :: l2 =>
          s2 a b = false /\
          match l2 with
          | [] => True
          | c :: _ => s3 a b c = false
          end
      end
  end.

(** * Properties *)

(** ** Binary floating point *)

Section FloatFacts.

Import Float.
Local Open Scope Q_scope.

Lemma pow2_pos (e : Z) : 0 < pow2 e.
Proof. apply Qpower_0_lt. reflexivity. Qed.

Lemma pow2_add (a b : Z) : pow2 (a + b) == pow2 a * pow2 b.
Proof. apply Qpower_plus. discriminate. Qed.

Lemma pow2_succ (a : Z) : pow2 (a + 1) == 2 * pow2 a.
Proof. rewrite pow2_add. change (pow2 1) with 2. ring. Qed.

Lemma pow2_pred (a : Z) : pow2 (a - 1) == pow2 a / 2.
Proof.
  assert (pow2 a == pow2 (a - 1 + 1)) as E by (now replace (a - 1 + 1)%Z with a by lia).
  rewrite E, pow2_succ. field.
Qed.

Lemma pow2_le (a b : Z) : (a <= b)%Z -> pow2 a <= pow2 b.
Proof. intros H. apply Qpower_le_compat_l; [exact H|discriminate]. Qed.

Lemma pow2_lt (a b : Z) : (a < b)%Z -> pow2 a < pow2 b.
Proof. intros H. apply Qpower_lt_compat_l; [exact H|reflexivity]. Qed.

Lemma pow2_lt_inv (a b : Z) : pow2 a < pow2 b -> (a < b)%Z.
Proof. intros H. apply (Qpower_lt_compat_l_inv 2); [exact H|reflexivity]. Qed.

Lemma pow2_Z (a : Z) : (0 <= a)%Z -> inject_Z (2 ^ a) == pow2 a.
Proof. intros H. now rewrite Zpower_Qpower. Qed.

Lemma Qabs_make (n : Z) (d : positive) : Qabs (n # d) = (Z.abs n # d).
Proof. reflexivity. Qed.

(** The estimate of the magnitude from the sizes of numerator and denominator. *)
Lemma mag_estimate (x : Q) :
  ~ x == 0 ->
  let l := (Z.log2 (Z.abs (Qnum x)) - Z.log2 (Zpos (Qden x)))%Z in
  pow2 (l - 1) < Qabs x /\ Qabs x < pow2 (l + 1).
Proof.
  destruct x as [n d]. intros Hx l. subst l. simpl Qnum. simpl Qden.
  assert (0 < Z.abs n)%Z as Hn.
  { destruct (Z.eq_dec n 0) as [->|N]; [exfalso; apply Hx; reflexivity|lia]. }
  pose proof (Z.log2_spec _ Hn) as [A1 A2].
  pose proof (Z.log2_spec (Zpos d) ltac:(lia)) as [B1 B2].
  pose proof (Z.log2_nonneg (Z.abs n)) as Ha.
  pose proof (Z.log2_nonneg (Zpos d)) as Hb.
  set (a := Z.log2 (Z.abs n)) in *. set (b := Z.log2 (Zpos d)) in *.
  rewrite Qabs_make.
  assert (inject_Z (Z.abs n) == (Z.abs n # d) * inject_Z (Zpos d)) as E.
  { rewrite (Qmake_Qdiv (Z.abs n) d). field. discriminate. }
  assert (0 < inject_Z (Zpos d)) as Dp by reflexivity.
  assert (pow2 a <= inject_Z (Z.abs n)) as QA1
    by (rewrite <- pow2_Z by lia; now rewrite <- Zle_Qle).
  assert (inject_Z (Z.abs n) < pow2 (a + 1)) as QA2
    by (rewrite <- pow2_Z by lia; rewrite <- Zlt_Qlt; now rewrite <- Z.add_1_r in A2).
  assert (pow2 b <= inject_Z (Zpos d)) as QB1
    by (rewrite <- pow2_Z by lia; now rewrite <- Zle_Qle).
  assert (inject_Z (Zpos d) < pow2 (b + 1)) as QB2
    by (rewrite <- pow2_Z by lia; rewrite <- Zlt_Qlt; now rewrite <- Z.add_1_r in B2).
  set (X := (Z.abs n # d)) in *. set (D := inject_Z (Zpos d)) in *.
  assert (0 <= X) as X0 by (unfold X, Qle; simpl; lia).
  pose proof (pow2_pos b) as Pb. pose proof (pow2_pos (a - b - 1)) as P1.
  pose proof (pow2_pos (a - b + 1)) as P2.
  assert (pow2 a == pow2 (a - b - 1) * pow2 (b + 1)) as Ea
    by (rewrite <- pow2_add; now replace (a - b - 1 + (b + 1))%Z with a by lia).
  assert (pow2 (a + 1) == pow2 (a - b + 1) * pow2 b) as Eb
    by (rewrite <- pow2_add; now replace (a - b + 1 + b)%Z with (a + 1)%Z by lia).
  split.
  - (* pow2 (l-1) * D < pow2 (l-1) * pow2 (b+1) = pow2 a <= X * D *)
    destruct (Qlt_le_dec (pow2 (a - b - 1)) X) as [L|G]; [exact L|exfalso].
    assert (X * D <= pow2 (a - b - 1) * D) as M
      by (apply Qmult_le_compat_r; [exact G|now apply Qlt_le_weak]).
    assert (pow2 (a - b - 1) * D < pow2 (a - b - 1) * pow2 (b + 1)) as M2
      by (rewrite !(Qmult_comm (pow2 (a - b - 1))); apply Qmult_lt_compat_r; assumption).
    rewrite <- Ea in M2. rewrite <- E in M.
    apply (Qlt_irrefl (pow2 a)).
    eapply Qle_lt_trans; [exact QA1|]. eapply Qle_lt_trans; [exact M|exact M2].
  - destruct (Qlt_le_dec X (pow2 (a - b + 1))) as [L|G]; [exact L|exfalso].
    assert (pow2 (a - b + 1) * pow2 b <= X * pow2 b) as M
      by (apply Qmult_le_compat_r; [exact G|now apply Qlt_le_weak]).
    assert (X * pow2 b <= X * D) as M2
      by (rewrite !(Qmult_comm X); apply Qmult_le_compat_r; assumption).
    rewrite <- Eb in M. rewrite <- E in M2.
    apply (Qlt_irrefl (pow2 (a + 1))).
    eapply Qle_lt_trans; [exact M|]. eapply Qle_lt_trans; [exact M2|exact QA2].
Qed.

Lemma mag_spec (x : Q) :
  ~ x == 0 -> pow2 (mag x - 1) <= Qabs x /\ Qabs x < pow2 (mag x).
Proof.
  intros Hx. destruct (mag_estimate x Hx) as [A B]. unfold mag.
  set (l := (Z.log2 (Z.abs (Qnum x)) - Z.log2 (Zpos (Qden x)))%Z) in *.
  destruct (Qlt_le_dec (Qabs x) (pow2 l)) as [L|G].
  - split; [now apply Qlt_le_weak|exact L].
  - replace (l + 1 - 1)%Z with l by lia. split; assumption.
Qed.

Lemma mag_unique (x : Q) (m : Z) :
  pow2 (m - 1) <= Qabs x -> Qabs x < pow2 m -> mag x = m.
Proof.
  intros A B.
  assert (~ x == 0) as Hx.
  { intros E. rewrite E in A. pose proof (pow2_pos (m - 1)).
    change (Qabs 0) with 0 in A. lra. }
  destruct (mag_spec x Hx) as [C D].
  assert (pow2 (m - 1) < pow2 (mag x)) as E1 by (eapply Qle_lt_trans; eassumption).
  assert (pow2 (mag x - 1) < pow2 m) as E2 by (eapply Qle_lt_trans; eassumption).
  apply pow2_lt_inv in E1, E2. lia.
Qed.

(** round_half_even *)

Lemma inject_Z_minus (x y : Z) : inject_Z (x - y) = inject_Z x - inject_Z y.
Proof. unfold Z.sub, Qminus. now rewrite inject_Z_plus, inject_Z_opp. Qed.

Lemma round_half_even_between (x : Q) :
  round_half_even x = Qfloor x \/ round_half_even x = (Qfloor x + 1)%Z.
Proof.
  unfold round_half_even.
  destruct (Qcompare _ _); [destruct (Z.even _)| |]; auto.
Qed.

Lemma round_half_even_near (x : Q) :
  - (1 # 2) <= inject_Z (round_half_even x) - x <= 1 # 2.
Proof.
  pose proof (Qfloor_le x) as L. pose proof (Qlt_floor x) as U.
  rewrite inject_Z_plus in U. change (inject_Z 1) with 1 in U.
  unfold round_half_even.
  destruct (Qcompare_spec (x - inject_Z (Qfloor x)) (1 # 2)) as [E|E|E].
  - destruct (Z.even (Qfloor x)).
    + lra.
    + rewrite inject_Z_plus. change (inject_Z 1) with 1. lra.
  - lra.
  - rewrite inject_Z_plus. change (inject_Z 1) with 1. lra.
Qed.

Lemma round_half_even_comp (x y : Q) : x == y -> round_half_even x = round_half_even y.
Proof.
  intros E. unfold round_half_even.
  rewrite (Qfloor_comp x y E).
  assert (x - inject_Z (Qfloor y) == y - inject_Z (Qfloor y)) as E'
    by now rewrite E.
  now rewrite (Qcompare_comp _ _ E' (1 # 2) (1 # 2) (Qeq_refl _)).
Qed.

Lemma round_half_even_mono (x y : Q) : x <= y -> (round_half_even x <= round_half_even y)%Z.
Proof.
  intros H. pose proof (Qfloor_resp_le x y H) as F.
  destruct (Z.eq_dec (Qfloor x) (Qfloor y)) as [E|N].
  - unfold round_half_even. rewrite <- E.
    destruct (Qcompare_spec (x - inject_Z (Qfloor x)) (1 # 2)) as [Cx|Cx|Cx];
      destruct (Qcompare_spec (y - inject_Z (Qfloor x)) (1 # 2)) as [Cy|Cy|Cy];
      try (destruct (Z.even (Qfloor x))); try lia; exfalso; lra.
  - destruct (round_half_even_between x), (round_half_even_between y); lia.
Qed.

Lemma round_half_even_Z (k : Z) : round_half_even (inject_Z k) = k.
Proof.
  unfold round_half_even. rewrite Qfloor_Z.
  destruct (Qcompare_spec (inject_Z k - inject_Z k) (1 # 2)) as [C|C|C];
    [lra|reflexivity|lra].
Qed.

Lemma round_half_even_ge (x : Q) (n : Z) : inject_Z n <= x -> (n <= round_half_even x)%Z.
Proof. intros H. rewrite <- (round_half_even_Z n). now apply round_half_even_mono. Qed.

Lemma round_half_even_le (x : Q) (n : Z) : x <= inject_Z n -> (round_half_even x <= n)%Z.
Proof. intros H. rewrite <- (round_half_even_Z n). now apply round_half_even_mono. Qed.

(** A number within less than a half of an integer rounds to it. *)
Lemma round_half_even_close (x : Q) (k : Z) :
  - (1 # 2) < x - inject_Z k < 1 # 2 -> round_half_even x = k.
Proof.
  intros [A B]. pose proof (round_half_even_near x) as [C D].
  assert (inject_Z (k - 1) < inject_Z (round_half_even x)) as E1
    by (rewrite inject_Z_minus; change (inject_Z 1) with 1; lra).
  assert (inject_Z (round_half_even x) < inject_Z (k + 1)) as E2
    by (rewrite inject_Z_plus; change (inject_Z 1) with 1; lra).
  rewrite <- Zlt_Qlt in E1, E2. lia.
Qed.

Lemma Qfloor_opp_int (x : Q) (f : Z) :
  x == inject_Z f -> Qfloor (- x) = (- f)%Z.
Proof.
  intros E. assert (- x == inject_Z (- f)) as E' by (rewrite E, inject_Z_opp; reflexivity).
  now rewrite (Qfloor_comp _ _ E'), Qfloor_Z.
Qed.

Lemma Qfloor_unique (x : Q) (f : Z) :
  inject_Z f <= x -> x < inject_Z f + 1 -> Qfloor x = f.
Proof.
  intros A B. pose proof (Qfloor_le x) as L. pose proof (Qlt_floor x) as U.
  rewrite inject_Z_plus in U. change (inject_Z 1) with 1 in U.
  assert (inject_Z (f - 1) < inject_Z (Qfloor x)) as E1
    by (rewrite inject_Z_minus; change (inject_Z 1) with 1; lra).
  assert (inject_Z (Qfloor x) < inject_Z (f + 1)) as E2
    by (rewrite inject_Z_plus; change (inject_Z 1) with 1; lra).
  rewrite <- Zlt_Qlt in E1, E2. lia.
Qed.

Lemma round_half_even_opp (x : Q) : round_half_even (- x) = (- round_half_even x)%Z.
Proof.
  pose proof (Qfloor_le x) as L. pose proof (Qlt_floor x) as U.
  rewrite inject_Z_plus in U. change (inject_Z 1) with 1 in U.
  set (f := Qfloor x) in *.
  destruct (Qeq_dec x (inject_Z f)) as [E|N].
  - assert (- x == inject_Z (- f)) as E' by (rewrite E, inject_Z_opp; reflexivity).
    rewrite (round_half_even_comp _ _ E'), (round_half_even_comp _ _ E), !round_half_even_Z. reflexivity.
  - assert (inject_Z f < x) as L' by (destruct (Qlt_le_dec (inject_Z f) x); [assumption|exfalso; apply N; lra]).
    assert (Qfloor (- x) = (- f - 1)%Z) as F.
    { apply Qfloor_unique; rewrite inject_Z_minus, inject_Z_opp;
        change (inject_Z 1) with 1; lra. }
    unfold round_half_even. rewrite F. fold f.
    rewrite inject_Z_minus, inject_Z_opp. change (inject_Z 1) with 1.
    replace (Z.even (- f - 1)) with (negb (Z.even f)).
    2:{ replace (- f - 1)%Z with (- (f + 1))%Z by lia.
        rewrite Z.even_opp, Z.even_add. simpl. now destruct (Z.even f). }
    destruct (Qcompare_spec (x - inject_Z f) (1 # 2)) as [Cx|Cx|Cx];
      destruct (Qcompare_spec (- x - (- inject_Z f - 1)) (1 # 2)) as [Cy|Cy|Cy];
      try (exfalso; lra); try lia.
    destruct (Z.even f); simpl; lia.
Qed.

(** rnd *)

Lemma Qeq_bool_zero (x : Q) : ~ x == 0 -> Qeq_bool x 0 = false.
Proof.
  intros H. destruct (Qeq_bool x 0) eqn:E; [|reflexivity].
  apply Qeq_bool_iff in E. contradiction.
Qed.

Lemma rnd_zero (x : Q) : x == 0 -> rnd x = 0.
Proof. intros H. unfold rnd. now rewrite (Qeq_eq_bool _ _ H). Qed.

Lemma rnd_nonzero (x : Q) :
  ~ x == 0 ->
  rnd x = inject_Z (round_half_even (x / pow2 (mag x - 53))) * pow2 (mag x - 53).
Proof. intros H. unfold rnd. now rewrite (Qeq_bool_zero _ H). Qed.

Lemma mag_comp (x y : Q) : ~ x == 0 -> x == y -> mag x = mag y.
Proof.
  intros Hx E. assert (~ y == 0) as Hy by now rewrite <- E.
  destruct (mag_spec y Hy) as [A B].
  assert (Qabs y == Qabs x) as EA by (apply Qabs_wd; symmetry; exact E).
  apply mag_unique.
  - eapply Qle_trans; [exact A|]. rewrite EA. apply Qle_refl.
  - eapply Qle_lt_trans; [|exact B]. rewrite EA. apply Qle_refl.
Qed.

Lemma rnd_comp (x y : Q) : x == y -> rnd x = rnd y.
Proof.
  intros E. destruct (Qeq_dec x 0) as [Z0|N].
  - rewrite (rnd_zero x Z0). symmetry. apply rnd_zero. now rewrite <- E.
  - assert (~ y == 0) as Ny by now rewrite <- E.
    rewrite (rnd_nonzero x N), (rnd_nonzero y Ny), (mag_comp x y N E).
    f_equal. f_equal. apply round_half_even_comp. now rewrite E.
Qed.

Lemma rnd_error (x : Q) :
  ~ x == 0 -> Qabs (rnd x - x) <= pow2 (mag x - 54).
Proof.
  intros N. rewrite (rnd_nonzero x N).
  set (e := (mag x - 53)%Z). pose proof (pow2_pos e) as P.
  pose proof (round_half_even_near (x / pow2 e)) as [A B].
  set (k := inject_Z (round_half_even (x / pow2 e))) in *.
  assert (pow2 (mag x - 54) == pow2 e * (1 # 2)) as ->
    by (replace (mag x - 54)%Z with (e - 1)%Z by (unfold e; lia);
        rewrite pow2_pred; field).
  assert (x == x / pow2 e * pow2 e) as E by (field; lra).
  set (t := x / pow2 e) in *. clearbody k t.
  set (p := pow2 e) in *. clearbody p. clear N. clearbody e.
  assert (0 <= (k - t + (1 # 2)) * p) as H1 by (apply Qmult_le_0_compat; lra).
  assert (0 <= ((1 # 2) - (k - t)) * p) as H2 by (apply Qmult_le_0_compat; lra).
  assert (k * p - x == (k - t) * p) as E' by (rewrite E; ring).
  apply Qabs_Qle_condition. split; lra.
Qed.

Lemma rnd_error_rel (x : Q) :
  Qabs (rnd x - x) <= Qabs x * pow2 (-53).
Proof.
  destruct (Qeq_dec x 0) as [Z0|N].
  - rewrite (rnd_zero x Z0), Z0. simpl. discriminate.
  - eapply Qle_trans; [apply (rnd_error x N)|].
    destruct (mag_spec x N) as [A _].
    assert (pow2 (mag x - 54) == pow2 (mag x - 1) * pow2 (-53)) as ->
      by (rewrite <- pow2_add; now replace (mag x - 1 + -53)%Z with (mag x - 54)%Z by lia).
    apply Qmult_le_compat_r; [exact A|]. apply Qlt_le_weak, pow2_pos.
Qed.

Lemma rnd_error_below (x : Q) (m : Z) :
  Qabs x < pow2 m -> Qabs (rnd x - x) <= pow2 (m - 54).
Proof.
  intros H. destruct (Qeq_dec x 0) as [Z0|N].
  - rewrite (rnd_zero x Z0), Z0. simpl. apply Qlt_le_weak, pow2_pos.
  - eapply Qle_trans; [apply (rnd_error x N)|]. apply pow2_le.
    destruct (mag_spec x N) as [A _].
    assert (pow2 (mag x - 1) < pow2 m) as L by (eapply Qle_lt_trans; eassumption).
    apply pow2_lt_inv in L. lia.
Qed.

Lemma mag_opp (x : Q) : ~ x == 0 -> mag (- x) = mag x.
Proof.
  intros N. destruct (mag_spec x N) as [A B].
  apply mag_unique; rewrite Qabs_opp; assumption.
Qed.

Lemma rnd_opp (x : Q) : rnd (- x) == - rnd x.
Proof.
  destruct (Qeq_dec x 0) as [Z0|N].
  - rewrite (rnd_zero x Z0), (rnd_zero (- x)); [reflexivity|]. now rewrite Z0.
  - assert (~ - x == 0) as N' by (intros E; apply N; lra).
    rewrite (rnd_nonzero x N), (rnd_nonzero _ N'), (mag_opp x N).
    set (p := pow2 (mag x - 53)).
    assert (- x / p == - (x / p)) as E
      by (unfold p; field; pose proof (pow2_pos (mag x - 53)); lra).
    rewrite (round_half_even_comp _ _ E), round_half_even_opp, inject_Z_opp. ring.
Qed.

Lemma rnd_nonneg (x : Q) : 0 <= x -> 0 <= rnd x.
Proof.
  intros H. destruct (Qeq_dec x 0) as [Z0|N].
  - rewrite (rnd_zero x Z0). apply Qle_refl.
  - rewrite (rnd_nonzero x N). pose proof (pow2_pos (mag x - 53)) as P.
    apply Qmult_le_0_compat; [|now apply Qlt_le_weak].
    change 0 with (inject_Z 0). rewrite <- Zle_Qle. apply round_half_even_ge.
    change (inject_Z 0) with 0. apply Qle_shift_div_l; [exact P|]. lra.
Qed.

Lemma rnd_nonpos (x : Q) : x <= 0 -> rnd x <= 0.
Proof.
  intros H. assert (0 <= rnd (- x)) as A by (apply rnd_nonneg; lra).
  rewrite rnd_opp in A. lra.
Qed.

(** A positive number and its rounding lie in the same binade. *)
Lemma rnd_binade (x : Q) :
  0 < x -> pow2 (mag x - 1) <= rnd x <= pow2 (mag x).
Proof.
  intros H. assert (~ x == 0) as N by lra.
  destruct (mag_spec x N) as [A B]. rewrite (Qabs_pos x) in A, B by lra.
  rewrite (rnd_nonzero x N).
  set (e := (mag x - 53)%Z). pose proof (pow2_pos e) as P.
  assert (pow2 (mag x - 1) == pow2 52 * pow2 e) as E1
    by (rewrite <- pow2_add; unfold e; now replace (52 + (mag x - 53))%Z with (mag x - 1)%Z by lia).
  assert (pow2 (mag x) == pow2 53 * pow2 e) as E2
    by (rewrite <- pow2_add; unfold e; now replace (53 + (mag x - 53))%Z with (mag x) by lia).
  rewrite E1, E2. rewrite E1 in A. rewrite E2 in B.
  split; (apply Qmult_le_compat_r; [|now apply Qlt_le_weak]).
  - rewrite <- (pow2_Z 52) by lia. rewrite <- Zle_Qle. apply round_half_even_ge.
    rewrite (pow2_Z 52) by lia. apply Qle_shift_div_l; assumption.
  - rewrite <- (pow2_Z 53) by lia. rewrite <- Zle_Qle. apply round_half_even_le.
    rewrite (pow2_Z 53) by lia. apply Qle_shift_div_r; [assumption|].
    now apply Qlt_le_weak.
Qed.

Lemma mag_mono (x y : Q) : 0 < x -> x <= y -> (mag x <= mag y)%Z.
Proof.
  intros Hx H. assert (~ x == 0) as Nx by lra. assert (~ y == 0) as Ny by lra.
  destruct (mag_spec x Nx) as [A _]. destruct (mag_spec y Ny) as [_ B].
  rewrite (Qabs_pos x) in A by lra. rewrite (Qabs_pos y) in B by lra.
  assert (pow2 (mag x - 1) < pow2 (mag y)) as L by lra.
  apply pow2_lt_inv in L. lia.
Qed.

Lemma rnd_mono_pos (x y : Q) : 0 < x -> x <= y -> rnd x <= rnd y.
Proof.
  intros Hx H. assert (0 < y) as Hy by lra.
  pose proof (mag_mono x y Hx H) as M.
  destruct (Z.eq_dec (mag x) (mag y)) as [E|NE].
  - rewrite (rnd_nonzero x) by lra. rewrite (rnd_nonzero y) by lra. rewrite E.
    pose proof (pow2_pos (mag y - 53)) as P.
    apply Qmult_le_compat_r; [|now apply Qlt_le_weak].
    rewrite <- Zle_Qle. apply round_half_even_mono.
    apply Qmult_le_compat_r; [exact H|]. apply Qlt_le_weak, Qinv_lt_0_compat, P.
  - destruct (rnd_binade x Hx) as [_ U]. destruct (rnd_binade y Hy) as [L _].
    assert (pow2 (mag x) <= pow2 (mag y - 1)) by (apply pow2_le; lia). lra.
Qed.

Lemma rnd_mono (x y : Q) : x <= y -> rnd x <= rnd y.
Proof.
  intros H. destruct (Qlt_le_dec 0 x) as [Px|Nx].
  - now apply rnd_mono_pos.
  - destruct (Qlt_le_dec y 0) as [Ny|Py].
    + assert (rnd (- y) <= rnd (- x)) as A by (apply rnd_mono_pos; lra).
      rewrite !rnd_opp in A. lra.
    + pose proof (rnd_nonpos x Nx). pose proof (rnd_nonneg y Py). lra.
Qed.

(** A number with a significand below 2^53 is a float. *)
Lemma rnd_exact (k e : Z) :
  (Z.abs k < 2 ^ 53)%Z -> rnd (inject_Z k * pow2 e) == inject_Z k * pow2 e.
Proof.
  intros Hk. set (x := inject_Z k * pow2 e).
  assert (x == inject_Z k * pow2 e) as Hx by reflexivity. clearbody x.
  pose proof (pow2_pos e) as Pe.
  destruct (Z.eq_dec k 0) as [->|Nk].
  - rewrite (rnd_zero x); rewrite Hx; change (inject_Z 0) with 0; ring.
  - assert (~ x == 0) as N.
    { rewrite Hx. intros E. apply Qmult_integral in E. destruct E as [E|E]; [|lra].
      apply Nk. apply inject_Z_injective. exact E. }
    destruct (mag_spec x N) as [A B].
    assert (Qabs x == inject_Z (Z.abs k) * pow2 e) as Ex.
    { rewrite Hx. rewrite Qabs_Qmult, (Qabs_pos (pow2 e)) by lra.
      reflexivity. }
    assert (Qabs x < pow2 (53 + e)) as U.
    { rewrite Ex, pow2_add. apply Qmult_lt_compat_r; [exact Pe|].
      rewrite <- (pow2_Z 53) by lia. now rewrite <- Zlt_Qlt. }
    assert (mag x - 53 <= e)%Z as Hm.
    { assert (pow2 (mag x - 1) < pow2 (53 + e)) as L by lra.
      apply pow2_lt_inv in L. lia. }
    rewrite (rnd_nonzero x N).
    set (m := (mag x - 53)%Z) in *.
    set (d := (e - m)%Z). assert (0 <= d)%Z as Hd by (unfold d; lia).
    pose proof (pow2_pos m) as Pm.
    assert (pow2 e == pow2 d * pow2 m) as Ee
      by (rewrite <- pow2_add; unfold d; now replace (e - m + m)%Z with e by lia).
    assert (x / pow2 m == inject_Z (k * 2 ^ d)) as Et.
    { rewrite Hx, Ee, inject_Z_mult, (pow2_Z d Hd). field. lra. }
    rewrite (round_half_even_comp _ _ Et), round_half_even_Z, inject_Z_mult, (pow2_Z d Hd).
    rewrite Hx, Ee. ring.
Qed.

Lemma rnd_int (z : Z) : (Z.abs z < 2 ^ 53)%Z -> rnd (inject_Z z) == inject_Z z.
Proof.
  intros H. pose proof (rnd_exact z 0 H) as E.
  change (pow2 0) with 1 in E.
  assert (inject_Z z * 1 == inject_Z z) as E1 by ring.
  now rewrite (rnd_comp _ _ E1) in E at 1; rewrite E1 in E.
Qed.

(** The rounding of a number is a float: rounding it again changes
    nothing. *)
Lemma rnd_idem (x : Q) : rnd (rnd x) == rnd x.
Proof.
  destruct (Qeq_dec x 0) as [Z0|N].
  - rewrite (rnd_zero x Z0). now rewrite (rnd_zero 0).
  - rewrite (rnd_nonzero x N).
    destruct (mag_spec x N) as [_ B].
    set (e := (mag x - 53)%Z) in *. pose proof (pow2_pos e) as P.
    assert (pow2 (mag x) == pow2 53 * pow2 e) as E2
      by (rewrite <- pow2_add; unfold e; now replace (53 + (mag x - 53))%Z with (mag x) by lia).
    rewrite E2 in B. apply Qabs_Qlt_condition in B. destruct B as [B1 B2].
    set (K := round_half_even (x / pow2 e)).
    assert (- 2 ^ 53 <= K <= 2 ^ 53)%Z as [K1 K2].
    { split.
      - apply round_half_even_ge. rewrite inject_Z_opp, (pow2_Z 53) by lia.
        apply Qle_shift_div_l; [exact P|]. lra.
      - apply round_half_even_le. rewrite (pow2_Z 53) by lia.
        apply Qle_shift_div_r; [exact P|]. lra. }
    clearbody K.
    destruct (Z.eq_dec K (2 ^ 53)) as [->|N1].
    + assert (inject_Z (2 ^ 53) * pow2 e == inject_Z (2 ^ 52) * pow2 (e + 1)) as E.
      { rewrite pow2_succ. change (inject_Z (2 ^ 53)) with (2 * inject_Z (2 ^ 52)).
        ring. }
      rewrite (rnd_comp _ _ E), E. apply rnd_exact. reflexivity.
    + destruct (Z.eq_dec K (- 2 ^ 53)) as [->|N2].
      * assert (inject_Z (- 2 ^ 53) * pow2 e == inject_Z (- 2 ^ 52) * pow2 (e + 1)) as E.
        { rewrite pow2_succ.
          change (inject_Z (- 2 ^ 53)) with (2 * inject_Z (- 2 ^ 52)). ring. }
        rewrite (rnd_comp _ _ E), E. apply rnd_exact. reflexivity.
      * apply rnd_exact. lia.
Qed.

End FloatFacts.

(** ** fmt_seconds *)

Lemma nonpositive_test (sec : Q) :
  (sec <= 0)%Q -> Qeq_bool sec 0 || Qle_bool sec 0 = true.
Proof.
  intros H. apply orb_true_iff. right. now apply Qle_bool_iff.
Qed.

Lemma positive_test (sec : Q) :
  (0 < sec)%Q -> Qeq_bool sec 0 || Qle_bool sec 0 = false.
Proof.
  intros H. apply orb_false_iff. split.
  - destruct (Qeq_bool sec 0) eqn:E; [|reflexivity].
    apply Qeq_bool_iff in E. rewrite E in H. now apply Qlt_irrefl in H.
  - destruct (Qle_bool sec 0) eqn:E; [|reflexivity].
    apply Qle_bool_iff in E. exfalso. apply (Qlt_irrefl 0).
    now apply Qlt_le_trans with sec.
Qed.

Lemma int_of_positive (sec : Q) :
  (0 < sec)%Q -> Py.int sec = Qfloor sec /\ 0 <= Py.int sec.
Proof.
  destruct sec as [n d]. unfold Qlt, Py.int, Qfloor. simpl. intros H.
  assert (0 <= n) by lia.
  rewrite Z.quot_div_nonneg by lia. split; [reflexivity|].
  apply Z.div_pos; lia.
Qed.

Lemma hms_of_seconds (n : Z) :
  0 <= n ->
  let h := n / 60 / 60 in
  let m := (n / 60) mod 60 in
  let s := n mod 60 in
  n = h * 3600 + m * 60 + s /\ 0 <= h /\ 0 <= m < 60 /\ 0 <= s < 60.
Proof.
  intros Hn h m s.
  pose proof (Z.div_mod n 60 ltac:(lia)) as E1.
  pose proof (Z.div_mod (n / 60) 60 ltac:(lia)) as E2.
  pose proof (Z.mod_pos_bound n 60 ltac:(lia)).
  pose proof (Z.mod_pos_bound (n / 60) 60 ltac:(lia)).
  assert (0 <= n / 60) by (apply Z.div_pos; lia).
  assert (0 <= n / 60 / 60) by (apply Z.div_pos; lia).
  subst h m s. repeat split; lia.
Qed.

Lemma fmt_seconds_positive (sec : Q) :
  (0 < sec)%Q ->
  fmt_seconds sec =
    hms (Py.int sec / 60 / 60) ((Py.int sec / 60) mod 60) (Py.int sec mod 60).
Proof.
  intros H. unfold fmt_seconds, hms, Py.divmod.
  rewrite (positive_test sec H).
  destruct (Py.int sec / 60 / 60 =? 0); simpl; [|reflexivity].
  destruct ((Py.int sec / 60) mod 60 =? 0); reflexivity.
Qed.

(** C9: zero or negative seconds give "0s"; a positive number of seconds is
    split into hours, minutes (below 60) and seconds (below 60) of its
    whole part and written without the leading zero-valued units; 0, 45,
    125, 3725 and -5 give "0s", "45s", "2m 5s", "1h 2m 5s" and "0s". *)
Theorem fmt_seconds_policy :
  (forall sec : Q, (sec <= 0)%Q -> fmt_seconds sec = "0s") /\
  (forall sec : Q, (0 < sec)%Q ->
     exists h m s : Z,
       Py.int sec = h * 3600 + m * 60 + s /\
       0 <= h /\ 0 <= m < 60 /\ 0 <= s < 60 /\
       fmt_seconds sec = hms h m s) /\
  fmt_seconds 0 = "0s" /\
  fmt_seconds 45 = "45s" /\
  fmt_seconds 125 = "2m 5s" /\
  fmt_seconds 3725 = "1h 2m 5s" /\
  fmt_seconds (-5) = "0s".
Proof.
  split; [|split].
  - intros sec H. unfold fmt_seconds. now rewrite (nonpositive_test sec H).
  - intros sec H.
    destruct (int_of_positive sec H) as [_ Hn].
    destruct (hms_of_seconds (Py.int sec) Hn) as (E & Hh & Hm & Hs).
    eexists _, _, _. split; [exact E|].
    repeat (split; [assumption|]).
    now apply fmt_seconds_positive.
  - repeat split; reflexivity.
Qed.

(** C10: the fraction of a positive number of seconds is dropped before
    the split: the text is that of the whole part, which is within one
    second below the input; anything strictly between 0 and 1 gives "0s",
    and 125.9 gives "2m 5s". *)
Theorem fmt_seconds_truncates :
  (forall sec : Q, (0 < sec)%Q ->
     (inject_Z (Py.int sec) <= sec < inject_Z (Py.int sec) + 1)%Q /\
     fmt_seconds sec = hms (Py.int sec / 60 / 60) ((Py.int sec / 60) mod 60)
                           (Py.int sec mod 60)) /\
  (forall sec : Q, (0 < sec)%Q -> (sec < 1)%Q -> fmt_seconds sec = "0s") /\
  fmt_seconds (1259 # 10) = "2m 5s".
Proof.
  split; [|split].
  - intros sec H. destruct (int_of_positive sec H) as [E _].
    split; [|now apply fmt_seconds_positive].
    rewrite E. split; [apply Qfloor_le|].
    eapply Qlt_le_trans; [apply Qlt_floor|].
    rewrite inject_Z_plus. apply Qle_refl.
  - intros sec H0 H1. rewrite (fmt_seconds_positive sec H0).
    destruct (int_of_positive sec H0) as [E _].
    assert (Qfloor sec = 0) as F.
    { pose proof (Qfloor_le sec) as L. pose proof (Qlt_floor sec) as U.
      assert (inject_Z (Qfloor sec) < inject_Z 1)%Q as A
        by (eapply Qle_lt_trans; [exact L|exact H1]).
      assert (inject_Z 0 < inject_Z (Qfloor sec + 1))%Q as B
        by (eapply Qlt_trans; [exact H0|exact U]).
      rewrite <- Zlt_Qlt in A, B. lia. }
    rewrite E, F. reflexivity.
  - reflexivity.
Qed.

(** ** within_window and the window start *)

Lemma within_window_absent (ts_ms : Z) :
  within_window ts_ms None = Ok true.
Proof. reflexivity. Qed.

Lemma int_of_nonnegative (t : Q) :
  (0 <= t)%Q -> Py.int t = Qfloor t.
Proof.
  destruct t as [n d]. unfold Qle, Py.int, Qfloor. simpl. intros H.
  apply Z.quot_div_nonneg; lia.
Qed.

(** Up to 2^33 seconds after the epoch the float quotient is within half a
    microsecond of the timestamp, so that the instant is exact. *)
Lemma fromtimestamp_ms_exact (ts_ms : Z) :
  0 <= ts_ms < 8589934592000 -> fromtimestamp_ms ts_ms = Ok (ts_ms * 1000).
Proof.
  intros [H0 H1].
  pose proof (Z.div_mod ts_ms 1000 ltac:(lia)) as Ed.
  pose proof (Z.mod_pos_bound ts_ms 1000 ltac:(lia)) as Hr.
  set (s := ts_ms / 1000) in *. set (r := ts_ms mod 1000) in *.
  assert (0 <= s < 8589934592) as Hs by (unfold s; split;
    [apply Z.div_pos; lia|apply Z.div_lt_upper_bound; lia]).
  unfold fromtimestamp_ms, Float.true_div.
  set (x := (inject_Z ts_ms / inject_Z 1000)%Q).
  assert (x == inject_Z s + inject_Z r * (1 # 1000))%Q as Ex.
  { unfold x. rewrite Ed, inject_Z_plus, inject_Z_mult.
    change (inject_Z 1000) with 1000%Q. field. }
  clearbody x.
  assert (0 <= inject_Z r <= 999)%Q as [R0 R1].
  { change 0%Q with (inject_Z 0). change 999%Q with (inject_Z 999).
    rewrite <- !Zle_Qle. lia. }
  assert (inject_Z 0 <= inject_Z s)%Q as S0 by (rewrite <- Zle_Qle; lia).
  change (inject_Z 0) with 0%Q in S0.
  assert (inject_Z s <= 8589934591)%Q as S1
    by (change 8589934591%Q with (inject_Z 8589934591); rewrite <- Zle_Qle; lia).
  assert (Qabs x < Float.pow2 33)%Q as Hx.
  { rewrite (Qabs_pos x) by lra. change (Float.pow2 33) with 8589934592%Q. lra. }
  pose proof (rnd_error_below x 33 Hx) as Herr.
  change (Float.pow2 (33 - 54)) with (1 # 2097152)%Q in Herr.
  apply Qabs_Qle_condition in Herr. destruct Herr as [E1 E2].
  assert (inject_Z s <= Float.rnd x)%Q as Lo.
  { rewrite <- (rnd_int s) by lia. apply rnd_mono. lra. }
  set (t := Float.rnd x) in *. clearbody t.
  assert (Qfloor t = s) as Ft by (apply Qfloor_unique; lra).
  unfold fromtimestamp. rewrite (int_of_nonnegative t) by lra. rewrite Ft.
  set (fp := (t - inject_Z s)%Q).
  assert (Qabs (fp * 1000000) < Float.pow2 20)%Q as Hy.
  { rewrite (Qabs_pos (fp * 1000000)) by (unfold fp; lra).
    change (Float.pow2 20) with 1048576%Q. unfold fp. lra. }
  pose proof (rnd_error_below (fp * 1000000) 20 Hy) as Hm.
  change (Float.pow2 (20 - 54)) with (1 # 17179869184)%Q in Hm.
  apply Qabs_Qle_condition in Hm. destruct Hm as [M1 M2].
  unfold Float.mul.
  assert (Float.round_half_even (Float.rnd (fp * 1000000)) = 1000 * r) as Eu.
  { apply round_half_even_close. rewrite inject_Z_mult.
    change (inject_Z 1000) with 1000%Q.
    set (m := Float.rnd (fp * 1000000)) in *. clearbody m. unfold fp in *.
    split; lra. }
  rewrite Eu.
  replace (s * 1000000 + 1000 * r) with (ts_ms * 1000) by lia.
  unfold in_datetime_range, DATETIME_MIN_US, DATETIME_MAX_US.
  replace (-62135596800000000 <=? ts_ms * 1000) with true
    by (symmetry; apply Z.leb_le; lia).
  replace (ts_ms * 1000 <=? 253402300799999999) with true
    by (symmetry; apply Z.leb_le; lia).
  reflexivity.
Qed.

Lemma within_window_present (ts_ms since : Z) :
  0 <= ts_ms < 8589934592000 ->
  within_window ts_ms (Some since) = Ok (since <=? ts_ms * 1000).
Proof.
  intros H. unfold within_window. now rewrite (fromtimestamp_ms_exact _ H).
Qed.

Lemma window_start_unbounded (now days : Z) :
  days <= 0 -> window_start now days = Ok None.
Proof.
  intros H. unfold window_start.
  replace (0 <? days) with false by (symmetry; apply Z.ltb_ge; lia).
  now rewrite andb_false_r.
Qed.

Lemma try_build_unbounded (jc : Jenkins) (name : string) (b : BuildRef)
    (n : Z) (binfo : BuildInfo) :
  number b = Some n ->
  get_build_info jc name n = Ok binfo ->
  try_build jc name None b = Ok (binfo, true).
Proof.
  intros Hn Hb. unfold try_build. rewrite Hn. simpl. now rewrite Hb.
Qed.

(** C3, as amended: with no window start every timestamp is in the window;
    with a window start, a timestamp from the epoch up to 2^33 seconds after
    it (the year 2242) is in the window exactly when its instant is not
    before the start; [days <= 0] gives no window start, so every build is
    then in the window, whatever its age, and every build that is fetched
    is kept. *)
Theorem within_window_spec :
  (forall ts_ms : Z, within_window ts_ms None = Ok true) /\
  (forall ts_ms since : Z,
     0 <= ts_ms < 8589934592000 ->
     within_window ts_ms (Some since) = Ok (since <=? ts_ms * 1000) /\
     (within_window ts_ms (Some since) = Ok true <-> since <= ts_ms * 1000)) /\
  (forall now days : Z, days <= 0 ->
     window_start now days = Ok None /\
     (forall ts_ms : Z,
        (since_dt <- window_start now days ;; within_window ts_ms since_dt)
        = Ok true) /\
     (forall (jc : Jenkins) (name : string) (b : BuildRef) (n : Z)
             (binfo : BuildInfo),
        number b = Some n ->
        get_build_info jc name n = Ok binfo ->
        (since_dt <- window_start now days ;; try_build jc name since_dt b)
        = Ok (binfo, true))).
Proof.
  split; [reflexivity|split].
  - intros ts_ms since H. rewrite (within_window_present _ _ H).
    split; [reflexivity|]. split.
    + intros E. injection E as E. now apply Z.leb_le.
    + intros E. f_equal. now apply Z.leb_le.
  - intros now days Hd. rewrite (window_start_unbounded now days Hd).
    split; [reflexivity|]. split.
    + intros ts_ms. reflexivity.
    + intros jc name b n binfo Hn Hb. simpl.
      exact (try_build_unbounded jc name b n binfo Hn Hb).
Qed.

(** A build of 2022-11-14 seen on 2023-11-20: outside a window that starts
    on 2023-10-21, inside with [--days 0]. *)
Lemma within_window_spec_witness :
  within_window 1668384000000 None = Ok true /\
  within_window 1668384000000 (Some 1697846400000000) = Ok false /\
  (since_dt <- window_start Scenario.now 0 ;; within_window 1668384000000 since_dt)
  = Ok true.
Proof.
  destruct within_window_spec as (A & B & C).
  split; [exact (A 1668384000000)|split].
  - exact (proj1 (B 1668384000000 1697846400000000 ltac:(lia))).
  - exact (proj1 (proj2 (C Scenario.now 0 ltac:(lia))) 1668384000000).
Defined.

(** C3, as stated, fails: from 2^33 seconds after the epoch on, the float
    quotient [ts_ms / 1000] has no exact microseconds, and a build that
    starts with the window, at 2242-03-16T12:56:32.001, is taken for one
    microsecond older and left out; and a timestamp of the year 10000 is
    not compared at all. *)
Lemma within_window_inexact_instant :
  within_window 8589934592001 (Some 8589934592001000) = Ok false /\
  8589934592001000 <= 8589934592001 * 1000 /\
  fromtimestamp_ms 8589934592001 = Ok 8589934592000999 /\
  within_window 253402300800000 (Some 0) = Raise ValueError.
Proof.
  repeat split; try (vm_compute; reflexivity). vm_compute. discriminate.
Qed.

(** ** The failure count *)

Lemma is_failure_iff (b : BuildInfo) :
  is_failure b = true <-> ~ excluded_result (result b).
Proof.
  unfold is_failure, excluded_result. destruct (result b) as [s|]; simpl.
  - destruct (String.eqb_spec s "SUCCESS") as [->|N1]; simpl.
    { split; [discriminate|]. intros N. exfalso. apply N. now left. }
    destruct (String.eqb_spec s "ABORTED") as [->|N2]; simpl.
    { split; [discriminate|]. intros N. exfalso. apply N. right. now left. }
    destruct (String.eqb_spec s "None") as [->|N3]; simpl.
    { split; [discriminate|]. intros N. exfalso. apply N. now repeat right. }
    split; [|reflexivity]. intros _ [E|[E|[E|E]]]; congruence.
  - split; [discriminate|]. intros N. exfalso. apply N. right. right. now left.
Qed.

Lemma failures_of_row (controller_url name : string) (info : JobInfo)
    (bs : list BuildInfo) :
  failures (make_row controller_url name info bs)
  = Z.of_nat (List.length (filter is_failure bs)).
Proof. reflexivity. Qed.

(** C2: a build is counted in [failures] exactly when its result is not
    SUCCESS, ABORTED or unknown: each build adds one to the count of the
    row if it is a failure and nothing otherwise; ABORTED and a missing
    result never count, UNSTABLE and FAILURE always do. *)
Theorem failures_counts_failed_results :
  (forall b : BuildInfo, is_failure b = true <-> ~ excluded_result (result b)) /\
  (forall (controller_url name : string) (info : JobInfo)
          (before after : list BuildInfo) (b : BuildInfo),
     failures (make_row controller_url name info (before ++ b :: after))
     = failures (make_row controller_url name info (before ++ after))
       + (if is_failure b then 1 else 0)) /\
  (forall ts d : option Z,
     is_failure {| timestamp := ts; duration := d; result := Some "ABORTED" |} = false /\
     is_failure {| timestamp := ts; duration := d; result := None |} = false /\
     is_failure {| timestamp := ts; duration := d; result := Some "SUCCESS" |} = false /\
     is_failure {| timestamp := ts; duration := d; result := Some "UNSTABLE" |} = true /\
     is_failure {| timestamp := ts; duration := d; result := Some "FAILURE" |} = true).
Proof.
  split; [exact is_failure_iff|split].
  - intros. rewrite !failures_of_row, !filter_app. simpl.
    destruct (is_failure b); rewrite !length_app; simpl; lia.
  - intros. repeat split; reflexivity.
Qed.

(** ** The loops of the collection *)

Lemma fetch_builds_acc (jc : Jenkins) (name : string) (since_dt : option Z)
    (builds_meta : list BuildRef) (acc : list BuildInfo) :
  fetch_builds jc name since_dt builds_meta acc
  = (acc ++ fetch_builds jc name since_dt builds_meta [])%list.
Proof.
  revert acc. induction builds_meta as [|b rest IH]; intros acc; simpl.
  - now rewrite app_nil_r.
  - destruct (try_build jc name since_dt b) as [[binfo [|]]|e].
    + rewrite (IH (acc ++ [binfo])%list), (IH [binfo]).
      now rewrite <- app_assoc.
    + apply IH.
    + apply IH.
Qed.

Lemma fetch_builds_length (jc : Jenkins) (name : string) (since_dt : option Z)
    (builds_meta : list BuildRef) :
  (List.length (fetch_builds jc name since_dt builds_meta [])
   <= List.length builds_meta)%nat.
Proof.
  induction builds_meta as [|b rest IH]; simpl; [lia|].
  destruct (try_build jc name since_dt b) as [[binfo [|]]|e].
  - rewrite fetch_builds_acc, length_app. simpl. lia.
  - lia.
  - lia.
Qed.

Lemma slice_to_length {A : Type} (n : Z) (l : list A) :
  0 <= n -> Z.of_nat (List.length (Py.slice_to n l)) <= n.
Proof.
  intros H. unfold Py.slice_to.
  replace (0 <=? n) with true by (symmetry; now apply Z.leb_le).
  rewrite length_firstn. lia.
Qed.

Lemma job_builds_length (jc : Jenkins) (name : string) (max_builds : Z)
    (since_dt : option Z) (info : JobInfo) :
  0 <= max_builds ->
  Z.of_nat (List.length (job_builds jc name max_builds since_dt info))
  <= max_builds.
Proof.
  intros H. unfold job_builds.
  pose proof (fetch_builds_length jc name since_dt
    (Py.slice_to max_builds (Py.get_or (info_builds info) []))).
  pose proof (slice_to_length max_builds (Py.get_or (info_builds info) []) H).
  lia.
Qed.

Lemma scan_jobs_rows (jc : Jenkins) (controller_url : string) (max_builds : Z)
    (since_dt : option Z) (jobs : list Job) (rows : list Row) :
  scan_jobs jc controller_url max_builds since_dt jobs rows
  = (rows ++ flat_map (job_rows jc controller_url max_builds since_dt) jobs)%list.
Proof.
  revert rows. induction jobs as [|job rest IH]; intros rows; simpl.
  - now rewrite app_nil_r.
  - unfold job_rows at 1.
    destruct (job_row jc controller_url max_builds since_dt job) as [r|].
    + rewrite IH. now rewrite <- app_assoc.
    + apply IH.
Qed.

(** A row comes from a named job whose metadata was fetched and which has
    at least one build in the window. *)
Lemma job_row_some (jc : Jenkins) (controller_url : string) (max_builds : Z)
    (since_dt : option Z) (job : Job) (r : Row) :
  job_row jc controller_url max_builds since_dt job = Some r ->
  exists (name : string) (info : JobInfo),
    get_job_info jc name = Ok info /\
    job_builds jc name max_builds since_dt info <> [] /\
    r = make_row controller_url name info
          (job_builds jc name max_builds since_dt info).
Proof.
  unfold job_row. destruct (Py.or_str (fullname job) (name job)) as [n|]; [|discriminate].
  destruct (String.eqb n ""); [discriminate|].
  destruct (get_job_info jc n) as [info|e] eqn:E; [|discriminate].
  destruct (job_builds jc n max_builds since_dt info) as [|b bs] eqn:B; [discriminate|].
  intros H. injection H as <-. exists n, info. rewrite B.
  repeat split; [assumption|discriminate].
Qed.

Section EmittedRows.

Variable max_builds : Z.
Variable P : Row -> Prop.

(** [P] holds of every row made from the in-window builds of a job. *)
Hypothesis P_make_row :
  forall (jc : Jenkins) (controller_url name : string) (since_dt : option Z)
         (info : JobInfo),
    job_builds jc name max_builds since_dt info <> [] ->
    P (make_row controller_url name info
         (job_builds jc name max_builds since_dt info)).

Lemma collect_controller_jobs_all (jc : Jenkins) (controller_url : string)
    (since_dt : option Z) (rows : list Row) :
  collect_controller_jobs jc controller_url max_builds since_dt = Ok rows ->
  Forall P rows.
Proof.
  unfold collect_controller_jobs. destruct (get_all_jobs jc) as [jobs|e]; [|discriminate].
  simpl. intros H. injection H as <-. rewrite scan_jobs_rows. simpl.
  apply Forall_flat_map. apply Forall_forall. intros job _.
  unfold job_rows.
  destruct (job_row jc controller_url max_builds since_dt job) as [r|] eqn:E;
    [|constructor].
  constructor; [|constructor].
  destruct (job_row_some _ _ _ _ _ _ E) as (n & info & _ & Hne & ->).
  now apply P_make_row.
Qed.

Lemma scan_controllers_all (connect : string -> string -> string -> Jenkins)
    (user token : string) (since_dt : option Z) (controllers : list string)
    (log : list Event) (all_rows : list Row) :
  Forall P all_rows ->
  Forall P (snd (scan_controllers connect user token max_builds since_dt
                   controllers log all_rows)).
Proof.
  revert log all_rows. induction controllers as [|base rest IH];
    intros log all_rows H; simpl; [exact H|].
  destruct (get_whoami (connect (Py.rstrip "/" base) user token)); [|now apply IH].
  destruct (collect_controller_jobs _ _ _ _) as [rows|e] eqn:E; [|now apply IH].
  apply IH. apply Forall_app. split; [exact H|].
  exact (collect_controller_jobs_all _ _ _ _ E).
Qed.

Lemma collect_stats_all (connect : string -> string -> string -> Jenkins)
    (user token : string) (now : Z) (controllers : list string) (days : Z)
    (log : list Event) (rows : list Row) :
  collect_stats connect user token max_builds now controllers days = Ok (log, rows) ->
  Forall P rows.
Proof.
  unfold collect_stats. destruct (window_start now days) as [since_dt|e]; [|discriminate].
  simpl. intros H. injection H as H.
  replace rows with (snd (scan_controllers connect user token max_builds since_dt
                            controllers [] [])) by now rewrite H.
  apply scan_controllers_all. constructor.
Qed.

End EmittedRows.

(** ** Rounding to two decimals *)

(** The unit roundoff of binary64. *)
Local Abbreviation u53 := (1 # 9007199254740992)%Q.

Lemma Qabs_bounds (x : Q) : (- Qabs x <= x <= Qabs x)%Q.
Proof.
  split; [|apply Qle_Qabs].
  pose proof (Qle_Qabs (- x)) as H. rewrite Qabs_opp in H. lra.
Qed.

Lemma Qabs_mult_le (x z b : Q) :
  (Qabs z <= b)%Q -> (Qabs (x * z) <= Qabs x * b)%Q.
Proof.
  intros H. rewrite Qabs_Qmult. rewrite !(Qmult_comm (Qabs x)).
  apply Qmult_le_compat_r; [exact H|apply Qabs_nonneg].
Qed.

Lemma rnd_error_u53 (x : Q) :
  (Qabs (Float.rnd x - x) <= Qabs x * u53)%Q.
Proof. exact (rnd_error_rel x). Qed.

Lemma round2_comp : Proper (Qeq ==> eq) Py.round2.
Proof.
  intros x y E. unfold Py.round2.
  assert (x * 100 == y * 100)%Q as E' by now rewrite E.
  now rewrite (round_half_even_comp _ _ E').
Qed.

Lemma round2_mono (x y : Q) :
  (x <= y)%Q -> (Py.round2 x <= Py.round2 y)%Q.
Proof.
  intros H. unfold Py.round2. apply rnd_mono.
  apply Qmult_le_compat_r; [|discriminate].
  rewrite <- Zle_Qle. apply round_half_even_mono. lra.
Qed.

(** The hundredths that [round] picks are within half a hundredth. *)
Lemma round2_hundredths (x : Q) :
  (Qabs (inject_Z (Float.round_half_even (x * 100)) / 100 - x) <= 1 # 200)%Q.
Proof.
  pose proof (round_half_even_near (x * 100)) as [A B].
  set (k := inject_Z (Float.round_half_even (x * 100))) in *. clearbody k.
  assert (k / 100 == k * (1 # 100))%Q as -> by reflexivity.
  apply Qabs_Qle_condition. split; lra.
Qed.

Lemma round2_error (x : Q) :
  (Qabs (Py.round2 x - x) <= (1 # 200) + (Qabs x + (1 # 200)) * u53)%Q.
Proof.
  pose proof (round2_hundredths x) as H. unfold Py.round2.
  set (v := (inject_Z (Float.round_half_even (x * 100)) / 100)%Q) in *.
  clearbody v.
  pose proof (rnd_error_u53 v) as R.
  apply Qabs_Qle_condition in H. apply Qabs_Qle_condition in R.
  pose proof (Qabs_bounds x) as Bx.
  assert (Qabs v <= Qabs x + (1 # 200))%Q as Bv
    by (apply Qabs_Qle_condition; split; lra).
  set (w := Float.rnd v) in *. clearbody w.
  set (av := Qabs v) in *. set (ax := Qabs x) in *. clearbody av ax.
  apply Qabs_Qle_condition. split; lra.
Qed.

Lemma round2_range (x : Q) :
  (0 <= x <= 100)%Q -> (0 <= Py.round2 x <= 100)%Q.
Proof.
  intros [L U]. split.
  - apply Qle_trans with (Py.round2 0); [discriminate|now apply round2_mono].
  - apply Qle_trans with (Py.round2 100); [now apply round2_mono|].
    vm_compute. discriminate.
Qed.

(** ** The statistics of a row *)

Lemma builds_of_row (controller_url name : string) (info : JobInfo)
    (bs : list BuildInfo) :
  builds (make_row controller_url name info bs) = Z.of_nat (List.length bs).
Proof. reflexivity. Qed.

Lemma builds_positive (controller_url name : string) (info : JobInfo)
    (bs : list BuildInfo) :
  bs <> [] -> 1 <= builds (make_row controller_url name info bs).
Proof.
  intros H. rewrite builds_of_row. destruct bs; [contradiction|simpl; lia].
Qed.

Lemma failures_bounds (controller_url name : string) (info : JobInfo)
    (bs : list BuildInfo) :
  0 <= failures (make_row controller_url name info bs)
    <= builds (make_row controller_url name info bs).
Proof.
  rewrite failures_of_row, builds_of_row.
  pose proof (filter_length_le is_failure bs). lia.
Qed.

(** C4: in every row that is emitted, by the scan of one controller or by
    the whole collection, [failures] lies between 0 and [builds]. *)
Theorem failures_at_most_builds :
  (forall (jc : Jenkins) (controller_url : string) (max_builds : Z)
          (since_dt : option Z) (rows : list Row),
     collect_controller_jobs jc controller_url max_builds since_dt = Ok rows ->
     Forall (fun r => 0 <= failures r <= builds r) rows) /\
  (forall (connect : string -> string -> string -> Jenkins)
          (user token : string) (max_builds now : Z)
          (controllers : list string) (days : Z)
          (log : list Event) (rows : list Row),
     collect_stats connect user token max_builds now controllers days
       = Ok (log, rows) ->
     Forall (fun r => 0 <= failures r <= builds r) rows).
Proof.
  split; intros.
  - eapply collect_controller_jobs_all; [|eassumption].
    intros. apply failures_bounds.
  - eapply collect_stats_all; [|eassumption].
    intros. apply failures_bounds.
Qed.

Lemma failures_at_most_builds_witness :
  Forall (fun r => 0 <= failures r <= builds r) Scenario.rows_a.
Proof.
  exact (proj1 failures_at_most_builds Scenario.jenkins_a
           "https://a.example.com" 200 None Scenario.rows_a eq_refl).
Defined.

(** The float quotient [total_runtime / count] against the exact one. *)
Lemma avg_error (t : Q) (c : Z) :
  1 <= c ->
  (Qabs (Float.div t (Float.of_int c) - t / inject_Z c)
   <= Qabs t * (2 * u53))%Q.
Proof.
  intros Hc. unfold Float.div, Float.of_int.
  assert (1 <= inject_Z c)%Q as C1
    by (change 1%Q with (inject_Z 1); now rewrite <- Zle_Qle).
  pose proof (rnd_error_u53 (inject_Z c)) as Ec.
  rewrite (Qabs_pos (inject_Z c)) in Ec by lra.
  assert (1 <= Float.rnd (inject_Z c))%Q as C1'.
  { apply Qle_trans with (Float.rnd 1); [vm_compute; discriminate|].
    now apply rnd_mono. }
  set (C := inject_Z c) in *. set (C' := Float.rnd C) in *. clearbody C C'.
  apply Qabs_Qle_condition in Ec. destruct Ec as [Ec1 Ec2].
  assert (0 <= (C' - 1) * C)%Q as P1 by (apply Qmult_le_0_compat; lra).
  assert (0 <= (C' - 1) * (C * u53))%Q as P2
    by (apply Qmult_le_0_compat; lra).
  assert (0 < C * C')%Q as P3 by (apply Qmult_lt_0_compat; lra).
  (* the two quotients differ by at most |t| u *)
  assert (Qabs (t / C' - t / C) <= Qabs t * u53)%Q as D.
  { assert (t / C' - t / C == t * ((C - C') / (C * C')))%Q as ->
      by (field; split; lra).
    apply Qabs_mult_le. apply Qabs_Qle_condition. split.
    - apply Qle_shift_div_l; [exact P3|]. lra.
    - apply Qle_shift_div_r; [exact P3|]. lra. }
  (* the quotient by the float count is at most |t| *)
  assert (Qabs (t / C') <= Qabs t * 1)%Q as B.
  { unfold Qdiv. apply Qabs_mult_le. apply Qabs_Qle_condition. split.
    - apply Qle_trans with 0%Q; [discriminate|].
      apply Qlt_le_weak, Qinv_lt_0_compat. lra.
    - apply Qle_shift_inv_r; lra. }
  pose proof (rnd_error_u53 (t / C')) as R.
  set (q' := (t / C')%Q) in *. set (q := (t / C)%Q) in *.
  set (A := Float.rnd q') in *. clearbody q' q A.
  assert (A - q == (A - q') + (q' - q))%Q as -> by ring.
  eapply Qle_trans; [apply Qabs_triangle|].
  set (d1 := Qabs (A - q')) in *. set (d2 := Qabs (q' - q)) in *.
  set (aq := Qabs q') in *. set (at_ := Qabs t) in *.
  clearbody d1 d2 aq at_. lra.
Qed.

Lemma Qabs_div_ge_1 (x c : Q) :
  (1 <= c)%Q -> (Qabs (x / c) <= Qabs x)%Q.
Proof.
  intros H. apply Qle_trans with (Qabs x * 1)%Q;
    [|rewrite Qmult_1_r; apply Qle_refl].
  unfold Qdiv. apply Qabs_mult_le.
  apply Qabs_Qle_condition. split.
  - apply Qle_trans with 0%Q; [discriminate|].
    apply Qlt_le_weak, Qinv_lt_0_compat. lra.
  - apply Qle_shift_inv_r; lra.
Qed.

(** The rounded average against the rounded total over the count. *)
Lemma avg_close_to_total (t : Q) (c : Z) :
  1 <= c ->
  (Qabs (Py.round2 (Float.div t (Float.of_int c)) - Py.round2 t / inject_Z c)
   <= (1 # 100) + (Qabs (Py.round2 t) + 1) * (1 # 1000000000000000))%Q.
Proof.
  intros Hc.
  assert (1 <= inject_Z c)%Q as C1
    by (change 1%Q with (inject_Z 1); now rewrite <- Zle_Qle).
  pose proof (avg_error t c Hc) as D2.
  pose proof (round2_error (Float.div t (Float.of_int c))) as D1.
  pose proof (round2_error t) as D3.
  pose proof (Qabs_div_ge_1 (t - Py.round2 t) (inject_Z c) C1) as D3'.
  pose proof (Qabs_div_ge_1 t (inject_Z c) C1) as Bq.
  set (A := Float.div t (Float.of_int c)) in *.
  set (a := Py.round2 A) in *. set (r := Py.round2 t) in *.
  set (C := inject_Z c) in *. clearbody A a r C.
  (* |A| <= |t / C| + |A - t / C| *)
  assert (Qabs A <= Qabs (t / C) + Qabs (A - t / C))%Q as BA.
  { assert (A == t / C + (A - t / C))%Q as E by ring.
    rewrite E at 1. apply Qabs_triangle. }
  (* |t| <= |r| + |r - t| *)
  assert (Qabs t <= Qabs r + Qabs (r - t))%Q as Bt.
  { assert (t == r + - (r - t))%Q as E by ring.
    rewrite E at 1. eapply Qle_trans; [apply Qabs_triangle|].
    rewrite Qabs_opp. apply Qle_refl. }
  assert (Qabs (t - r) == Qabs (r - t))%Q as Sw
    by (rewrite <- Qabs_opp; apply Qabs_wd; ring).
  assert (Qabs ((t - r) / C) <= Qabs (r - t))%Q as D3''
    by (eapply Qle_trans; [exact D3'|]; rewrite Sw; apply Qle_refl).
  assert (a - r / C == (a - A) + ((A - t / C) + (t - r) / C))%Q as ->
    by (field; lra).
  eapply Qle_trans; [apply Qabs_triangle|].
  eapply Qle_trans;
    [apply Qplus_le_compat; [apply Qle_refl|apply Qabs_triangle]|].
  pose proof (Qabs_nonneg r) as Nr.
  set (d1 := Qabs (a - A)) in *. set (d2 := Qabs (A - t / C)) in *.
  set (d3 := Qabs ((t - r) / C)) in *. set (e3 := Qabs (r - t)) in *.
  set (aA := Qabs A) in *. set (at_ := Qabs t) in *. set (ar := Qabs r) in *.
  set (aq := Qabs (t / C)) in *.
  clearbody d1 d2 d3 e3 aA at_ ar aq. clear Sw D3'.
  lra.
Qed.

(** The float percentage [(failures / count) * 100] against the exact
    one. *)
Lemma percentage_error (f c : Z) :
  0 <= f <= c -> 1 <= c ->
  let p := Float.mul (Float.true_div f c) 100 in
  (0 <= p <= 100)%Q /\
  (Qabs (p - 100 * inject_Z f / inject_Z c) <= 200 * u53)%Q.
Proof.
  intros Hf Hc p. subst p. unfold Float.mul, Float.true_div.
  assert (0 < inject_Z c)%Q as P by (unfold Qlt, inject_Z; simpl; lia).
  assert (0 <= inject_Z f)%Q as F0 by (unfold Qle, inject_Z; simpl; lia).
  assert (inject_Z f <= inject_Z c)%Q as F1 by (unfold Qle, inject_Z; simpl; lia).
  assert (0 <= inject_Z f / inject_Z c <= 1)%Q as [Y0 Y1].
  { split; [apply Qle_shift_div_l|apply Qle_shift_div_r]; lra. }
  assert (100 * inject_Z f / inject_Z c == 100 * (inject_Z f / inject_Z c))%Q
    as -> by (field; lra).
  set (y := (inject_Z f / inject_Z c)%Q) in *. clearbody y.
  pose proof (rnd_error_u53 y) as Eq. rewrite (Qabs_pos y) in Eq by exact Y0.
  pose proof (rnd_nonneg y Y0) as Q0.
  assert (Float.rnd y <= 1)%Q as Q1.
  { apply Qle_trans with (Float.rnd 1); [now apply rnd_mono|].
    vm_compute. discriminate. }
  set (q := Float.rnd y) in *. clearbody q.
  pose proof (rnd_error_u53 (q * 100)) as Ep.
  rewrite (Qabs_pos (q * 100)) in Ep by lra.
  assert (0 <= Float.rnd (q * 100))%Q as P0 by (apply rnd_nonneg; lra).
  assert (Float.rnd (q * 100) <= 100)%Q as P1.
  { apply Qle_trans with (Float.rnd 100); [apply rnd_mono; lra|].
    vm_compute. discriminate. }
  set (p := Float.rnd (q * 100)) in *. clearbody p.
  apply Qabs_Qle_condition in Eq. apply Qabs_Qle_condition in Ep.
  split; [split; assumption|].
  apply Qabs_Qle_condition. split; lra.
Qed.

(** With at most 10^11 builds, the error of the float percentage is too
    small to move the hundredths away from a nearest one. *)
Lemma hundredths_nearest (f c k : Z) :
  1 <= c <= 100000000000 ->
  (Qabs (inject_Z k / 100 - 100 * inject_Z f / inject_Z c)
   <= (1 # 200) + 200 * u53)%Q ->
  (Qabs (inject_Z k / 100 - 100 * inject_Z f / inject_Z c) <= 1 # 200)%Q.
Proof.
  intros [Hc Hb] H.
  assert (1 <= inject_Z c)%Q as C1
    by (change 1%Q with (inject_Z 1); now rewrite <- Zle_Qle).
  assert (inject_Z c <= 100000000000)%Q as C2
    by (change 100000000000%Q with (inject_Z 100000000000); now rewrite <- Zle_Qle).
  set (n := k * c - 10000 * f).
  assert (inject_Z k / 100 - 100 * inject_Z f / inject_Z c
          == inject_Z n * (1 # 100) / inject_Z c)%Q as E.
  { unfold n. rewrite inject_Z_minus, !inject_Z_mult.
    change (inject_Z 10000) with 10000%Q. field. lra. }
  rewrite E in H |- *. clearbody n.
  apply Qabs_Qle_condition in H. destruct H as [H1 H2].
  assert (inject_Z n * (1 # 100)
          == inject_Z n * (1 # 100) / inject_Z c * inject_Z c)%Q as En
    by (field; lra).
  set (C := inject_Z c) in *.
  set (D := (inject_Z n * (1 # 100) / C)%Q) in *.
  assert (0 <= (D + ((1 # 200) + 200 * u53)) * C)%Q as P1
    by (apply Qmult_le_0_compat; lra).
  assert (0 <= (((1 # 200) + 200 * u53) - D) * C)%Q as P2
    by (apply Qmult_le_0_compat; lra).
  assert (inject_Z (2 * n) < inject_Z (c + 1))%Q as U.
  { rewrite inject_Z_mult, inject_Z_plus. fold C.
    change (inject_Z 2) with 2%Q. change (inject_Z 1) with 1%Q.
    clearbody D C. lra. }
  assert (inject_Z (- c - 1) < inject_Z (2 * n))%Q as L.
  { rewrite inject_Z_mult, inject_Z_minus, inject_Z_opp. fold C.
    change (inject_Z 2) with 2%Q. change (inject_Z 1) with 1%Q.
    clearbody D C. lra. }
  rewrite <- Zlt_Qlt in U, L.
  assert (inject_Z (2 * n) <= inject_Z c)%Q as U' by (rewrite <- Zle_Qle; lia).
  assert (inject_Z (- c) <= inject_Z (2 * n))%Q as L' by (rewrite <- Zle_Qle; lia).
  rewrite inject_Z_mult in U', L'. rewrite inject_Z_opp in L'. fold C in U', L'.
  change (inject_Z 2) with 2%Q in U', L'. clear H1 H2 P1 P2 U L.
  subst D. clear E En. clearbody C.
  apply Qabs_Qle_condition. split.
  - apply Qle_shift_div_l; lra.
  - apply Qle_shift_div_r; lra.
Qed.

Lemma failure_rate_of_row (controller_url name : string) (info : JobInfo)
    (bs : list BuildInfo) :
  let r := make_row controller_url name info bs in
  failure_rate r
  = Py.round2 (Float.mul (Float.true_div (failures r) (builds r)) 100).
Proof. reflexivity. Qed.

Lemma avg_of_row (controller_url name : string) (info : JobInfo)
    (bs : list BuildInfo) :
  bs <> [] ->
  let r := make_row controller_url name info bs in
  avg_runtime_seconds r
  = Py.round2 (Float.div (Py.sum (map runtime_seconds bs))
                 (Float.of_int (builds r))) /\
  total_runtime_seconds r = Py.round2 (Py.sum (map runtime_seconds bs)).
Proof.
  intros H. simpl. split; [|reflexivity].
  destruct bs as [|b bs]; [contradiction|]. reflexivity.
Qed.

Lemma make_row_rates_consistent (controller_url name : string) (info : JobInfo)
    (bs : list BuildInfo) :
  bs <> [] -> rates_consistent (make_row controller_url name info bs).
Proof.
  intros H. set (r := make_row controller_url name info bs).
  pose proof (builds_positive controller_url name info bs H) as Hc.
  pose proof (failures_bounds controller_url name info bs) as Hf.
  pose proof (failure_rate_of_row controller_url name info bs) as Hr.
  destruct (avg_of_row controller_url name info bs H) as [Ha Ht].
  cbv zeta in Hr, Ha, Ht. fold r in Hc, Hf, Hr, Ha, Ht.
  destruct (percentage_error (failures r) (builds r) Hf Hc) as [Hp He].
  cbv zeta in Hp, He.
  set (p := Float.mul (Float.true_div (failures r) (builds r)) 100) in *.
  assert (Qabs (inject_Z (Float.round_half_even (p * 100)) / 100
                - 100 * inject_Z (failures r) / inject_Z (builds r))
          <= (1 # 200) + 200 * u53)%Q as Hk.
  { pose proof (round2_hundredths p) as Hh.
    set (v := (inject_Z (Float.round_half_even (p * 100)) / 100)%Q) in *.
    set (x := (100 * inject_Z (failures r) / inject_Z (builds r))%Q) in *.
    clearbody v x p.
    apply Qabs_Qle_condition in Hh. apply Qabs_Qle_condition in He.
    apply Qabs_Qle_condition. split; lra. }
  split; [lia|]. split; [|split].
  - rewrite Ha, Ht. now apply avg_close_to_total.
  - exists (Float.round_half_even (p * 100)). split; [exact Hr|]. split.
    + eapply Qle_trans; [exact Hk|]. vm_compute. discriminate.
    + intros Hb. apply hundredths_nearest; [lia|exact Hk].
  - rewrite Hr. now apply round2_range.
Qed.

(** 23 failures of 160 builds are 14.375 percent; the float product is
    just below and the rate comes out as 14.37. *)
Example nightly_row :
  exists r : Row,
    Nightly.rows = [r] /\ builds r = 160 /\ failures r = 23 /\
    (100 * inject_Z (failures r) / inject_Z (builds r) == 14375 # 1000)%Q /\
    (percent_rounded (failures r) (builds r) == 1438 # 100)%Q /\
    failure_rate r = Float.rnd (1437 # 100).
Proof.
  eexists. split; [reflexivity|]. repeat split; vm_compute; reflexivity.
Qed.

(** C5, as amended: every emitted row has a positive [builds]; its average
    runtime is within 0.01, and the relative error of a float, of its total
    runtime divided by [builds]; its failure rate is the float of a number
    of hundredths that is within 0.005 of 100 * failures / builds, up to the
    error of the float quotient and product, and within 0.005 exactly when
    the row has at most 10^11 builds: a nearest number of hundredths, though
    not always the one that rounding the exact percentage gives; and the
    failure rate lies between 0 and 100. *)
Theorem emitted_rates_consistent :
  (forall (jc : Jenkins) (controller_url : string) (max_builds : Z)
          (since_dt : option Z) (rows : list Row),
     collect_controller_jobs jc controller_url max_builds since_dt = Ok rows ->
     Forall rates_consistent rows) /\
  (forall (connect : string -> string -> string -> Jenkins)
          (user token : string) (max_builds now : Z)
          (controllers : list string) (days : Z)
          (log : list Event) (rows : list Row),
     collect_stats connect user token max_builds now controllers days
       = Ok (log, rows) ->
     Forall rates_consistent rows).
Proof.
  split; intros.
  - eapply collect_controller_jobs_all; [|eassumption].
    intros. now apply make_row_rates_consistent.
  - eapply collect_stats_all; [|eassumption].
    intros. now apply make_row_rates_consistent.
Qed.

Lemma emitted_rates_consistent_witness :
  Forall rates_consistent Scenario.rows_a.
Proof.
  exact (proj1 emitted_rates_consistent Scenario.jenkins_a
           "https://a.example.com" 200 None Scenario.rows_a eq_refl).
Defined.

(** C5, as stated, fails: the job of the third scenario has 23 failures in
    160 builds, 14.375 percent, which rounds to 14.38; the float product
    [(23 / 160) * 100] is 14.374999999999998 and the row has 14.37. *)
Lemma failure_rate_not_rounded_percentage :
  collect_controller_jobs Nightly.jenkins_n "https://n.example.com" 200 None
  = Ok Nightly.rows /\
  exists r : Row,
    Nightly.rows = [r] /\ builds r = 160 /\ failures r = 23 /\
    (percent_rounded (failures r) (builds r) == 1438 # 100)%Q /\
    failure_rate r = Float.rnd (1437 # 100) /\
    ~ rate_is_rounded_percentage r.
Proof.
  split; [vm_compute; reflexivity|].
  eexists. split; [reflexivity|].
  repeat split; try (vm_compute; reflexivity).
  unfold rate_is_rounded_percentage. intros H. vm_compute in H. discriminate H.
Qed.

(** The worked scenario of the specification: three builds of 60, 120 and
    180 seconds, one of them failed and one aborted; the numbers of the row
    are the floats nearest to 33.33, 360, 120 and 180. *)
Example scenario_row :
  Scenario.rows_a =
    [ {| controller := "https://a.example.com";
         job_name := "build";
         job_url := "https://a.example.com/job/build";
         builds := 3;
         failures := 1;
         failure_rate := Float.rnd (3333 # 100);
         total_runtime_seconds := Float.rnd (36000 # 100);
         avg_runtime_seconds := Float.rnd (12000 # 100);
         longest_runtime_seconds := Float.rnd (18000 # 100) |} ].
Proof. vm_compute. reflexivity. Qed.

(** ** Jobs without builds in the window *)

Lemma fetch_builds_none (jc : Jenkins) (name : string) (since_dt : option Z)
    (builds_meta : list BuildRef) :
  (forall (b : BuildRef) (n : Z) (binfo : BuildInfo),
     In b builds_meta -> number b = Some n ->
     get_build_info jc name n = Ok binfo ->
     within_window (Py.get_or (timestamp binfo) 0) since_dt <> Ok true) ->
  fetch_builds jc name since_dt builds_meta [] = [].
Proof.
  induction builds_meta as [|b rest IH]; intros H; simpl; [reflexivity|].
  assert (fetch_builds jc name since_dt rest [] = []) as R.
  { apply IH. intros b' n binfo Hin. apply H. now right. }
  unfold try_build.
  destruct (number b) as [n|] eqn:N; simpl; [|exact R].
  destruct (get_build_info jc name n) as [binfo|e] eqn:G; simpl; [|exact R].
  pose proof (H b n binfo (or_introl eq_refl) N G) as W.
  destruct (within_window _ since_dt) as [[|]|e]; simpl;
    [now contradiction W|exact R|exact R].
Qed.

Lemma job_row_none (jc : Jenkins) (controller_url : string) (max_builds : Z)
    (since_dt : option Z) (job : Job) (n : string) (info : JobInfo) :
  Py.or_str (fullname job) (name job) = Some n ->
  get_job_info jc n = Ok info ->
  job_builds jc n max_builds since_dt info = [] ->
  job_row jc controller_url max_builds since_dt job = None.
Proof.
  intros Hn Hi Hb. unfold job_row. rewrite Hn.
  destruct (String.eqb n ""); [reflexivity|]. now rewrite Hi, Hb.
Qed.

(** C6: a job left with no build in the window gives no row, in particular
    a job all of whose fetched builds are outside the window; the rows of a
    controller are exactly those of its jobs that give one, in order; every
    emitted row has [builds >= 1]. *)
Theorem job_without_builds_in_window_dropped :
  (forall (jc : Jenkins) (controller_url : string) (max_builds : Z)
          (since_dt : option Z) (job : Job) (n : string) (info : JobInfo),
     Py.or_str (fullname job) (name job) = Some n ->
     get_job_info jc n = Ok info ->
     (job_builds jc n max_builds since_dt info = [] ->
      job_row jc controller_url max_builds since_dt job = None) /\
     ((forall (b : BuildRef) (k : Z) (binfo : BuildInfo),
         In b (Py.slice_to max_builds (Py.get_or (info_builds info) [])) ->
         number b = Some k ->
         get_build_info jc n k = Ok binfo ->
         within_window (Py.get_or (timestamp binfo) 0) since_dt <> Ok true) ->
      job_row jc controller_url max_builds since_dt job = None)) /\
  (forall (jc : Jenkins) (controller_url : string) (max_builds : Z)
          (since_dt : option Z) (jobs : list Job),
     get_all_jobs jc = Ok jobs ->
     collect_controller_jobs jc controller_url max_builds since_dt
     = Ok (flat_map (job_rows jc controller_url max_builds since_dt) jobs)) /\
  (forall (jc : Jenkins) (controller_url : string) (max_builds : Z)
          (since_dt : option Z) (rows : list Row),
     collect_controller_jobs jc controller_url max_builds since_dt = Ok rows ->
     Forall (fun r => 1 <= builds r) rows) /\
  (forall (connect : string -> string -> string -> Jenkins)
          (user token : string) (max_builds now : Z)
          (controllers : list string) (days : Z)
          (log : list Event) (rows : list Row),
     collect_stats connect user token max_builds now controllers days
       = Ok (log, rows) ->
     Forall (fun r => 1 <= builds r) rows).
Proof.
  split; [|split; [|split]].
  - intros jc url mb since job n info Hn Hi. split.
    + now apply job_row_none.
    + intros H. apply (job_row_none _ _ _ _ _ n info Hn Hi).
      unfold job_builds. now apply fetch_builds_none.
  - intros jc url mb since jobs H. unfold collect_controller_jobs.
    rewrite H. simpl. now rewrite scan_jobs_rows.
  - intros. eapply collect_controller_jobs_all; [|eassumption].
    intros. now apply builds_positive.
  - intros. eapply collect_stats_all; [|eassumption].
    intros. now apply builds_positive.
Qed.

(** The three builds of the scenario are older than a window that starts
    at the time of the run: the job gives no row. *)
Lemma job_without_builds_in_window_dropped_witness :
  job_row Scenario.jenkins_a "https://a.example.com" 200 (Some Scenario.now)
    {| fullname := Some "build"; name := Some "build" |} = None /\
  collect_controller_jobs Scenario.jenkins_a "https://a.example.com" 200
    (Some Scenario.now) = Ok [].
Proof.
  destruct job_without_builds_in_window_dropped as (A & B & _).
  split.
  - refine (proj1 (A Scenario.jenkins_a _ 200 (Some Scenario.now)
                     {| fullname := Some "build"; name := Some "build" |}
                     "build" _ eq_refl eq_refl) eq_refl).
  - exact (B Scenario.jenkins_a "https://a.example.com" 200
             (Some Scenario.now) _ eq_refl).
Defined.

(** ** The cap on the builds of a job *)

(** C8: with a positive [max_builds], the build references of a job are
    the first [max_builds] of its build list, only these are fetched, and
    every emitted row has [builds <= max_builds]. *)
Theorem builds_capped (max_builds : Z) :
  0 < max_builds ->
  (forall (jc : Jenkins) (n : string) (since_dt : option Z) (info : JobInfo),
     let builds_meta := Py.slice_to max_builds (Py.get_or (info_builds info) []) in
     builds_meta = firstn (Z.to_nat max_builds) (Py.get_or (info_builds info) []) /\
     Z.of_nat (List.length builds_meta) <= max_builds /\
     job_builds jc n max_builds since_dt info
     = fetch_builds jc n since_dt builds_meta [] /\
     Z.of_nat (List.length (job_builds jc n max_builds since_dt info))
     <= max_builds) /\
  (forall (jc : Jenkins) (controller_url : string)
          (since_dt : option Z) (rows : list Row),
     collect_controller_jobs jc controller_url max_builds since_dt = Ok rows ->
     Forall (fun r => builds r <= max_builds) rows) /\
  (forall (connect : string -> string -> string -> Jenkins)
          (user token : string) (now : Z)
          (controllers : list string) (days : Z)
          (log : list Event) (rows : list Row),
     collect_stats connect user token max_builds now controllers days
       = Ok (log, rows) ->
     Forall (fun r => builds r <= max_builds) rows).
Proof.
  intros H.
  assert (forall jc url n since info,
            builds (make_row url n info (job_builds jc n max_builds since info))
            <= max_builds) as B.
  { intros. rewrite builds_of_row. apply job_builds_length. lia. }
  split; [|split].
  - intros jc n since info builds_meta. subst builds_meta. repeat split.
    + unfold Py.slice_to.
      now replace (0 <=? max_builds) with true by (symmetry; apply Z.leb_le; lia).
    + apply slice_to_length. lia.
    + apply job_builds_length. lia.
  - intros. eapply collect_controller_jobs_all; [|eassumption].
    intros. apply B.
  - intros. eapply collect_stats_all; [|eassumption].
    intros. apply B.
Qed.

(** With [--max-builds 2] the job of the scenario, which has three builds,
    gives a row of two. *)
Lemma builds_capped_witness :
  exists r : Row,
    collect_controller_jobs Scenario.jenkins_a "https://a.example.com" 2 None
    = Ok [r] /\ builds r = 2 /\
    Forall (fun r => builds r <= 2) [r].
Proof.
  eexists. split; [reflexivity|]. split; [reflexivity|].
  exact (proj1 (proj2 (builds_capped 2 ltac:(lia))) Scenario.jenkins_a
           "https://a.example.com" None _ eq_refl).
Defined.

(** ** Controllers that refuse the login *)

Section Controllers.

Variable connect : string -> string -> string -> Jenkins.
Variables user token : string.
Variable max_builds : Z.
Variable since_dt : option Z.

Local Abbreviation scan := (scan_controllers connect user token max_builds since_dt).
Local Abbreviation collected := (collected_rows connect user token max_builds since_dt).

Lemma scan_controllers_acc (controllers : list string) (log : list Event)
    (all_rows : list Row) :
  scan controllers log all_rows
  = ((log ++ fst (scan controllers [] []))%list,
     (all_rows ++ collected controllers)%list).
Proof.
  unfold collected_rows.
  revert log all_rows. induction controllers as [|base rest IH];
    intros log all_rows; simpl.
  - now rewrite !app_nil_r.
  - destruct (get_whoami (connect (Py.rstrip "/" base) user token)) as [u|e].
    + destruct (collect_controller_jobs _ _ _ _) as [rows|e].
      * rewrite IH. rewrite (IH (_ :: _) rows). simpl.
        now rewrite <- !app_assoc.
      * rewrite IH. rewrite (IH (_ :: _) []). simpl.
        now rewrite <- !app_assoc.
    + rewrite IH. rewrite (IH (_ :: _) []). simpl.
      now rewrite <- !app_assoc.
Qed.

Lemma scan_controllers_app (before after : list string) :
  scan (before ++ after)%list [] []
  = ((fst (scan before [] []) ++ fst (scan after [] []))%list,
     (collected before ++ collected after)%list).
Proof.
  induction before as [|base rest IH].
  - simpl. unfold collected_rows. now destruct (scan after [] []).
  - unfold collected_rows in *. simpl.
    destruct (get_whoami (connect (Py.rstrip "/" base) user token)) as [u|e].
    + destruct (collect_controller_jobs _ _ _ _) as [rows|e];
        rewrite (scan_controllers_acc (rest ++ after)),
                (scan_controllers_acc rest); unfold collected_rows;
        rewrite IH; simpl; now rewrite <- ?app_assoc.
    + rewrite (scan_controllers_acc (rest ++ after)),
              (scan_controllers_acc rest); unfold collected_rows.
      rewrite IH. simpl. now rewrite <- ?app_assoc.
Qed.

Lemma collected_rows_app (before after : list string) :
  collected (before ++ after)%list
  = (collected before ++ collected after)%list.
Proof.
  unfold collected_rows at 1. now rewrite scan_controllers_app.
Qed.

Lemma scan_unauthenticated (base : string) (e : Exception) :
  get_whoami (connect (Py.rstrip "/" base) user token) = Raise e ->
  scan [base] [] []
  = ([ScanningController (Py.rstrip "/" base);
      UnableToAuth (Py.rstrip "/" base) e], []).
Proof.
  intros H. simpl. now rewrite H.
Qed.

End Controllers.

(** C7: a controller whose identity check raises is reported and gives no
    row; the collection goes on: the rows of a run over the controllers
    before it, it, and those after it are the rows of the ones before
    followed by the rows of the ones after, and the run returns them. *)
Theorem auth_failure_skips_controller
    (connect : string -> string -> string -> Jenkins) (user token : string)
    (max_builds : Z) (since_dt : option Z)
    (before after : list string) (base : string) (e : Exception) :
  get_whoami (connect (Py.rstrip "/" base) user token) = Raise e ->
  let collected := collected_rows connect user token max_builds since_dt in
  collected [base] = [] /\
  collected (before ++ base :: after)%list
  = (collected before ++ collected after)%list /\
  (forall r : Row,
     In r (collected before) \/ In r (collected after) ->
     In r (collected (before ++ base :: after)%list)) /\
  (forall now days : Z,
     window_start now days = Ok since_dt ->
     exists log : list Event,
       collect_stats connect user token max_builds now
         (before ++ base :: after)%list days
       = Ok (log, (collected before ++ collected after)%list) /\
       In (UnableToAuth (Py.rstrip "/" base) e) log).
Proof.
  intros H collected.
  assert (collected [base] = []) as E1.
  { unfold collected, collected_rows.
    now rewrite (scan_unauthenticated _ _ _ _ _ _ _ H). }
  assert (collected (before ++ base :: after)%list
          = (collected before ++ collected after)%list) as E2.
  { unfold collected in *. rewrite collected_rows_app.
    change (base :: after) with ([base] ++ after)%list.
    rewrite (collected_rows_app _ _ _ _ _ [base] after).
    now rewrite E1. }
  split; [exact E1|split; [exact E2|split]].
  - intros r Hr. rewrite E2. apply in_or_app. exact Hr.
  - intros now days Hw. unfold collect_stats. rewrite Hw. cbn [res_bind].
    exists (fst (scan_controllers connect user token max_builds since_dt
                   (before ++ base :: after) [] [])).
    split.
    + rewrite <- E2. unfold collected, collected_rows.
      now rewrite <- surjective_pairing.
    + change (base :: after) with ([base] ++ after)%list.
      rewrite !scan_controllers_app. cbn [fst].
      rewrite (scan_unauthenticated _ _ _ _ _ _ _ H). cbn [fst].
      apply in_or_app. right. simpl. right. now left.
Qed.

(** Controller A answers, controller B refuses the login: the run returns
    the row of A. *)
Lemma auth_failure_skips_controller_witness :
  exists log : list Event,
    collect_stats Scenario.connect "user" "token" 200 Scenario.now
      ["https://a.example.com/"; "https://b.example.com/"] 0
    = Ok (log, Scenario.rows_a) /\
    In (UnableToAuth "https://b.example.com" JenkinsException) log.
Proof.
  exact (proj2 (proj2 (proj2
    (auth_failure_skips_controller Scenario.connect "user" "token" 200 None
       ["https://a.example.com/"] [] "https://b.example.com/"
       JenkinsException eq_refl)))
    Scenario.now 0 eq_refl).
Defined.

(** ** Ranking *)

Section Sorts.

Variable by_ : SortKey.

Lemma insert_row_perm (x : Row) (l : list Row) :
  Permutation (x :: l) (Pandas.insert_row by_ x l).
Proof.
  induction l as [|y l IH]; simpl; [reflexivity|].
  destruct (Qlt_le_dec _ _); [|reflexivity].
  rewrite perm_swap. now constructor.
Qed.

Lemma insert_row_hd (x y : Row) (l : list Row) :
  Pandas.descending by_ y x ->
  HdRel (Pandas.descending by_) y l ->
  HdRel (Pandas.descending by_) y (Pandas.insert_row by_ x l).
Proof.
  intros Hyx H. destruct l as [|z l]; simpl.
  - now constructor.
  - destruct (Qlt_le_dec _ _); constructor; [|assumption].
    now inversion H.
Qed.

Lemma insert_row_sorted (x : Row) (l : list Row) :
  Sorted (Pandas.descending by_) l ->
  Sorted (Pandas.descending by_) (Pandas.insert_row by_ x l).
Proof.
  induction 1 as [|y l S IH H]; simpl.
  - repeat constructor.
  - destruct (Qlt_le_dec (sort_column by_ x) (sort_column by_ y)) as [L|G].
    + constructor; [exact IH|].
      apply insert_row_hd; [|exact H].
      unfold Pandas.descending. now apply Qlt_le_weak.
    + constructor; [now constructor|]. now constructor.
Qed.

Lemma sort_values_stable_perm (df : list Row) :
  Permutation df (Pandas.sort_values_stable by_ df).
Proof.
  induction df as [|x df IH]; simpl; [constructor|].
  rewrite <- insert_row_perm. now constructor.
Qed.

Lemma sort_values_stable_sorted (df : list Row) :
  Sorted (Pandas.descending by_) (Pandas.sort_values_stable by_ df).
Proof.
  induction df as [|x df IH]; simpl; [constructor|].
  now apply insert_row_sorted.
Qed.

End Sorts.

Lemma sort_values_stable_sorts : Pandas.sorts_descending Pandas.sort_values_stable.
Proof.
  intros by_ df. split.
  - apply sort_values_stable_perm.
  - apply sort_values_stable_sorted.
Qed.

(** A negative [top] keeps all rows but the last ones. *)
Example head_negative :
  Pandas.head (-1) Scenario.tied_rows = [Scenario.row_of "first"].
Proof. reflexivity. Qed.

(** * Further properties of the collection *)

(** ** Sums and maxima of runtimes *)

Lemma runtime_seconds_float (b : BuildInfo) :
  (Float.rnd (runtime_seconds b) == runtime_seconds b)%Q.
Proof. apply rnd_idem. Qed.

Lemma runtime_seconds_nonnegative (b : BuildInfo) :
  0 <= Py.or_zero (duration b) -> (0 <= runtime_seconds b)%Q.
Proof.
  intros H. unfold runtime_seconds, Float.div, Float.of_int.
  apply rnd_nonneg. apply Qle_shift_div_l; [reflexivity|].
  rewrite Qmult_0_l. apply rnd_nonneg.
  change 0%Q with (inject_Z 0). now rewrite <- Zle_Qle.
Qed.

(** The running sum of [sum] over floats that are not negative: it is a
    float and bounds the start and every item. *)
Lemma running_sum (xs : list Q) (a : Q) :
  (0 <= a)%Q -> (Float.rnd a == a)%Q ->
  (forall y, In y xs -> (0 <= y)%Q /\ (Float.rnd y == y)%Q) ->
  let r := fold_left Float.add xs a in
  (a <= r)%Q /\ (forall y, In y xs -> (y <= r)%Q) /\ (Float.rnd r == r)%Q.
Proof.
  revert a. induction xs as [|x xs IH]; intros a Ha Fa H; simpl.
  - split; [apply Qle_refl|]. split; [intros y []|exact Fa].
  - destruct (H x (or_introl eq_refl)) as [Hx Fx].
    assert (a <= Float.add a x)%Q as La.
    { apply Qle_trans with (Float.rnd a); [rewrite Fa; apply Qle_refl|].
      apply rnd_mono. lra. }
    assert (x <= Float.add a x)%Q as Lx.
    { apply Qle_trans with (Float.rnd x); [rewrite Fx; apply Qle_refl|].
      apply rnd_mono. lra. }
    destruct (IH (Float.add a x)) as (A & B & C).
    + lra.
    + apply rnd_idem.
    + intros y Hy. apply H. now right.
    + split; [lra|]. split; [|exact C].
      intros y [<-|Hy]; [lra|now apply B].
Qed.

Lemma sum_bounds (xs : list Q) :
  (forall y, In y xs -> (0 <= y)%Q /\ (Float.rnd y == y)%Q) ->
  (0 <= Py.sum xs)%Q /\ (forall y, In y xs -> (y <= Py.sum xs)%Q) /\
  (Float.rnd (Py.sum xs) == Py.sum xs)%Q.
Proof.
  intros H. apply (running_sum xs 0); [apply Qle_refl|reflexivity|exact H].
Qed.

(** The running maximum of [max]: it is the start or an item, and it
    bounds both. *)
Lemma running_max (xs : list Q) (m : Q) :
  let r := fold_left (fun m y => if Qlt_le_dec m y then y else m) xs m in
  (r = m \/ In r xs) /\ (m <= r)%Q /\ (forall y, In y xs -> (y <= r)%Q).
Proof.
  revert m. induction xs as [|x xs IH]; intros m; simpl.
  - split; [now left|]. split; [apply Qle_refl|]. intros y [].
  - destruct (Qlt_le_dec m x) as [L|G].
    + destruct (IH x) as (A & B & C). split; [|split].
      * destruct A as [A|A]; right; [left; now symmetry|now right].
      * apply Qle_trans with x; [now apply Qlt_le_weak|exact B].
      * intros y [<-|Hy]; [exact B|now apply C].
    + destruct (IH m) as (A & B & C). split; [|split].
      * destruct A as [A|A]; [now left|right; now right].
      * exact B.
      * intros y [<-|Hy]; [now apply Qle_trans with m|now apply C].
Qed.

Lemma max_default_spec (xs : list Q) (d : Q) :
  xs <> [] ->
  In (Py.max_default xs d) xs /\
  (forall y, In y xs -> (y <= Py.max_default xs d)%Q).
Proof.
  destruct xs as [|x xs]; [contradiction|]. intros _.
  unfold Py.max_default. destruct (running_max xs x) as (A & B & C). split.
  - destruct A as [A|A]; [left; now symmetry|now right].
  - intros y [<-|Hy]; [exact B|now apply C].
Qed.

Lemma max_default_perm (xs ys : list Q) (d : Q) :
  Permutation xs ys -> (Py.max_default xs d == Py.max_default ys d)%Q.
Proof.
  intros H. destruct xs as [|x xs].
  - apply Permutation_nil in H. now subst.
  - assert (ys <> []) as Ny.
    { intros ->. apply Permutation_sym, Permutation_nil in H. discriminate. }
    destruct (max_default_spec (x :: xs) d ltac:(discriminate)) as [I1 U1].
    destruct (max_default_spec ys d Ny) as [I2 U2].
    apply Qle_antisym.
    + apply U2. now apply (Permutation_in _ H).
    + apply U1. now apply (Permutation_in _ (Permutation_sym H)).
Qed.

(** ** What does not depend on the order of the builds *)

Lemma filter_length_perm {A : Type} (f : A -> bool) (l l' : list A) :
  Permutation l l' -> List.length (filter f l) = List.length (filter f l').
Proof.
  induction 1 as [|x l l' _ IH|x y l|l l' l'' _ IH1 _ IH2]; simpl.
  - reflexivity.
  - destruct (f x); simpl; now rewrite IH.
  - destruct (f x), (f y); reflexivity.
  - now rewrite IH1.
Qed.

(** X1: the build count, the failure count, the failure rate and the
    longest runtime of a row, like its controller, job and URL, do not
    depend on the order in which the builds were fetched; the total runtime
    does, as the durations are added in floating point, from left to right:
    builds of 35, 100 and 20 ms give a total of 0.15 s, and of 0.16 s in the
    reverse order. *)
Theorem counts_independent_of_build_order :
  (forall (controller_url name : string) (info : JobInfo)
          (bs bs' : list BuildInfo),
     Permutation bs bs' ->
     let r := make_row controller_url name info bs in
     let r' := make_row controller_url name info bs' in
     controller r = controller r' /\ job_name r = job_name r' /\
     job_url r = job_url r' /\
     builds r = builds r' /\ failures r = failures r' /\
     failure_rate r = failure_rate r' /\
     longest_runtime_seconds r = longest_runtime_seconds r') /\
  (let bs := [Scenario.build 1 35 "SUCCESS"; Scenario.build 2 100 "SUCCESS";
              Scenario.build 3 20 "SUCCESS"] in
   let info := {| info_builds := None; info_url := None |} in
   total_runtime_seconds (make_row "https://a.example.com" "build" info bs)
   = Float.rnd (15 # 100) /\
   total_runtime_seconds (make_row "https://a.example.com" "build" info (rev bs))
   = Float.rnd (16 # 100) /\
   ~ (Float.rnd (15 # 100) == Float.rnd (16 # 100))%Q).
Proof.
  split.
  - intros controller_url name info bs bs' H r r'. subst r r'.
    pose proof (Permutation_length H) as E1.
    pose proof (filter_length_perm is_failure _ _ H) as E2.
    pose proof (max_default_perm _ _ 0%Q (Permutation_map runtime_seconds H)) as E4.
    unfold make_row. cbn [controller job_name job_url builds failures
                          failure_rate longest_runtime_seconds].
    rewrite E1, E2. repeat split. now apply round2_comp.
  - cbv zeta. split; [vm_compute; reflexivity|].
    split; [vm_compute; reflexivity|].
    intros H. vm_compute in H. discriminate H.
Qed.

(** ** Average, longest and total runtime *)

Lemma avg_of_nonempty (controller_url name : string) (info : JobInfo)
    (bs : list BuildInfo) :
  bs <> [] ->
  avg_runtime_seconds (make_row controller_url name info bs)
  = Py.round2 (Float.div (Py.sum (map runtime_seconds bs))
                 (Float.of_int (Z.of_nat (List.length bs)))).
Proof.
  intros H. destruct bs; [contradiction|reflexivity].
Qed.

(** X2: after rounding, the average runtime of a row can exceed its longest
    runtime: three builds of 45 ms have the float average
    0.045000000000000005, just above the tie, and the float runtime 0.045,
    just below it; the row has an average of 0.05 and a longest runtime of
    0.04. *)
Theorem average_can_exceed_longest :
  let r := make_row "https://a.example.com" "build"
             {| info_builds := None; info_url := None |}
             [Scenario.build 1 45 "SUCCESS"; Scenario.build 2 45 "SUCCESS";
              Scenario.build 3 45 "SUCCESS"] in
  avg_runtime_seconds r = Float.rnd (5 # 100) /\
  longest_runtime_seconds r = Float.rnd (4 # 100) /\
  (longest_runtime_seconds r < avg_runtime_seconds r)%Q.
Proof.
  cbv zeta. split; [vm_compute; reflexivity|].
  split; vm_compute; reflexivity.
Qed.

(** X4: a row of a single build has the same total, average and longest
    runtime: the duration of the build in seconds, as the float quotient,
    rounded to two decimals; a build of 60005 ms gives 60.01, the float
    quotient being above 60.005. *)
Theorem single_build_runtimes (controller_url name : string) (info : JobInfo)
    (b : BuildInfo) :
  let r := make_row controller_url name info [b] in
  total_runtime_seconds r = Py.round2 (runtime_seconds b) /\
  avg_runtime_seconds r = Py.round2 (runtime_seconds b) /\
  longest_runtime_seconds r = Py.round2 (runtime_seconds b) /\
  (duration b = Some 60005 -> total_runtime_seconds r = Float.rnd (6001 # 100)).
Proof.
  intros r. subst r.
  pose proof (runtime_seconds_float b) as F.
  assert (Py.sum [runtime_seconds b] == runtime_seconds b)%Q as S.
  { unfold Py.sum. simpl. unfold Float.add.
    assert (0 + runtime_seconds b == runtime_seconds b)%Q as E by ring.
    now rewrite (rnd_comp _ _ E). }
  assert (total_runtime_seconds (make_row controller_url name info [b])
          = Py.round2 (runtime_seconds b)) as T
    by (apply round2_comp; exact S).
  split; [exact T|]. split; [|split; [reflexivity|]].
  - apply round2_comp.
    change (Float.div (Py.sum [runtime_seconds b]) (Float.rnd 1)
            == runtime_seconds b)%Q.
    unfold Float.div.
    assert (Py.sum [runtime_seconds b] / Float.rnd 1 == runtime_seconds b)%Q as E.
    { rewrite S. assert (Float.rnd 1 == 1)%Q as -> by reflexivity.
      field. }
    now rewrite (rnd_comp _ _ E).
  - intros D. rewrite T. unfold runtime_seconds. rewrite D.
    vm_compute. reflexivity.
Qed.

(** X3: the longest runtime of a row is the rounded runtime of one of the
    builds it counts, and no counted build ran longer. *)
Theorem longest_is_attained (controller_url name : string) (info : JobInfo)
    (bs : list BuildInfo) :
  bs <> [] ->
  let r := make_row controller_url name info bs in
  (exists b : BuildInfo,
     In b bs /\ longest_runtime_seconds r = Py.round2 (runtime_seconds b)) /\
  (forall b : BuildInfo,
     In b bs -> (Py.round2 (runtime_seconds b) <= longest_runtime_seconds r)%Q).
Proof.
  intros H r. subst r.
  change (longest_runtime_seconds (make_row controller_url name info bs))
    with (Py.round2 (Py.max_default (map runtime_seconds bs) 0%Q)).
  assert (map runtime_seconds bs <> []) as Hm by (destruct bs; [contradiction|discriminate]).
  destruct (max_default_spec _ 0%Q Hm) as [I U]. split.
  - apply in_map_iff in I. destruct I as (b & E & Hb).
    exists b. split; [exact Hb|]. now rewrite E.
  - intros b Hb. apply round2_mono. apply U. now apply in_map.
Qed.

Lemma longest_is_attained_witness :
  exists b : BuildInfo,
    In b [Scenario.build 1 60000 "SUCCESS"; Scenario.build 2 120000 "FAILURE"] /\
    longest_runtime_seconds
      (make_row "https://a.example.com" "build"
         {| info_builds := None; info_url := None |}
         [Scenario.build 1 60000 "SUCCESS"; Scenario.build 2 120000 "FAILURE"])
    = Py.round2 (runtime_seconds b).
Proof.
  exact (proj1 (longest_is_attained "https://a.example.com" "build"
           {| info_builds := None; info_url := None |}
           [Scenario.build 1 60000 "SUCCESS"; Scenario.build 2 120000 "FAILURE"]
           ltac:(discriminate))).
Defined.

(** ** The builds that are counted *)

Lemma fetch_builds_kept (jc : Jenkins) (name : string) (since_dt : option Z)
    (builds_meta : list BuildRef) :
  fetch_builds jc name since_dt builds_meta []
  = flat_map (kept_build jc name since_dt) builds_meta.
Proof.
  induction builds_meta as [|b rest IH]; [reflexivity|].
  simpl. unfold kept_build at 1.
  destruct (try_build jc name since_dt b) as [[binfo [|]]|e].
  - rewrite fetch_builds_acc. now rewrite IH.
  - exact IH.
  - exact IH.
Qed.

Lemma try_build_ok (jc : Jenkins) (name : string) (since_dt : option Z)
    (b : BuildRef) (binfo : BuildInfo) (inw : bool) :
  try_build jc name since_dt b = Ok (binfo, inw) <->
  exists n : Z,
    number b = Some n /\ get_build_info jc name n = Ok binfo /\
    within_window (Py.get_or (timestamp binfo) 0) since_dt = Ok inw.
Proof.
  unfold try_build. split.
  - destruct (number b) as [n|]; [|discriminate]. simpl.
    destruct (get_build_info jc name n) as [bi|e] eqn:G; [|discriminate]. simpl.
    destruct (within_window _ since_dt) as [w|e] eqn:W; [|discriminate]. simpl.
    intros H. injection H as <- <-. now exists n.
  - intros (n & -> & H1 & H2). simpl. rewrite H1. simpl. now rewrite H2.
Qed.

Lemma kept_build_in (jc : Jenkins) (name : string) (since_dt : option Z)
    (b : BuildRef) (binfo : BuildInfo) :
  In binfo (kept_build jc name since_dt b) <->
  try_build jc name since_dt b = Ok (binfo, true).
Proof.
  unfold kept_build.
  destruct (try_build jc name since_dt b) as [[bi [|]]|e]; simpl.
  - split; [intros [<-|[]]; reflexivity|]. intros H. injection H as <-. now left.
  - split; [intros []|discriminate].
  - split; [intros []|discriminate].
Qed.

Lemma job_builds_in (jc : Jenkins) (name : string)
    (max_builds : Z) (since_dt : option Z) (info : JobInfo) (binfo : BuildInfo) :
  In binfo (job_builds jc name max_builds since_dt info) <->
  exists (b : BuildRef) (n : Z),
    In b (Py.slice_to max_builds (Py.get_or (info_builds info) [])) /\
    number b = Some n /\
    get_build_info jc name n = Ok binfo /\
    within_window (Py.get_or (timestamp binfo) 0) since_dt = Ok true.
Proof.
  unfold job_builds. rewrite fetch_builds_kept, in_flat_map. split.
  - intros (b & Hb & Hk). apply kept_build_in, try_build_ok in Hk.
    destruct Hk as (n & H1 & H2 & H3). now exists b, n.
  - intros (b & n & Hb & H1 & H2 & H3). exists b. split; [exact Hb|].
    apply kept_build_in, try_build_ok. now exists n.
Qed.

(** X5: the builds counted for a job are exactly the builds, among its
    first [max_builds] references, whose details were fetched and whose
    timestamp is in the window: no build outside the window and no build
    whose fetch failed is ever counted. *)
Theorem counted_builds_fetched_in_window (jc : Jenkins) (name : string)
    (max_builds : Z) (since_dt : option Z) (info : JobInfo) (binfo : BuildInfo) :
  In binfo (job_builds jc name max_builds since_dt info) <->
  exists (b : BuildRef) (n : Z),
    In b (Py.slice_to max_builds (Py.get_or (info_builds info) [])) /\
    number b = Some n /\
    get_build_info jc name n = Ok binfo /\
    within_window (Py.get_or (timestamp binfo) 0) since_dt = Ok true.
Proof. apply job_builds_in. Qed.

(** X6: a build reference without a number, or whose details cannot be
    fetched, is skipped: the builds counted are those of the references
    before it followed by those of the references after it. *)
Theorem failed_build_fetch_is_skipped (jc : Jenkins) (name : string)
    (since_dt : option Z) (before after : list BuildRef) (b : BuildRef) :
  number b = None \/
  (exists (n : Z) (e : Exception),
     number b = Some n /\ get_build_info jc name n = Raise e) ->
  fetch_builds jc name since_dt (before ++ b :: after) []
  = (fetch_builds jc name since_dt before []
     ++ fetch_builds jc name since_dt after [])%list.
Proof.
  intros H. rewrite !fetch_builds_kept, flat_map_app. simpl.
  assert (kept_build jc name since_dt b = []) as ->; [|reflexivity].
  unfold kept_build, try_build.
  destruct H as [->|(n & e & -> & G)]; [reflexivity|].
  simpl. now rewrite G.
Qed.

(** Build 4 of the scenario does not exist: builds 3 and 1 are counted. *)
Lemma failed_build_fetch_is_skipped_witness :
  fetch_builds Scenario.jenkins_a "build" None
    [ {| number := Some 3 |}; {| number := Some 4 |}; {| number := Some 1 |} ] []
  = [Scenario.build 1700000200000 180000 "ABORTED";
     Scenario.build 1700000000000 60000 "SUCCESS"].
Proof.
  exact (failed_build_fetch_is_skipped Scenario.jenkins_a "build" None
           [ {| number := Some 3 |} ] [ {| number := Some 1 |} ]
           {| number := Some 4 |}
           (or_intror (ex_intro _ 4 (ex_intro _ NotFoundException
              (conj eq_refl eq_refl))))).
Defined.

(** ** Jobs that are skipped *)

Lemma job_rows_at_most_one (jc : Jenkins) (controller_url : string)
    (max_builds : Z) (since_dt : option Z) (job : Job) :
  (List.length (job_rows jc controller_url max_builds since_dt job) <= 1)%nat.
Proof.
  unfold job_rows. destruct (job_row _ _ _ _ job); simpl; lia.
Qed.

Lemma flat_map_length_le {A B : Type} (f : A -> list B) (l : list A) (n : nat) :
  (forall a, List.length (f a) <= n)%nat ->
  (List.length (flat_map f l) <= n * List.length l)%nat.
Proof.
  intros H. induction l as [|a l IH]; simpl; [lia|].
  rewrite length_app. specialize (H a). lia.
Qed.

(** X7: a job without a name, or whose metadata cannot be fetched, gives no
    row and does not disturb the others: the rows of the controller are
    those of the jobs before it followed by those of the jobs after it; and
    a controller gives at most one row per job. *)
Theorem failed_job_is_skipped (jc : Jenkins) (controller_url : string)
    (max_builds : Z) (since_dt : option Z) :
  (forall (before after : list Job) (job : Job),
     get_all_jobs jc = Ok (before ++ job :: after)%list ->
     Py.or_str (fullname job) (name job) = None \/
     Py.or_str (fullname job) (name job) = Some "" \/
     (exists (n : string) (e : Exception),
        Py.or_str (fullname job) (name job) = Some n /\
        get_job_info jc n = Raise e) ->
     collect_controller_jobs jc controller_url max_builds since_dt
     = Ok (flat_map (job_rows jc controller_url max_builds since_dt) before
           ++ flat_map (job_rows jc controller_url max_builds since_dt) after)%list) /\
  (forall (jobs : list Job) (rows : list Row),
     get_all_jobs jc = Ok jobs ->
     collect_controller_jobs jc controller_url max_builds since_dt = Ok rows ->
     (List.length rows <= List.length jobs)%nat).
Proof.
  split.
  - intros before after job Hj H. unfold collect_controller_jobs.
    rewrite Hj. simpl. rewrite scan_jobs_rows. simpl.
    rewrite flat_map_app. simpl.
    assert (job_rows jc controller_url max_builds since_dt job = []) as ->;
      [|reflexivity].
    unfold job_rows, job_row.
    destruct H as [->|[->|(n & e & -> & G)]]; try reflexivity.
    rewrite G. now destruct (String.eqb n "").
  - intros jobs rows Hj. unfold collect_controller_jobs. rewrite Hj. simpl.
    intros H. injection H as <-. rewrite scan_jobs_rows. simpl.
    pose proof (flat_map_length_le
      (job_rows jc controller_url max_builds since_dt) jobs 1
      (job_rows_at_most_one jc controller_url max_builds since_dt)). lia.
Qed.

(** ** Where a row comes from *)

Lemma job_row_named (jc : Jenkins) (controller_url : string) (max_builds : Z)
    (since_dt : option Z) (job : Job) (r : Row) :
  job_row jc controller_url max_builds since_dt job = Some r ->
  exists (n : string) (info : JobInfo),
    Py.or_str (fullname job) (name job) = Some n /\ n <> "" /\
    get_job_info jc n = Ok info /\
    job_builds jc n max_builds since_dt info <> [] /\
    r = make_row controller_url n info (job_builds jc n max_builds since_dt info).
Proof.
  unfold job_row. destruct (Py.or_str (fullname job) (name job)) as [n|]; [|discriminate].
  destruct (String.eqb_spec n "") as [|Hn]; [discriminate|].
  destruct (get_job_info jc n) as [info|e] eqn:E; [|discriminate].
  destruct (job_builds jc n max_builds since_dt info) as [|b bs] eqn:B; [discriminate|].
  intros H. injection H as <-. exists n, info. rewrite B.
  repeat split; try assumption. discriminate.
Qed.

Lemma collect_controller_jobs_in (jc : Jenkins) (controller_url : string)
    (max_builds : Z) (since_dt : option Z) (rows : list Row) (r : Row) :
  collect_controller_jobs jc controller_url max_builds since_dt = Ok rows ->
  In r rows ->
  exists job : Job,
    job_row jc controller_url max_builds since_dt job = Some r.
Proof.
  unfold collect_controller_jobs. destruct (get_all_jobs jc) as [jobs|e]; [|discriminate].
  simpl. intros H. injection H as <-. rewrite scan_jobs_rows. simpl.
  rewrite in_flat_map. intros (job & _ & Hr). exists job.
  unfold job_rows in Hr.
  destruct (job_row jc controller_url max_builds since_dt job) as [r'|];
    [|contradiction].
  destruct Hr as [<-|[]]. reflexivity.
Qed.

Lemma scan_controllers_flat (connect : string -> string -> string -> Jenkins)
    (user token : string) (max_builds : Z) (since_dt : option Z)
    (controllers : list string) :
  scan_controllers connect user token max_builds since_dt controllers [] []
  = (flat_map (fun b => fst (scan_controller connect user token max_builds since_dt b))
       controllers,
     flat_map (fun b => snd (scan_controller connect user token max_builds since_dt b))
       controllers).
Proof.
  induction controllers as [|base rest IH]; [reflexivity|].
  change (base :: rest) with ([base] ++ rest)%list at 1.
  rewrite scan_controllers_app. unfold collected_rows. rewrite IH.
  reflexivity.
Qed.

Lemma scan_controller_cases (connect : string -> string -> string -> Jenkins)
    (user token : string) (max_builds : Z) (since_dt : option Z) (base : string) :
  let b := Py.rstrip "/" base in
  let jc := connect b user token in
  (exists e, get_whoami jc = Raise e /\
     scan_controller connect user token max_builds since_dt base
     = ([ScanningController b; UnableToAuth b e], [])) \/
  (exists u e, get_whoami jc = Ok u /\
     collect_controller_jobs jc b max_builds since_dt = Raise e /\
     scan_controller connect user token max_builds since_dt base
     = ([ScanningController b; FailedCollecting b e], [])) \/
  (exists u rows, get_whoami jc = Ok u /\
     collect_controller_jobs jc b max_builds since_dt = Ok rows /\
     scan_controller connect user token max_builds since_dt base
     = ([ScanningController b; JobsWithBuildsInWindow (Z.of_nat (List.length rows))],
        rows)).
Proof.
  intros b jc. subst b jc. unfold scan_controller. simpl.
  destruct (get_whoami _) as [u|e].
  - destruct (collect_controller_jobs _ _ _ _) as [rows|e].
    + right. right. now exists u, rows.
    + right. left. now exists u, e.
  - left. now exists e.
Qed.

(** ** Runtimes of builds that did not run backwards *)

(** X8: when the controller reports no negative duration, every row it
    gives has an average and a longest runtime between 0 and its total
    runtime. *)
Theorem runtimes_within_total (jc : Jenkins) (controller_url : string)
    (max_builds : Z) (since_dt : option Z) (rows : list Row) :
  (forall (n : string) (k : Z) (binfo : BuildInfo),
     get_build_info jc n k = Ok binfo -> 0 <= Py.or_zero (duration binfo)) ->
  collect_controller_jobs jc controller_url max_builds since_dt = Ok rows ->
  Forall (fun r =>
            (0 <= avg_runtime_seconds r <= total_runtime_seconds r)%Q /\
            (0 <= longest_runtime_seconds r <= total_runtime_seconds r)%Q) rows.
Proof.
  intros Hd Hc. apply Forall_forall. intros r Hr.
  destruct (collect_controller_jobs_in _ _ _ _ _ _ Hc Hr) as (job & Hj).
  destruct (job_row_named _ _ _ _ _ _ Hj) as (n & info & _ & _ & _ & Hne & ->).
  set (bs := job_builds jc n max_builds since_dt info) in *.
  assert (forall y, In y (map runtime_seconds bs) ->
            (0 <= y)%Q /\ (Float.rnd y == y)%Q) as Hpos.
  { intros y Hy. apply in_map_iff in Hy. destruct Hy as (b & <- & Hb).
    apply job_builds_in in Hb.
    destruct Hb as (_ & k & _ & _ & G & _). split.
    - apply runtime_seconds_nonnegative. exact (Hd n k b G).
    - apply runtime_seconds_float. }
  assert (map runtime_seconds bs <> []) as Hm
    by (destruct bs; [contradiction|discriminate]).
  destruct (max_default_spec _ 0%Q Hm) as [I U].
  destruct (sum_bounds _ Hpos) as (S0 & S1 & S2).
  assert (0 <= Py.round2 0)%Q as R0 by (vm_compute; discriminate).
  rewrite (avg_of_nonempty _ _ _ _ Hne).
  change (total_runtime_seconds (make_row controller_url n info bs))
    with (Py.round2 (Py.sum (map runtime_seconds bs))).
  change (longest_runtime_seconds (make_row controller_url n info bs))
    with (Py.round2 (Py.max_default (map runtime_seconds bs) 0%Q)).
  set (T := Py.sum (map runtime_seconds bs)) in *.
  set (M := Py.max_default (map runtime_seconds bs) 0%Q) in *.
  assert (1 <= Float.of_int (Z.of_nat (List.length bs)))%Q as C1.
  { apply Qle_trans with (Float.rnd 1); [vm_compute; discriminate|].
    apply rnd_mono. change 1%Q with (inject_Z 1). rewrite <- Zle_Qle.
    destruct bs; [contradiction|simpl; lia]. }
  set (C := Float.of_int (Z.of_nat (List.length bs))) in *.
  assert (0 <= T / C <= T)%Q as [Q0 Q1].
  { split.
    - apply Qle_shift_div_l; lra.
    - apply Qle_shift_div_r; [lra|].
      assert (0 <= T * (C - 1))%Q by (apply Qmult_le_0_compat; lra).
      clearbody T C. lra. }
  repeat split.
  - apply Qle_trans with (Py.round2 0); [exact R0|].
    apply round2_mono. now apply rnd_nonneg.
  - apply round2_mono. unfold Float.div.
    apply Qle_trans with (Float.rnd T); [now apply rnd_mono|].
    rewrite S2. apply Qle_refl.
  - apply Qle_trans with (Py.round2 0); [exact R0|].
    apply round2_mono. now apply Hpos.
  - apply round2_mono. now apply S1.
Qed.

Lemma jenkins_c_durations (n : string) (k : Z) (binfo : BuildInfo) :
  get_build_info Fleet.jenkins_c n k = Ok binfo ->
  0 <= Py.or_zero (duration binfo).
Proof.
  simpl. destruct (String.eqb n "team/app").
  - destruct (k =? 12); [intros H; injection H as <-; simpl; lia|].
    destruct (k =? 10); [intros H; injection H as <-; simpl; lia|discriminate].
  - destruct (String.eqb n "old"); [|discriminate].
    destruct (k =? 1); [intros H; injection H as <-; simpl; lia|discriminate].
Qed.

Lemma runtimes_within_total_witness :
  exists rows : list Row,
    collect_controller_jobs Fleet.jenkins_c "https://c.example.com" 200 None
    = Ok rows /\
    Forall (fun r =>
              (0 <= avg_runtime_seconds r <= total_runtime_seconds r)%Q /\
              (0 <= longest_runtime_seconds r <= total_runtime_seconds r)%Q)
      rows.
Proof.
  eexists. split; [reflexivity|].
  exact (runtimes_within_total Fleet.jenkins_c "https://c.example.com" 200 None _
           jenkins_c_durations eq_refl).
Defined.

(** ** Wider windows *)






(** ** A budget of no builds *)

(** X10: with [--max-builds 0] no build is fetched and the collection
    gives no row at all; a negative [max_builds] leaves out the last
    [-max_builds] references of each job instead of capping them. *)
Theorem max_builds_not_positive :
  (forall (connect : string -> string -> string -> Jenkins)
          (user token : string) (now : Z) (controllers : list string)
          (days : Z) (log : list Event) (rows : list Row),
     collect_stats connect user token 0 now controllers days = Ok (log, rows) ->
     rows = []) /\
  (forall (max_builds : Z) (refs : list BuildRef),
     max_builds < 0 ->
     Py.slice_to max_builds refs
     = firstn (List.length refs - Z.to_nat (- max_builds)) refs /\
     List.length (Py.slice_to max_builds refs)
     = (List.length refs - Z.to_nat (- max_builds))%nat).
Proof.
  split.
  - intros connect user token now controllers days log rows H.
    assert (Forall (fun _ : Row => False) rows) as F.
    { eapply (collect_stats_all 0); [|exact H].
      intros jc url n since info Hne. apply Hne. reflexivity. }
    destruct rows as [|r rows]; [reflexivity|]. now inversion F.
  - intros max_builds refs H.
    assert (Py.slice_to max_builds refs
            = firstn (List.length refs - Z.to_nat (- max_builds)) refs) as E.
    { unfold Py.slice_to. destruct (Z.leb_spec 0 max_builds) as [L|L]; [lia|reflexivity]. }
    split; [exact E|]. rewrite E, length_firstn. lia.
Qed.

(** ** Trailing slashes and job paths *)

Lemma rstrip_repeat (c : ascii) (n : nat) :
  Py.rstrip c (repeat_char c n) = "".
Proof.
  induction n as [|n IH]; [reflexivity|].
  simpl. rewrite IH. now rewrite Ascii.eqb_refl.
Qed.

Lemma rstrip_app_repeat (c : ascii) (t : string) (n : nat) :
  Py.rstrip c (t ++ repeat_char c n) = Py.rstrip c t.
Proof.
  induction t as [|a t IH]; simpl.
  - apply rstrip_repeat.
  - now rewrite IH.
Qed.

Lemma rstrip_decompose (c : ascii) (s : string) :
  exists n : nat, s = Py.rstrip c s ++ repeat_char c n.
Proof.
  induction s as [|a s [n IH]]; [now exists O|].
  simpl. destruct (Py.rstrip c s) as [|x r] eqn:E.
  - destruct (Ascii.eqb_spec a c) as [->|N].
    + exists (S n). simpl. now rewrite IH at 1.
    + exists n. simpl. now rewrite IH at 1.
  - exists n. simpl. now rewrite IH at 1.
Qed.

Lemma rstrip_no_trailing (c : ascii) (s : string) :
  ends_with c (Py.rstrip c s) = false.
Proof.
  induction s as [|a s IH]; [reflexivity|].
  simpl. destruct (Py.rstrip c s) as [|x r] eqn:E.
  - destruct (Ascii.eqb a c) eqn:A; [reflexivity|]. simpl. exact A.
  - exact IH.
Qed.

Lemma rstrip_stripped (c : ascii) (t : string) :
  ends_with c t = false -> Py.rstrip c t = t.
Proof.
  induction t as [|a t IH]; [reflexivity|].
  destruct t as [|x t'].
  - simpl. now intros ->.
  - intros H. change (ends_with c (String x t') = false) in H.
    change (Py.rstrip c (String a (String x t')))
      with (match Py.rstrip c (String x t') with
            | EmptyString => if Ascii.eqb a c then EmptyString else String a EmptyString
            | r => String a r
            end).
    now rewrite (IH H).
Qed.

(** X11: [rstrip] removes exactly the trailing slashes: the text is the
    result followed by slashes only, the result does not end in a slash, it
    is the only such prefix, and stripping again changes nothing. *)
Theorem rstrip_removes_trailing (c : ascii) (s : string) :
  (exists n : nat, s = Py.rstrip c s ++ repeat_char c n) /\
  ends_with c (Py.rstrip c s) = false /\
  (forall (t : string) (n : nat),
     s = t ++ repeat_char c n -> ends_with c t = false -> Py.rstrip c s = t) /\
  Py.rstrip c (Py.rstrip c s) = Py.rstrip c s.
Proof.
  split; [apply rstrip_decompose|].
  split; [apply rstrip_no_trailing|]. split.
  - intros t n -> H. rewrite rstrip_app_repeat. now apply rstrip_stripped.
  - apply rstrip_stripped, rstrip_no_trailing.
Qed.

Lemma replace_app_clean (c : ascii) (by_ seg rest : string) :
  contains c seg = false ->
  Py.replace c by_ (seg ++ rest) = seg ++ Py.replace c by_ rest.
Proof.
  induction seg as [|a seg IH]; [reflexivity|].
  simpl. destruct (Ascii.eqb a c); [discriminate|]. simpl.
  intros H. now rewrite IH.
Qed.

Lemma replace_clean (c : ascii) (by_ seg : string) :
  contains c seg = false -> Py.replace c by_ seg = seg.
Proof.
  induction seg as [|a seg IH]; [reflexivity|].
  simpl. destruct (Ascii.eqb a c); [discriminate|]. simpl.
  intros H. now rewrite IH.
Qed.

Lemma replace_concat (c : ascii) (by_ : string) (segs : list string) :
  Forall (fun seg => contains c seg = false) segs ->
  Py.replace c by_ (String.concat (String c "") segs) = String.concat by_ segs.
Proof.
  induction 1 as [|seg segs H _ IH]; [reflexivity|].
  destruct segs as [|seg' segs].
  - simpl. now apply replace_clean.
  - change (String.concat (String c "") (seg :: seg' :: segs))
      with (seg ++ String c "" ++ String.concat (String c "") (seg' :: segs)).
    change (String.concat by_ (seg :: seg' :: segs))
      with (seg ++ by_ ++ String.concat by_ (seg' :: segs)).
    rewrite (replace_app_clean _ _ _ _ H).
    set (rest := String.concat (String c "") (seg' :: segs)) in *.
    change (String c "" ++ rest) with (String c rest).
    change (Py.replace c by_ (String c rest))
      with (if Ascii.eqb c c then by_ ++ Py.replace c by_ rest
            else String c (Py.replace c by_ rest)).
    rewrite Ascii.eqb_refl. now rewrite IH.
Qed.

(** X12: the URL of a row is the URL that the job metadata gives when it
    gives a non-empty one; otherwise it is the controller URL without
    trailing slashes followed by /job/ and each folder segment of the job's
    full name, all joined by /job/. *)
Theorem job_url_resolution (controller_url : string) (info : JobInfo)
    (bs : list BuildInfo) :
  (forall (n url : string),
     info_url info = Some url -> url <> "" ->
     job_url (make_row controller_url n info bs) = url) /\
  (forall segs : list string,
     info_url info = None \/ info_url info = Some "" ->
     Forall (fun seg => contains "/" seg = false) segs ->
     job_url (make_row controller_url (String.concat "/" segs) info bs)
     = Py.rstrip "/" controller_url ++ "/job/" ++ String.concat "/job/" segs).
Proof.
  split.
  - intros n url E N. unfold make_row. simpl. rewrite E. simpl.
    destruct (String.eqb_spec url ""); [contradiction|reflexivity].
  - intros segs E H. unfold make_row. simpl.
    rewrite (replace_concat "/" "/job/" segs H).
    destruct E as [-> | ->]; reflexivity.
Qed.

Lemma job_url_resolution_witness :
  job_url (make_row "https://c.example.com//" (String.concat "/" ["team"; "app"])
             {| info_builds := None; info_url := None |} [])
  = "https://c.example.com/job/team/job/app".
Proof.
  apply (proj2 (job_url_resolution "https://c.example.com//"
                  {| info_builds := None; info_url := None |} [])
           ["team"; "app"]).
  - left. reflexivity.
  - repeat constructor.
Defined.

(** ** Controllers that cannot list their jobs *)

Lemma scan_enumeration_failed (connect : string -> string -> string -> Jenkins)
    (user token : string) (max_builds : Z) (since_dt : option Z)
    (base : string) (u : unit) (e : Exception) :
  get_whoami (connect (Py.rstrip "/" base) user token) = Ok u ->
  get_all_jobs (connect (Py.rstrip "/" base) user token) = Raise e ->
  scan_controllers connect user token max_builds since_dt [base] [] []
  = ([ScanningController (Py.rstrip "/" base);
      FailedCollecting (Py.rstrip "/" base) e], []).
Proof.
  intros Hw Hj. simpl. rewrite Hw. unfold collect_controller_jobs.
  now rewrite Hj.
Qed.

(** X13: a controller that accepts the login and then fails to list its
    jobs is reported and gives no row; the collection goes on and returns
    the rows of the controllers before it followed by those of the
    controllers after it. *)
Theorem enumeration_failure_skips_controller
    (connect : string -> string -> string -> Jenkins) (user token : string)
    (max_builds : Z) (since_dt : option Z)
    (before after : list string) (base : string) (u : unit) (e : Exception) :
  get_whoami (connect (Py.rstrip "/" base) user token) = Ok u ->
  get_all_jobs (connect (Py.rstrip "/" base) user token) = Raise e ->
  let collected := collected_rows connect user token max_builds since_dt in
  collected [base] = [] /\
  collected (before ++ base :: after)%list
  = (collected before ++ collected after)%list /\
  (forall now days : Z,
     window_start now days = Ok since_dt ->
     exists log : list Event,
       collect_stats connect user token max_builds now
         (before ++ base :: after)%list days
       = Ok (log, (collected before ++ collected after)%list) /\
       In (FailedCollecting (Py.rstrip "/" base) e) log).
Proof.
  intros Hw Hj collected.
  pose proof (scan_enumeration_failed connect user token max_builds since_dt
                base u e Hw Hj) as S.
  assert (collected [base] = []) as E1.
  { unfold collected, collected_rows. now rewrite S. }
  assert (collected (before ++ base :: after)%list
          = (collected before ++ collected after)%list) as E2.
  { unfold collected in *. rewrite collected_rows_app.
    change (base :: after) with ([base] ++ after)%list.
    rewrite (collected_rows_app _ _ _ _ _ [base] after).
    now rewrite E1. }
  split; [exact E1|split; [exact E2|]].
  intros now days Hd. unfold collect_stats. rewrite Hd. cbn [res_bind].
  exists (fst (scan_controllers connect user token max_builds since_dt
                 (before ++ base :: after) [] [])).
  split.
  - rewrite <- E2. unfold collected, collected_rows.
    now rewrite <- surjective_pairing.
  - change (base :: after) with ([base] ++ after)%list.
    rewrite !scan_controllers_app. cbn [fst]. rewrite S. cbn [fst].
    apply in_or_app. right. simpl. right. now left.
Qed.

(** Controller D cannot list its jobs: the run returns the row of A. *)
Lemma enumeration_failure_skips_controller_witness :
  exists log : list Event,
    collect_stats Fleet.connect "user" "token" 200 Scenario.now
      ["https://d.example.com/"; "https://a.example.com"] 0
    = Ok (log, Scenario.rows_a) /\
    In (FailedCollecting "https://d.example.com" JenkinsException) log.
Proof.
  exact (proj2 (proj2
    (enumeration_failure_skips_controller Fleet.connect "user" "token" 200 None
       [] ["https://a.example.com"] "https://d.example.com/" tt
       JenkinsException eq_refl eq_refl))
    Scenario.now 0 eq_refl).
Defined.

(** ** When the collection itself fails *)

Lemma window_start_cases (now days : Z) :
  in_datetime_range now = true ->
  (days <= 0 /\ window_start now days = Ok None) \/
  (0 < days /\ DATETIME_MIN_US <= now - days * US_PER_DAY /\
   window_start now days = Ok (Some (now - days * US_PER_DAY))) \/
  (0 < days /\ now - days * US_PER_DAY < DATETIME_MIN_US /\
   window_start now days = Raise OverflowError).
Proof.
  intros Hn. destruct (Z.le_gt_cases days 0) as [L|G].
  - left. split; [exact L|now apply window_start_unbounded].
  - right. unfold window_start, minus_days.
    replace (negb (days =? 0) && (0 <? days)) with true
      by (symmetry; apply andb_true_iff; split;
          [apply negb_true_iff, Z.eqb_neq|apply Z.ltb_lt]; lia).
    unfold in_datetime_range in *. apply andb_true_iff in Hn.
    destruct Hn as [_ Hmax]. apply Z.leb_le in Hmax.
    assert (now - days * US_PER_DAY <= DATETIME_MAX_US) as U
      by (unfold US_PER_DAY; lia).
    apply Z.leb_le in U. rewrite U, andb_true_r.
    destruct (Z.leb_spec DATETIME_MIN_US (now - days * US_PER_DAY)) as [A|A].
    + left. repeat split; [lia|exact A].
    + right. repeat split; [lia|exact A].
Qed.

(** X14: the start of the window, for a clock that [datetime] can hold.
    With [days <= 0] there is none.  With a positive [days] it is the
    reading of the clock less [days] times 86400 seconds; when that instant
    precedes the year 1, the subtraction raises OverflowError, and so does
    the collection, whatever the controllers are, as the subtraction stands
    before the loop and outside any [try]. *)
Theorem window_start_spec (now days : Z) :
  in_datetime_range now = true ->
  (days <= 0 -> window_start now days = Ok None) /\
  (0 < days -> DATETIME_MIN_US <= now - days * US_PER_DAY ->
   window_start now days = Ok (Some (now - days * US_PER_DAY))) /\
  (0 < days -> now - days * US_PER_DAY < DATETIME_MIN_US ->
   window_start now days = Raise OverflowError /\
   forall (connect : string -> string -> string -> Jenkins)
          (user token : string) (max_builds : Z) (controllers : list string),
     collect_stats connect user token max_builds now controllers days
     = Raise OverflowError).
Proof.
  intros Hn.
  destruct (window_start_cases now days Hn) as [[L E]|[(G & A & E)|(G & A & E)]].
  - split; [intros _; exact E|]. split; intros; lia.
  - split; [intros; lia|]. split; [intros _ _; exact E|intros; lia].
  - split; [intros; lia|]. split; [intros; lia|]. intros _ _.
    split; [exact E|]. intros. unfold collect_stats. now rewrite E.
Qed.

(** On 2023-11-20, [--days 30] starts the window on 2023-10-21 and
    [--days 1000000] raises. *)
Lemma window_start_spec_witness :
  window_start Scenario.now 30 = Ok (Some 1697846400000000) /\
  collect_stats Fleet.connect "user" "token" 200 Scenario.now
    ["https://d.example.com"] 1000000 = Raise OverflowError.
Proof.
  destruct (window_start_spec Scenario.now 30 eq_refl) as (_ & A & _).
  destruct (window_start_spec Scenario.now 1000000 eq_refl) as (_ & _ & B).
  split.
  - apply A; [lia|vm_compute; discriminate].
  - apply B; [lia|reflexivity].
Defined.

(** ** What the log says *)

Lemma reported_jobs_app (l1 l2 : list Event) :
  reported_jobs (l1 ++ l2) = reported_jobs l1 + reported_jobs l2.
Proof.
  induction l1 as [|e l1 IH]; [reflexivity|].
  simpl. destruct e; rewrite IH; lia.
Qed.

Lemma scan_controller_log (connect : string -> string -> string -> Jenkins)
    (user token : string) (max_builds : Z) (since_dt : option Z) (base : string) :
  exists o : Event,
    closes_scan base o /\
    fst (scan_controller connect user token max_builds since_dt base)
    = scan_lines (base, o) /\
    reported_jobs (scan_lines (base, o))
    = Z.of_nat (List.length
                  (snd (scan_controller connect user token max_builds since_dt base))).
Proof.
  destruct (scan_controller_cases connect user token max_builds since_dt base)
    as [(e & _ & ->)|[(u & e & _ & _ & ->)|(u & rows & _ & _ & ->)]].
  - exists (UnableToAuth (Py.rstrip "/" base) e). repeat split.
  - exists (FailedCollecting (Py.rstrip "/" base) e). repeat split.
  - exists (JobsWithBuildsInWindow (Z.of_nat (List.length rows))).
    repeat split; simpl; lia.
Qed.

(** X15: the log of a collection is made of two lines per controller, in
    the order given: the first announces the scan of the controller under
    its URL without trailing slashes, the second ends it with a failed
    login, a failed collection or a count of jobs; and the job counts add
    up to the number of rows returned. *)
Theorem log_accounts_for_rows
    (connect : string -> string -> string -> Jenkins) (user token : string)
    (max_builds now : Z) (controllers : list string) (days : Z)
    (log : list Event) (rows : list Row) :
  collect_stats connect user token max_builds now controllers days
    = Ok (log, rows) ->
  exists outcomes : list Event,
    Forall2 closes_scan controllers outcomes /\
    log = flat_map scan_lines (combine controllers outcomes) /\
    reported_jobs log = Z.of_nat (List.length rows).
Proof.
  unfold collect_stats. destruct (window_start now days) as [since_dt|e]; [|discriminate].
  cbn [res_bind]. rewrite scan_controllers_flat. intros H. injection H as <- <-.
  induction controllers as [|base rest (outcomes & IH1 & IH2 & IH3)].
  - exists []. repeat split. constructor.
  - destruct (scan_controller_log connect user token max_builds since_dt base)
      as (o & Ho & El & Er).
    exists (o :: outcomes). split; [now constructor|].
    cbn [flat_map combine]. rewrite El, <- IH2. split; [reflexivity|].
    rewrite reported_jobs_app, length_app, IH3, Er. lia.
Qed.

Lemma log_accounts_for_rows_witness :
  exists (log : list Event) (rows : list Row) (outcomes : list Event),
    collect_stats Fleet.connect "user" "token" 200 Scenario.now
      ["https://d.example.com/"; "https://c.example.com"; "https://b.example.com"] 0
    = Ok (log, rows) /\
    Forall2 closes_scan
      ["https://d.example.com/"; "https://c.example.com"; "https://b.example.com"]
      outcomes /\
    log = flat_map scan_lines
            (combine ["https://d.example.com/"; "https://c.example.com";
                      "https://b.example.com"] outcomes) /\
    reported_jobs log = Z.of_nat (List.length rows).
Proof.
  destruct (log_accounts_for_rows Fleet.connect "user" "token" 200 Scenario.now
    ["https://d.example.com/"; "https://c.example.com"; "https://b.example.com"] 0
    _ _ eq_refl) as (outcomes & F & E & R).
  eexists _, _, outcomes. split; [reflexivity|].
  split; [exact F|]. split; [exact E|exact R].
Defined.

(** ** The controller and the job of a row *)

Lemma collected_rows_in (connect : string -> string -> string -> Jenkins)
    (user token : string) (max_builds : Z) (since_dt : option Z)
    (controllers : list string) (r : Row) :
  In r (collected_rows connect user token max_builds since_dt controllers) ->
  exists (base : string) (rows : list Row),
    In base controllers /\
    collect_controller_jobs (connect (Py.rstrip "/" base) user token)
      (Py.rstrip "/" base) max_builds since_dt = Ok rows /\
    In r rows.
Proof.
  unfold collected_rows. rewrite scan_controllers_flat. cbn [snd].
  rewrite in_flat_map. intros (base & Hb & Hr).
  destruct (scan_controller_cases connect user token max_builds since_dt base)
    as [(e & _ & E)|[(u & e & _ & _ & E)|(u & rows & _ & Hc & E)]];
    rewrite E in Hr; cbn [snd] in Hr; try contradiction.
  now exists base, rows.
Qed.

(** X16: every row returned names one of the controllers given, by its URL
    without trailing slashes, and a job of that controller's list under a
    non-empty name: the full name if it has one, else the short name. *)
Theorem row_names_controller_and_job
    (connect : string -> string -> string -> Jenkins) (user token : string)
    (max_builds now : Z) (controllers : list string) (days : Z)
    (log : list Event) (rows : list Row) :
  collect_stats connect user token max_builds now controllers days
    = Ok (log, rows) ->
  Forall (fun r =>
            exists (base : string) (jobs : list Job) (job : Job),
              In base controllers /\
              controller r = Py.rstrip "/" base /\
              ends_with "/" (controller r) = false /\
              get_all_jobs (connect (controller r) user token) = Ok jobs /\
              In job jobs /\
              Py.or_str (fullname job) (name job) = Some (job_name r) /\
              job_name r <> "") rows.
Proof.
  unfold collect_stats. destruct (window_start now days) as [since_dt|e]; [|discriminate].
  cbn [res_bind]. intros H. injection H as H.
  assert (rows = collected_rows connect user token max_builds since_dt controllers)
    as -> by (unfold collected_rows; now rewrite H).
  apply Forall_forall. intros r Hr.
  apply (collected_rows_in connect user token max_builds since_dt) in Hr.
  destruct Hr as (base & rs & Hb & Hc & Hr).
  unfold collect_controller_jobs in Hc.
  destruct (get_all_jobs (connect (Py.rstrip "/" base) user token)) as [jobs|e] eqn:J;
    [|discriminate].
  simpl in Hc. injection Hc as <-. rewrite scan_jobs_rows in Hr. simpl in Hr.
  apply in_flat_map in Hr. destruct Hr as (job & Hj & Hr).
  unfold job_rows in Hr.
  destruct (job_row _ _ _ _ job) as [r'|] eqn:R; [|contradiction].
  destruct Hr as [<-|[]].
  destruct (job_row_named _ _ _ _ _ _ R) as (n & info & Hn & Hne & _ & _ & ->).
  exists base, jobs, job. cbn [controller job_name make_row].
  repeat split; try assumption. apply rstrip_no_trailing.
Qed.

Lemma row_names_controller_and_job_witness :
  exists (log : list Event) (rows : list Row),
    collect_stats Fleet.connect "user" "token" 200 Scenario.now
      ["https://c.example.com//"] 0 = Ok (log, rows) /\
    Forall (fun r =>
              controller r = "https://c.example.com" /\ job_name r <> "") rows.
Proof.
  eexists _, _. split; [reflexivity|].
  pose proof (row_names_controller_and_job Fleet.connect "user" "token" 200
    Scenario.now ["https://c.example.com//"] 0 _ _ eq_refl) as F.
  apply Forall_forall. intros r Hr.
  destruct (proj1 (Forall_forall _ _) F r Hr)
    as (base & jobs & job & [<-|[]] & Hc & _ & _ & _ & _ & Hn).
  split; [exact Hc|exact Hn].
Defined.

(** X17: trailing slashes on a controller URL make no difference: the same
    client is asked and the same lines and rows come out. *)
Theorem trailing_slashes_ignored
    (connect : string -> string -> string -> Jenkins) (user token : string)
    (max_builds : Z) (since_dt : option Z) (base : string) (n : nat) :
  scan_controller connect user token max_builds since_dt
    (base ++ repeat_char "/" n)
  = scan_controller connect user token max_builds since_dt base.
Proof.
  unfold scan_controller. simpl. now rewrite rstrip_app_repeat.
Qed.

(** ** Splitting and stripping the list of controllers *)

Section DropSpaces.

Variable s1 : ascii -> bool.
Variable s2 : ascii -> ascii -> bool.
Variable s3 : ascii -> ascii -> ascii -> bool.

Lemma drop_spaces_spec (n : nat) (l : list ascii) :
  (List.length l <= n)%nat ->
  no_leading_space s1 s2 s3 (PyStr.drop_spaces s1 s2 s3 l) /\
  exists j : nat, PyStr.drop_spaces s1 s2 s3 l = skipn j l.
Proof.
  revert l. induction n as [|n IH]; intros l Hl.
  - destruct l; [|simpl in Hl; lia]. split; [exact I|now exists O].
  - destruct l as [|a l1]; [split; [exact I|now exists O]|].
    simpl in Hl. simpl.
    destruct (s1 a) eqn:A.
    { destruct (IH l1 ltac:(lia)) as [C [j E]]. split; [exact C|].
      exists (S j). exact E. }
    destruct l1 as [|b l2].
    { split; [simpl; now rewrite A|now exists O]. }
    simpl in Hl. destruct (s2 a b) eqn:B.
    { destruct (IH l2 ltac:(lia)) as [C [j E]]. split; [exact C|].
      exists (S (S j)). exact E. }
    destruct l2 as [|c l3].
    { split; [simpl; now rewrite A, B|now exists O]. }
    simpl in Hl. destruct (s3 a b c) eqn:C3.
    { destruct (IH l3 ltac:(lia)) as [C [j E]]. split; [exact C|].
      exists (S (S (S j))). exact E. }
    split; [simpl; now rewrite A, B, C3|now exists O].
Qed.

Lemma drop_spaces_clean (l : list ascii) :
  no_leading_space s1 s2 s3 l -> PyStr.drop_spaces s1 s2 s3 l = l.
Proof.
  destruct l as [|a [|b [|c l3]]]; simpl; try reflexivity.
  - now intros [-> _].
  - now intros [-> [-> _]].
  - now intros [-> [-> ->]].
Qed.

Lemma no_leading_space_firstn (k : nat) (l : list ascii) :
  no_leading_space s1 s2 s3 l -> no_leading_space s1 s2 s3 (firstn k l).
Proof.
  destruct l as [|a [|b [|c l3]]]; destruct k as [|[|[|k]]]; simpl; tauto.
Qed.

End DropSpaces.

(** The bytes of [s.strip()]: a stretch of the bytes of [s] with no space
    at either end. *)
Lemma strip_bytes (s : string) :
  exists (j k : nat),
    let m := skipn j (list_ascii_of_string s) in
    list_ascii_of_string (PyStr.strip s) = firstn k m /\
    no_leading_space PyStr.space1 PyStr.space2 PyStr.space3 (firstn k m) /\
    no_leading_space PyStr.space1 (fun a b => PyStr.space2 b a)
      (fun a b c => PyStr.space3 c b a) (rev (firstn k m)).
Proof.
  unfold PyStr.strip. set (L := list_ascii_of_string s).
  destruct (drop_spaces_spec PyStr.space1 PyStr.space2 PyStr.space3 _ L (le_n _))
    as [C1 [j E1]].
  fold (PyStr.lstrip L) in C1, E1. set (m := PyStr.lstrip L) in *.
  destruct (drop_spaces_spec PyStr.space1 (fun a b => PyStr.space2 b a)
              (fun a b c => PyStr.space3 c b a) _ (rev m) (le_n _)) as [C2 [k E2]].
  fold (PyStr.rstrip_rev (rev m)) in C2, E2.
  exists j, (List.length m - k)%nat. cbv zeta. rewrite <- E1.
  assert (rev (PyStr.rstrip_rev (rev m)) = firstn (List.length m - k) m) as E3.
  { rewrite E2, skipn_rev. apply rev_involutive. }
  rewrite list_ascii_of_string_of_list_ascii, E3. split; [reflexivity|]. split.
  - now apply no_leading_space_firstn.
  - rewrite <- E3, rev_involutive. exact C2.
Qed.

Lemma strip_idempotent (s : string) : PyStr.strip (PyStr.strip s) = PyStr.strip s.
Proof.
  destruct (strip_bytes s) as (j & k & E & C1 & C2). cbv zeta in *.
  set (m' := firstn k (skipn j (list_ascii_of_string s))) in *.
  assert (PyStr.strip s = string_of_list_ascii m') as ->
    by (rewrite <- E; symmetry; apply string_of_list_ascii_of_string).
  unfold PyStr.strip at 1. rewrite list_ascii_of_string_of_list_ascii.
  unfold PyStr.lstrip, PyStr.rstrip_rev.
  rewrite (drop_spaces_clean _ _ _ _ C1), (drop_spaces_clean _ _ _ _ C2).
  now rewrite rev_involutive.
Qed.

Lemma contains_in (c : ascii) (s : string) :
  contains c s = true <-> In c (list_ascii_of_string s).
Proof.
  induction s as [|a s IH]; simpl.
  - split; [discriminate|intros []].
  - rewrite orb_true_iff, IH. split.
    + intros [H|H]; [left; now apply Ascii.eqb_eq in H|now right].
    + intros [H|H]; [left; now apply Ascii.eqb_eq|now right].
Qed.

Lemma in_firstn {A : Type} (k : nat) (l : list A) (x : A) :
  In x (firstn k l) -> In x l.
Proof.
  intros H. rewrite <- (firstn_skipn k l). apply in_or_app. now left.
Qed.

Lemma in_skipn {A : Type} (k : nat) (l : list A) (x : A) :
  In x (skipn k l) -> In x l.
Proof.
  intros H. rewrite <- (firstn_skipn k l). apply in_or_app. now right.
Qed.

Lemma strip_contains (c : ascii) (s : string) :
  contains c s = false -> contains c (PyStr.strip s) = false.
Proof.
  intros H. destruct (contains c (PyStr.strip s)) eqn:E; [|reflexivity].
  apply contains_in in E. destruct (strip_bytes s) as (j & k & B & _).
  cbv zeta in B. rewrite B in E.
  apply in_firstn, in_skipn in E.
  apply contains_in in E. congruence.
Qed.

Lemma split_not_nil (c : ascii) (s : string) : PyStr.split c s <> [].
Proof.
  destruct s as [|a s]; simpl; [discriminate|].
  destruct (Ascii.eqb a c); [discriminate|].
  destruct (PyStr.split c s); discriminate.
Qed.

Lemma split_pieces_clean (c : ascii) (s : string) :
  Forall (fun piece => contains c piece = false) (PyStr.split c s).
Proof.
  induction s as [|a s IH]; simpl; [repeat constructor|].
  destruct (Ascii.eqb a c) eqn:A; [constructor; [reflexivity|exact IH]|].
  destruct (PyStr.split c s) as [|h t].
  - constructor; [simpl; now rewrite A|constructor].
  - inversion IH as [|? ? Hh Ht]; subst.
    constructor; [simpl; now rewrite A, Hh|exact Ht].
Qed.

Lemma split_clean (c : ascii) (seg : string) :
  contains c seg = false -> PyStr.split c seg = [seg].
Proof.
  induction seg as [|a seg IH]; [reflexivity|].
  simpl. destruct (Ascii.eqb a c); [discriminate|]. simpl.
  intros H. now rewrite (IH H).
Qed.

Lemma split_app_clean (c : ascii) (seg rest : string) :
  contains c seg = false ->
  PyStr.split c (seg ++ String c rest) = seg :: PyStr.split c rest.
Proof.
  induction seg as [|a seg IH].
  - intros _. simpl. now rewrite Ascii.eqb_refl.
  - simpl. destruct (Ascii.eqb a c); [discriminate|]. simpl.
    intros H. now rewrite (IH H).
Qed.

Lemma split_concat (c : ascii) (segs : list string) :
  segs <> [] ->
  Forall (fun seg => contains c seg = false) segs ->
  PyStr.split c (String.concat (String c "") segs) = segs.
Proof.
  intros Hne H. induction H as [|seg segs H _ IH]; [contradiction|].
  destruct segs as [|seg' segs].
  - simpl. now apply split_clean.
  - change (String.concat (String c "") (seg :: seg' :: segs))
      with (seg ++ String c (String.concat (String c "") (seg' :: segs))).
    rewrite (split_app_clean _ _ _ H). f_equal. apply IH. discriminate.
Qed.

Lemma strip_kept_all (cs : list string) :
  Forall (fun c => c <> "" /\ contains "," c = false /\ PyStr.strip c = c) cs ->
  map PyStr.strip (filter (fun c => PyStr.truthy (PyStr.strip c)) cs) = cs.
Proof.
  induction 1 as [|x l (Hx & _ & Hs) _ IH]; [reflexivity|].
  simpl. rewrite Hs. unfold PyStr.truthy at 1.
  destruct (String.eqb_spec x ""); [contradiction|]. simpl.
  now rewrite Hs, IH.
Qed.

(** A controller as main keeps it: not empty, without comma, and with no
    space at either end. *)
Lemma parse_controllers_join (cs : list string) :
  Forall (fun c => c <> "" /\ contains "," c = false /\ PyStr.strip c = c) cs ->
  parse_controllers (String.concat "," cs) = cs.
Proof.
  intros H. unfold parse_controllers. destruct cs as [|c cs]; [reflexivity|].
  rewrite split_concat; [now apply strip_kept_all|discriminate|].
  eapply Forall_impl; [|exact H]. now intros a (_ & Ha & _).
Qed.

Lemma parse_controllers_kept (s : string) :
  Forall (fun c => c <> "" /\ contains "," c = false /\ PyStr.strip c = c)
    (parse_controllers s).
Proof.
  unfold parse_controllers. apply Forall_map, Forall_forall.
  intros piece Hp. apply filter_In in Hp. destruct Hp as [Hin Ht].
  split; [|split].
  - unfold PyStr.truthy in Ht. destruct (String.eqb_spec (PyStr.strip piece) "");
      [discriminate|assumption].
  - apply strip_contains.
    exact (proj1 (Forall_forall _ _) (split_pieces_clean "," s) piece Hin).
  - apply strip_idempotent.
Qed.

(** X18: the controllers that main keeps are not empty, hold no comma and
    have no space at either end; joining them with commas and parsing again
    gives them back. *)
Theorem parse_controllers_normal (s : string) :
  Forall (fun c => c <> "" /\ contains "," c = false /\ PyStr.strip c = c)
    (parse_controllers s) /\
  parse_controllers (String.concat "," (parse_controllers s))
  = parse_controllers s.
Proof.
  split; [apply parse_controllers_kept|].
  apply parse_controllers_join, parse_controllers_kept.
Qed.

(** X19: a list of controllers that are not empty, hold no comma and have
    no space at either end is read back unchanged from its comma-separated
    text; the empty text gives no controller. *)
Theorem parse_controllers_round_trip (cs : list string) :
  Forall (fun c => c <> "" /\ contains "," c = false /\ PyStr.strip c = c) cs ->
  parse_controllers (String.concat "," cs) = cs.
Proof. apply parse_controllers_join. Qed.

Lemma parse_controllers_round_trip_witness :
  parse_controllers "https://a.example.com,https://b.example.com/"
  = ["https://a.example.com"; "https://b.example.com/"].
Proof.
  apply (parse_controllers_round_trip
           ["https://a.example.com"; "https://b.example.com/"]).
  repeat constructor; discriminate.
Defined.

(** ** The outcomes of main *)

Lemma parse_controllers_nil (s : string) :
  parse_controllers s = [] <->
  Forall (fun piece => PyStr.strip piece = "") (PyStr.split "," s).
Proof.
  unfold parse_controllers.
  induction (PyStr.split "," s) as [|piece l IH]; simpl.
  - split; [constructor|reflexivity].
  - unfold PyStr.truthy at 1.
    destruct (String.eqb_spec (PyStr.strip piece) "") as [E|N]; simpl.
    + rewrite IH. split; [now constructor|]. intros H. now inversion H.
    + split; [discriminate|]. intros H. inversion H. contradiction.
Qed.

Lemma truthy_false (s : string) : PyStr.truthy s = false <-> s = "".
Proof.
  unfold PyStr.truthy. destruct (String.eqb_spec s ""); simpl.
  - tauto.
  - split; [discriminate|contradiction].
Qed.

Lemma credentials_missing (args : Args) :
  negb (PyStr.truthy (arg_user args)) || negb (PyStr.truthy (arg_token args)) = true
  <-> arg_user args = "" \/ arg_token args = "".
Proof.
  rewrite orb_true_iff, !negb_true_iff, !truthy_false. tauto.
Qed.

(** X20: main stops with "no controllers" exactly when every
    comma-separated piece of [--controllers] is blank, and with "credentials
    required" exactly when some controller is given and the user or the
    token is empty; in both cases whatever the controllers, the disk and the
    clock are. *)
Theorem main_stops_early (sort_values : SortKey -> list Row -> list Row)
    (connect : string -> string -> string -> Jenkins)
    (write : Written -> res unit) (now : Z) (args : Args) :
  (main sort_values connect write now args = Ok NoControllersProvided <->
   Forall (fun piece => PyStr.strip piece = "")
     (PyStr.split "," (arg_controllers args))) /\
  (main sort_values connect write now args = Ok CredentialsRequired <->
   parse_controllers (arg_controllers args) <> [] /\
   (arg_user args = "" \/ arg_token args = "")).
Proof.
  rewrite <- parse_controllers_nil. unfold main.
  destruct (parse_controllers (arg_controllers args)) as [|c cs] eqn:P.
  - split; [tauto|]. split; [discriminate|]. intros [N _]. now contradiction N.
  - pose proof (credentials_missing args) as C.
    destruct (negb (PyStr.truthy (arg_user args))
              || negb (PyStr.truthy (arg_token args))).
    + split; [split; discriminate|]. split; [|reflexivity].
      intros _. split; [discriminate|now apply C].
    + assert (~ (arg_user args = "" \/ arg_token args = "")) as N
        by (intros H; apply C in H; discriminate).
      destruct (collect_stats _ _ _ _ _ _ _) as [[log rows]|e]; cbn [res_bind].
      * destruct (report _ _ _ rows) as [[df pv]|].
        -- destruct (write (WroteCSV _ _)); cbn [res_bind];
             [destruct (PyStr.truthy (arg_json args));
              [destruct (write (WroteJSON _ _)); cbn [res_bind]|]|];
             (split; [split; discriminate|]); (split; [discriminate|tauto]).
        -- split; [split; discriminate|]. split; [discriminate|tauto].
      * split; [split; discriminate|]. split; [discriminate|tauto].
Qed.

(** X21: what each outcome of main tells.  A report comes from a collection
    that returned at least one row: the frame, sorted on the chosen column,
    was written to the CSV file and, when a path is given, to the JSON file,
    and the preview is the head of that frame.  Without rows nothing is
    written.  main raises what the collection raises, or, after a
    collection that returned rows, what the writing of the CSV file raises,
    or what the writing of the JSON file raises once the CSV file is
    written. *)
Theorem main_outcomes (sort_values : SortKey -> list Row -> list Row)
    (connect : string -> string -> string -> Jenkins)
    (write : Written -> res unit) (now : Z) (args : Args) :
  let collection :=
    collect_stats connect (arg_user args) (arg_token args)
      (arg_max_builds args) now (parse_controllers (arg_controllers args))
      (arg_days args) in
  let csv := WroteCSV (arg_out args) in
  let json := WroteJSON (arg_json args) in
  match main sort_values connect write now args with
  | Ok NoControllersProvided => parse_controllers (arg_controllers args) = []
  | Ok CredentialsRequired => arg_user args = "" \/ arg_token args = ""
  | Ok (NoJobData log) => collection = Ok (log, [])
  | Ok (Reported log df_sorted top_preview files) =>
      exists rows : list Row,
        collection = Ok (log, rows) /\ rows <> [] /\
        df_sorted = sort_values (arg_sort args) rows /\
        top_preview = map preview_row (Pandas.head (arg_top args) df_sorted) /\
        write (csv df_sorted) = Ok tt /\
        (if String.eqb (arg_json args) "" then files = [csv df_sorted]
         else write (json df_sorted) = Ok tt /\
              files = [csv df_sorted; json df_sorted])
  | Raise e =>
      collection = Raise e \/
      exists (log : list Event) (rows : list Row),
        collection = Ok (log, rows) /\ rows <> [] /\
        (write (csv (sort_values (arg_sort args) rows)) = Raise e \/
         write (csv (sort_values (arg_sort args) rows)) = Ok tt /\
         arg_json args <> "" /\
         write (json (sort_values (arg_sort args) rows)) = Raise e)
  end.
Proof.
  intros collection csv json. subst collection csv json. unfold main.
  destruct (parse_controllers (arg_controllers args)) as [|c cs] eqn:P;
    [reflexivity|].
  pose proof (credentials_missing args) as C.
  destruct (negb (PyStr.truthy (arg_user args))
            || negb (PyStr.truthy (arg_token args))); [now apply C|].
  destruct (collect_stats _ _ _ _ _ _ _) as [[log rows]|e]; cbn [res_bind];
    [|now left].
  destruct rows as [|r rows]; [reflexivity|].
  cbn [report].
  set (df := sort_values (arg_sort args) (r :: rows)).
  destruct (write (WroteCSV (arg_out args) df)) as [[]|e] eqn:W1; cbn [res_bind].
  - unfold PyStr.truthy.
    destruct (String.eqb_spec (arg_json args) "") as [E|N]; cbn [negb].
    + exists (r :: rows). repeat split; try assumption; discriminate.
    + destruct (write (WroteJSON (arg_json args) df)) as [[]|e] eqn:W2;
        cbn [res_bind].
      * exists (r :: rows). repeat split; try assumption; discriminate.
      * right. exists log, (r :: rows). repeat split; [discriminate|].
        right. repeat split; assumption.
  - right. exists log, (r :: rows). repeat split; [discriminate|]. now left.
Qed.

(** A run over controllers C and A with [--top 1] and a JSON path, on a
    disk that takes every file. *)
Lemma main_outcomes_witness :
  exists (log : list Event) (df_sorted : list Row)
         (top_preview : list PreviewRow) (files : list Written),
    main Pandas.sort_values_stable Fleet.connect Disk.writable Scenario.now
      {| arg_controllers := "https://c.example.com/ , https://a.example.com";
         arg_user := "user"; arg_token := "token"; arg_verify_tls := false;
         arg_days := 30; arg_max_builds := 200; arg_top := 1;
         arg_sort := by_builds; arg_out := "top_jobs.csv";
         arg_json := "top_jobs.json" |}
    = Ok (Reported log df_sorted top_preview files) /\
    (exists rows : list Row,
       rows <> [] /\ df_sorted = Pandas.sort_values_stable by_builds rows) /\
    top_preview = map preview_row (Pandas.head 1 df_sorted) /\
    files = [WroteCSV "top_jobs.csv" df_sorted; WroteJSON "top_jobs.json" df_sorted].
Proof.
  pose proof (main_outcomes Pandas.sort_values_stable Fleet.connect Disk.writable
    Scenario.now
    {| arg_controllers := "https://c.example.com/ , https://a.example.com";
       arg_user := "user"; arg_token := "token"; arg_verify_tls := false;
       arg_days := 30; arg_max_builds := 200; arg_top := 1;
       arg_sort := by_builds; arg_out := "top_jobs.csv";
       arg_json := "top_jobs.json" |}) as H.
  cbv zeta in H.
  remember (main Pandas.sort_values_stable Fleet.connect Disk.writable
              Scenario.now _) as out eqn:E.
  vm_compute in E. subst out.
  destruct H as (rows & _ & Hne & Hs & Hpv & _ & _ & Hf).
  eexists _, _, _, _. split; [reflexivity|]. split; [|split].
  - exists rows. split; [exact Hne|exact Hs].
  - exact Hpv.
  - exact Hf.
Defined.

(** The same run on a disk that takes no JSON file, and on one that takes
    no file at all: main raises. *)
Example main_raises_on_write :
  let args :=
    {| arg_controllers := "https://c.example.com/ , https://a.example.com";
       arg_user := "user"; arg_token := "token"; arg_verify_tls := false;
       arg_days := 30; arg_max_builds := 200; arg_top := 1;
       arg_sort := by_builds; arg_out := "top_jobs.csv";
       arg_json := "top_jobs.json" |} in
  main Pandas.sort_values_stable Fleet.connect Disk.csv_only Scenario.now args
  = Raise OSError /\
  main Pandas.sort_values_stable Fleet.connect Disk.read_only Scenario.now args
  = Raise OSError.
Proof. split; vm_compute; reflexivity. Qed.

(** X22: the preview has [top] rows, or all the rows when there are fewer;
    with a negative [top] it has all the rows but the last [-top]. *)
Theorem preview_length (sort_values : SortKey -> list Row -> list Row)
    (by_ : SortKey) (top : Z) (rows df_sorted : list Row)
    (top_preview : list PreviewRow) :
  Pandas.sorts_descending sort_values ->
  report sort_values by_ top rows = Some (df_sorted, top_preview) ->
  List.length top_preview
  = if 0 <=? top then Nat.min (Z.to_nat top) (List.length rows)
    else (List.length rows - Z.to_nat (- top))%nat.
Proof.
  intros Hs H. unfold report in H. destruct rows as [|r rows]; [discriminate|].
  injection H as <- <-. destruct (Hs by_ (r :: rows)) as [Hp _].
  rewrite (Permutation_length Hp), length_map.
  unfold Pandas.head, Py.slice_to.
  destruct (0 <=? top); rewrite length_firstn; lia.
Qed.

Lemma preview_length_witness :
  exists (df_sorted : list Row) (top_preview : list PreviewRow),
    report Pandas.sort_values_stable by_builds (-1)
      (Scenario.tied_rows ++ Scenario.rows_a)
    = Some (df_sorted, top_preview) /\
    List.length top_preview = 2%nat.
Proof.
  eexists _, _. split; [reflexivity|].
  exact (preview_length Pandas.sort_values_stable by_builds (-1)
           (Scenario.tied_rows ++ Scenario.rows_a) _ _
           sort_values_stable_sorts eq_refl).
Defined.

(** ** The ends of the failure rate *)

(** X23: a row without failures has a failure rate of 0 and a row of
    failures only has one of 100; a row with a failure and at most 10000
    builds has a failure rate of at least 0.01. *)
Theorem failure_rate_extremes (controller_url name : string) (info : JobInfo)
    (bs : list BuildInfo) :
  bs <> [] ->
  let r := make_row controller_url name info bs in
  (failures r = 0 -> (failure_rate r == 0)%Q) /\
  (failures r = builds r -> (failure_rate r == 100)%Q) /\
  (0 < failures r -> builds r <= 10000 -> (1 # 100 <= failure_rate r)%Q).
Proof.
  intros H r.
  pose proof (failure_rate_of_row controller_url name info bs) as E.
  cbv zeta in E. fold r in E.
  pose proof (builds_positive controller_url name info bs H) as Hc. fold r in Hc.
  assert (inject_Z 1 <= inject_Z (builds r))%Q as C1 by now rewrite <- Zle_Qle.
  change (inject_Z 1) with 1%Q in C1.
  assert (~ inject_Z (builds r) == 0)%Q as C0 by lra.
  rewrite E. unfold Float.mul, Float.true_div. split; [|split].
  - intros ->.
    assert (inject_Z 0 / inject_Z (builds r) == 0)%Q as Z0
      by (change (inject_Z 0) with 0%Q; field; exact C0).
    rewrite (rnd_zero _ Z0). reflexivity.
  - intros ->.
    assert (inject_Z (builds r) / inject_Z (builds r) == 1)%Q as Z1
      by (field; exact C0).
    rewrite (rnd_comp _ _ Z1). reflexivity.
  - intros Hf Hb.
    assert (inject_Z 1 <= inject_Z (failures r))%Q as F1
      by (rewrite <- Zle_Qle; lia).
    assert (inject_Z (builds r) <= inject_Z 10000)%Q as B1
      by now rewrite <- Zle_Qle.
    change (inject_Z 1) with 1%Q in F1. change (inject_Z 10000) with 10000%Q in B1.
    apply Qle_trans
      with (Py.round2 (Float.rnd (Float.rnd (1 # 10000) * 100)));
      [vm_compute; discriminate|].
    apply round2_mono, rnd_mono.
    apply Qmult_le_compat_r; [|discriminate].
    apply rnd_mono. apply Qle_shift_div_l; lra.
Qed.

Lemma failure_rate_extremes_witness :
  (1 # 100 <= failure_rate
                (make_row "https://a.example.com" "build"
                   {| info_builds := None; info_url := None |}
                   [Scenario.build 1 60000 "FAILURE"]))%Q.
Proof.
  exact (proj2 (proj2 (failure_rate_extremes "https://a.example.com" "build"
           {| info_builds := None; info_url := None |}
           [Scenario.build 1 60000 "FAILURE"] ltac:(discriminate)))
           eq_refl ltac:(discriminate)).
Defined.

(** ** Collections side by side *)

(** X24: collecting from two lists of controllers one after the other, with
    the same clock and window, gives the lines and rows of the first list
    followed by those of the second: rows stand grouped by controller, in
    the order the controllers were given. *)
Theorem collection_composes
    (connect : string -> string -> string -> Jenkins) (user token : string)
    (max_builds now days : Z) (cs1 cs2 : list string)
    (log1 log2 : list Event) (rows1 rows2 : list Row) :
  collect_stats connect user token max_builds now cs1 days = Ok (log1, rows1) ->
  collect_stats connect user token max_builds now cs2 days = Ok (log2, rows2) ->
  collect_stats connect user token max_builds now (cs1 ++ cs2) days
  = Ok ((log1 ++ log2)%list, (rows1 ++ rows2)%list).
Proof.
  unfold collect_stats. destruct (window_start now days) as [since_dt|e]; [|discriminate].
  cbn [res_bind]. intros H1 H2. injection H1 as H1. injection H2 as H2.
  rewrite scan_controllers_app. unfold collected_rows. now rewrite H1, H2.
Qed.

Lemma collection_composes_witness :
  exists (log : list Event) (rows : list Row),
    collect_stats Fleet.connect "user" "token" 200 Scenario.now
      (["https://c.example.com"] ++ ["https://a.example.com"]) 30
    = Ok (log, rows) /\ List.length rows = 2%nat.
Proof.
  eexists _, _. split.
  - apply (collection_composes Fleet.connect "user" "token" 200 Scenario.now 30
             ["https://c.example.com"] ["https://a.example.com"]);
      reflexivity.
  - reflexivity.
Defined.
